(** * TaskForce backend: the request handlers of [index.js]

    A shallow embedding of the Express handlers registered in [run()]
    (users: upsert and lookup; tasks: create, list, fetch, update, delete)
    over a model of the two MongoDB collections they share, followed by the
    properties the specification states about them.

    Conventions.
    - A JavaScript value is a [value]; a stored document and a JSON response
      object are finite maps from member names to values.
    - A JavaScript number is an IEEE-754 binary64, [spec_float] with
      [prec = 53] and [emax = 1024].
    - A string is a [string] whose characters stand for code units below 256;
      [toLowerCase] and [trim] are the language's functions on that range.
    - A conversion ([String(v)], [Number(v)], [new Date(v)]) either gives its
      result or throws: an [outcome].
    - A handler is a computation in the monad [M]: it reads and writes the
      database, every driver call may reject, and [try_catch] is the
      handler's [try { } catch { }]. *)

Set Warnings "-register-all".
From Stdlib Require Import ZArith NArith String Ascii List Bool Lia DecimalString.
From Stdlib Require Import SpecFloat.
From stdpp Require Import gmap strings list sorting.

Local Open Scope string_scope.
Local Open Scope Z_scope.

(** ** Numbers *)

Definition number : Type := spec_float.

Definition prec : Z := 53.
Definition emax : Z := 1024.

Definition NaN : number := S754_nan.
Definition Infinity : number := S754_infinity false.

(** [isNaN(x)] for an [x] that is already a number. *)
Definition isNaN (x : number) : bool :=
  match x with S754_nan => true | _ => false end.

(** [Number.isFinite(x)]. *)
Definition isFinite (x : number) : bool :=
  match x with S754_zero _ | S754_finite _ _ _ => true | _ => false end.

(** The number nearest to the integer [z] (ties to even). *)
Definition number_of_Z (z : Z) : number := binary_normalize prec emax z 0 false.

(** The number nearest to [m * 10^e10], of sign [neg], for [0 <= m]: the
    value of a decimal literal, rounded once to nearest, ties to even. A
    negative decimal exponent is a division of two integers. *)
Definition number_of_decimal (neg : bool) (m e10 : Z) : number :=
  match m with
  | Z0 => S754_zero neg
  | Zpos _ =>
      if 0 <=? e10 then
        match m * 10 ^ e10 with
        | Zpos p => binary_round prec emax neg p 0
        | _ => S754_zero neg
        end
      else
        let '(q, e', l) := SFdiv_core_binary prec emax m 0 (10 ^ (- e10)) 0 in
        binary_round_aux prec emax neg q e' l
  | Zneg _ => NaN
  end.

(** ** Strings *)

(** WhiteSpace and LineTerminator code units below 256: TAB, LF, VT, FF, CR,
    SP and NBSP. *)
Definition is_white (c : ascii) : bool :=
  let n := N_of_ascii c in
  (((9 <=? n) && (n <=? 13)) || (n =? 32) || (n =? 160))%N.

Fixpoint trimStart (s : string) : string :=
  match s with
  | String c r => if is_white c then trimStart r else s
  | EmptyString => EmptyString
  end.

Definition trimEnd (s : string) : string := String.rev (trimStart (String.rev s)).

(** [String.prototype.trim]. *)
Definition trim (s : string) : string := trimEnd (trimStart s).

Definition lower_unit (c : ascii) : ascii :=
  let n := N_of_ascii c in
  if (((65 <=? n) && (n <=? 90))
      || ((192 <=? n) && (n <=? 222) && negb (n =? 215)))%N
  then ascii_of_N (n + 32) else c.

(** [String.prototype.toLowerCase]. *)
Fixpoint toLowerCase (s : string) : string :=
  match s with
  | String c r => String (lower_unit c) (toLowerCase r)
  | EmptyString => EmptyString
  end.

(** *** StringToNumber

    The StringNumericLiteral grammar: optional white space around an
    optional literal, which is a signed decimal literal (with [Infinity]) or
    an unsigned binary, octal or hexadecimal integer. *)

Definition digit_in (base : Z) (c : ascii) : option Z :=
  let n := Z.of_N (N_of_ascii c) in
  let d := if (48 <=? n) && (n <=? 57) then n - 48
           else if (97 <=? n) && (n <=? 102) then n - 87
           else if (65 <=? n) && (n <=? 70) then n - 55
           else 16 in
  if d <? base then Some d else None.

(** The longest prefix of digits of [s] in [base]: accumulated value, number
    of digits and what follows. *)
Fixpoint read_digits (base acc cnt : Z) (s : string) : Z * Z * string :=
  match s with
  | String c r =>
      match digit_in base c with
      | Some d => read_digits base (acc * base + d) (cnt + 1) r
      | None => (acc, cnt, s)
      end
  | EmptyString => (acc, cnt, s)
  end.

(** ExponentPart, when the literal has one: [e] or [E], an optional sign and
    at least one digit, up to the end of the literal. *)
Definition read_exponent (s : string) : option Z :=
  match s with
  | EmptyString => Some 0
  | String c r =>
      if (c =? "e")%char || (c =? "E")%char then
        let '(neg, r') :=
          match r with
          | String "+" r' => (false, r')
          | String "-" r' => (true, r')
          | _ => (false, r)
          end in
        match read_digits 10 0 0 r' with
        | (x, cnt, EmptyString) =>
            if 0 <? cnt then Some (if neg then - x else x) else None
        | _ => None
        end
      else None
  end.

(** StrUnsignedDecimalLiteral without [Infinity]: digits, an optional
    fraction, an optional exponent; at least one digit before the exponent. *)
Definition unsigned_decimal (neg : bool) (s : string) : number :=
  let '(ip, ni, r1) := read_digits 10 0 0 s in
  let '(m, nf, r2) :=
    match r1 with
    | String "." r => read_digits 10 ip 0 r
    | _ => (ip, 0, r1)
    end in
  if 0 <? ni + nf then
    match read_exponent r2 with
    | Some x => number_of_decimal neg m (x - nf)
    | None => NaN
    end
  else NaN.

Definition str_decimal (neg : bool) (s : string) : number :=
  if String.eqb s "Infinity" then S754_infinity neg else unsigned_decimal neg s.

Definition non_decimal (base : Z) (s : string) : number :=
  match read_digits base 0 0 s with
  | (x, cnt, EmptyString) => if 0 <? cnt then number_of_Z x else NaN
  | _ => NaN
  end.

Definition StringToNumber (s : string) : number :=
  match trim s with
  | EmptyString => S754_zero false
  | String "+" r => str_decimal false r
  | String "-" r => str_decimal true r
  | String "0" (String c r) as t =>
      if (c =? "x")%char || (c =? "X")%char then non_decimal 16 r
      else if (c =? "o")%char || (c =? "O")%char then non_decimal 8 r
      else if (c =? "b")%char || (c =? "B")%char then non_decimal 2 r
      else str_decimal false t
  | t => str_decimal false t
  end.

(** ** ObjectId

    The twelve bytes of an identifier, read as one big-endian natural. *)

Definition ObjectId : Type := N.

(** [new ObjectId(s)] for a string, as the driver's current BSON library
    has it: exactly 24 hexadecimal digits, or the constructor throws
    ([None]). *)
Definition ObjectId_new (s : string) : option ObjectId :=
  if (String.length s =? 24)%nat then
    match read_digits 16 0 0 s with
    | (x, _, EmptyString) => Some (Z.to_N x)
    | _ => None
    end
  else None.

Definition hex_unit (d : N) : ascii :=
  ascii_of_N (if (d <? 10)%N then d + 48 else d + 87).

Fixpoint hex_digits (k : nat) (n : N) (acc : string) : string :=
  match k with
  | O => acc
  | S k' => hex_digits k' (n / 16)%N (String (hex_unit (n mod 16)%N) acc)
  end.

(** [ObjectId.prototype.toString]: 24 lower-case hexadecimal digits. *)
Definition ObjectId_toString (o : ObjectId) : string := hex_digits 24 o "".


(** ** Values *)

Inductive value : Type :=
| VUndef
| VNull
| VBool (b : bool)
| VNum (n : number)
| VStr (s : string)
| VArr (l : list value)
| VObj (m : list (string * value))
| VDate (t : Z)
| VOid (o : ObjectId).

(** ** Exceptions

    What a [throw] carries: the name of the error and, for an error of the
    store, its code. An [outcome] is the result of an evaluation that may
    throw. *)

Record exn : Type := { exn_name : string; exn_code : option Z }.

Inductive outcome (A : Type) : Type :=
| Ok (a : A)
| Throw (e : exn).
Arguments Ok {A} a.
Arguments Throw {A} e.

#[global] Instance outcome_ret : MRet outcome := fun A a => Ok a.

#[global] Instance outcome_bind : MBind outcome := fun A B k m =>
  match m with
  | Ok a => k a
  | Throw e => Throw e
  end.

Definition BSONError : exn := {| exn_name := "BSONError"; exn_code := None |}.
Definition TypeError : exn := {| exn_name := "TypeError"; exn_code := None |}.

(** What lies outside the program's code and is not reproduced here.
    - The built-ins whose results the language leaves to the implementation
      or whose algorithm is long: the string of a number, the parsing and the
      printing of a date. A [Date] is its time value in milliseconds; [None]
      is an unparsable date string.
    - The store's reading of a query operand that is an operator document,
      as in [{email: {$gt: ""}}]: whether the operators hold of a document
      at a path, and the value an upsert copies from the operand into the
      document it inserts (the operand of an equality operator; the other
      operators leave the field out). *)
Record Host : Type := {
  Number_toString : number -> string;
  Date_parse : string -> option Z;
  Date_toString : Z -> string;
  Operator_holds : list (string * value) -> gmap string value -> string -> bool;
  Operator_seed : list (string * value) -> option value
}.

(** ToBoolean: what [!v] and [v || w] test. *)
Definition ToBoolean (v : value) : bool :=
  match v with
  | VUndef | VNull => false
  | VBool b => b
  | VNum (S754_zero _) | VNum S754_nan => false
  | VNum _ => true
  | VStr EmptyString => false
  | VStr _ => true
  | VArr _ | VObj _ | VDate _ | VOid _ => true
  end.

(** [a || b]. *)
Definition js_or (a b : value) : value := if ToBoolean a then a else b.

(** [a !== b] where [b] is a string. *)
Definition strict_neq_str (a : value) (b : string) : bool :=
  match a with
  | VStr s => negb (String.eqb s b)
  | _ => true
  end.

(** Member access [v.k] on a value read from JSON or from the store; an
    object keeps its members in order and the last duplicate wins. *)
Fixpoint assoc (k : string) (m : list (string * value)) : option value :=
  match m with
  | [] => None
  | (k', v) :: r =>
      match assoc k r with
      | Some w => Some w
      | None => if String.eqb k k' then Some v else None
      end
  end.

Definition prop (v : value) (k : string) : value :=
  match v with
  | VObj m => default VUndef (assoc k m)
  | _ => VUndef
  end.

(** Optional chaining [v?.k]. *)
Definition opt_prop (v : value) (k : string) : value :=
  match v with
  | VUndef | VNull => VUndef
  | _ => prop v k
  end.

(** TimeClip of a number: an integral time value within 8.64e15 ms of the
    epoch, or an invalid date. *)
Definition TimeClip_Z (t : Z) : option Z :=
  if Z.abs t <=? 8640000000000000 then Some t else None.

Definition TimeClip (x : number) : option Z :=
  match x with
  | S754_zero _ => Some 0
  | S754_finite s m e =>
      let a := if 0 <=? e then Zpos m * 2 ^ e else Zpos m / 2 ^ (- e) in
      TimeClip_Z (if s then - a else a)
  | _ => None
  end.

Section Coercions.
Variable H : Host.

(** [String(v)]. An object is converted through its [toString]: a plain
    object inherits the one that gives ["[object Object]"], unless it has a
    member of that name of its own; such a member, read from JSON or from
    the store, is never a function, and with it the conversion throws a
    [TypeError] (the inherited [valueOf] returns the object itself). An array
    joins the strings of its elements with commas, [null] and [undefined]
    elements giving the empty string, and throws when an element does. *)
Fixpoint ToString (v : value) : outcome string :=
  match v with
  | VUndef => Ok "undefined"
  | VNull => Ok "null"
  | VBool true => Ok "true"
  | VBool false => Ok "false"
  | VNum n => Ok (Number_toString H n)
  | VStr s => Ok s
  | VArr l =>
      (fix join (l : list value) : outcome string :=
         match l with
         | [] => Ok ""
         | x :: r =>
             match (match x with
                    | VUndef | VNull => Ok ""
                    | _ => ToString x
                    end) with
             | Throw e => Throw e
             | Ok sx =>
                 match r with
                 | [] => Ok sx
                 | _ => match join r with
                        | Throw e => Throw e
                        | Ok sr => Ok (sx ++ "," ++ sr)
                        end
                 end
             end
         end) l
  | VObj m =>
      match assoc "toString" m with
      | Some _ => Throw TypeError
      | None => Ok "[object Object]"
      end
  | VDate t => Ok (Date_toString H t)
  | VOid o => Ok (ObjectId_toString o)
  end.

(** [Number(v)]: an object is converted through its string (its [valueOf]
    gives no primitive), and throws when that does. *)
Definition ToNumber (v : value) : outcome number :=
  match v with
  | VUndef => Ok NaN
  | VNull => Ok (S754_zero false)
  | VBool true => Ok (number_of_Z 1)
  | VBool false => Ok (S754_zero false)
  | VNum n => Ok n
  | VStr s => Ok (StringToNumber s)
  | VDate t => Ok (number_of_Z t)
  | VArr _ | VObj _ | VOid _ => s ← ToString v; Ok (StringToNumber s)
  end.

(** [new Date(v).getTime()], [None] for NaN: a string (or an object, through
    its string) is parsed, any other primitive is a time value. *)
Definition Date_new (v : value) : outcome (option Z) :=
  match v with
  | VDate t => Ok (Some t)
  | VStr _ | VArr _ | VObj _ | VOid _ =>
      s ← ToString v;
      Ok match Date_parse H s with
         | Some t => TimeClip_Z t
         | None => None
         end
  | _ => n ← ToNumber v; Ok (TimeClip n)
  end.
End Coercions.

(** ** The document store

    A document is a finite map from field names to values; a collection is
    the list of its documents in natural (insertion) order. An operand of a
    query is compared as a literal, unless it is an operator document: then
    the host says whether it holds. *)

Abbreviation doc := (gmap string value).

(** [d.k] on a document: [undefined] when the field is absent. *)
Definition field (d : doc) (k : string) : value := default VUndef (d !! k).

(** Equality of stored values as the store's matcher sees it: numbers by
    value (NaN equal to itself, the two zeros equal), embedded documents
    member by member in order. *)
Definition number_eqb (a b : number) : bool :=
  match SFcompare a b with
  | Some Eq => true
  | Some _ => false
  | None => isNaN a && isNaN b
  end.

Fixpoint bson_eqb (a b : value) : bool :=
  match a, b with
  | VUndef, VUndef | VUndef, VNull | VNull, VUndef | VNull, VNull => true
  | VBool x, VBool y => Bool.eqb x y
  | VNum x, VNum y => number_eqb x y
  | VStr x, VStr y => String.eqb x y
  | VDate x, VDate y => x =? y
  | VOid x, VOid y => (x =? y)%N
  | VArr l, VArr l' =>
      (fix all2 (l l' : list value) : bool :=
         match l, l' with
         | [], [] => true
         | x :: r, y :: r' => bson_eqb x y && all2 r r'
         | _, _ => false
         end) l l'
  | VObj m, VObj m' =>
      (fix all2 (m m' : list (string * value)) : bool :=
         match m, m' with
         | [], [] => true
         | (k, x) :: r, (k', y) :: r' => String.eqb k k' && bson_eqb x y && all2 r r'
         | _, _ => false
         end) m m'
  | _, _ => false
  end.

(** A dotted path, split at its dots. *)
Fixpoint split_path (acc s : string) : list string :=
  match s with
  | EmptyString => [String.rev acc]
  | String c r =>
      if (c =? ".")%char then String.rev acc :: split_path "" r
      else split_path (String c acc) r
  end.

(** The values a path reaches below a field: through embedded documents,
    and through each document element of an array on the way. The paths of
    this program have no numeric component, so positions in arrays are not
    interpreted. *)
Fixpoint reach (p : list string) (v : option value) : list (option value) :=
  match p with
  | [] => [v]
  | k :: p' =>
      match v with
      | Some (VObj m) => reach p' (assoc k m)
      | Some (VArr l) =>
          flat_map (fun x => match x with
                             | VObj m => reach p' (assoc k m)
                             | _ => []
                             end) l
      | _ => [None]
      end
  end.

(** [{path: v}] at a reached value: equal to it, or an array holding an
    equal element; an absent field equals only [null]. *)
Definition leaf_match (c : option value) (v : value) : bool :=
  match c with
  | None => bson_eqb VNull v
  | Some x =>
      bson_eqb x v
      || match x with
         | VArr l => existsb (fun y => bson_eqb y v) l
         | _ => false
         end
  end.

(** [{path: v}] for a literal [v]. *)
Definition literal_holds (d : doc) (path : string) (v : value) : bool :=
  match split_path "" path with
  | k :: p => existsb (fun c => leaf_match c v) (reach p (d !! k))
  | [] => false
  end.

Definition is_operator_name (k : string) : bool :=
  match k with
  | String "$" _ => true
  | _ => false
  end.

(** An operand the store does not compare as a literal: an object with a
    member whose name starts with [$]. *)
Definition operator_doc (v : value) : option (list (string * value)) :=
  match v with
  | VObj m => if existsb (fun kv => is_operator_name kv.1) m then Some m else None
  | _ => None
  end.

Section Store.
Variable H : Host.

Definition cond_holds (d : doc) (path : string) (v : value) : bool :=
  match operator_doc v with
  | Some m => Operator_holds H m d path
  | None => literal_holds d path v
  end.

(** A query [{k1: v1, ..., kn: vn}] is the conjunction of its conditions. *)
Definition query : Type := list (string * value).

Definition matches (q : query) (d : doc) : bool :=
  forallb (fun kv => cond_holds d kv.1 kv.2) q.

(** The fields an upsert takes from its query: the literal operands, and
    what the host copies from the others. *)
Definition seed (q : query) : list (string * value) :=
  flat_map (fun kv => match operator_doc kv.2 with
                      | Some m => match Operator_seed H m with
                                  | Some x => [(kv.1, x)]
                                  | None => []
                                  end
                      | None => [kv]
                      end) q.
End Store.

(** [$set]: each listed field is written, the others are kept. *)
Definition apply_set (l : list (string * value)) (d : doc) : doc :=
  foldl (fun d kv => <[kv.1 := kv.2]> d) d l.

Fixpoint update_first (p : doc -> bool) (f : doc -> doc) (l : list doc) : list doc :=
  match l with
  | [] => []
  | d :: r => if p d then f d :: r else d :: update_first p f r
  end.

Fixpoint delete_first (p : doc -> bool) (l : list doc) : list doc :=
  match l with
  | [] => []
  | d :: r => if p d then r else d :: delete_first p r
  end.

(** The sort key of a field: the rank of its BSON type in the store's
    comparison order (null and absent lowest, then numbers, strings,
    documents, arrays, identifiers, booleans, dates), refined by the value
    for dates, booleans and identifiers. Values of the other types are not
    told apart among themselves. *)
Definition sort_key (v : option value) : Z * Z :=
  match v with
  | None | Some VUndef | Some VNull => (1, 0)
  | Some (VNum _) => (2, 0)
  | Some (VStr _) => (3, 0)
  | Some (VObj _) => (4, 0)
  | Some (VArr _) => (5, 0)
  | Some (VOid o) => (7, Z.of_N o)
  | Some (VBool b) => (8, if b then 1 else 0)
  | Some (VDate t) => (9, t)
  end.

Definition key_le (a b : Z * Z) : Prop :=
  a.1 < b.1 \/ (a.1 = b.1 /\ a.2 <= b.2).

(** [x] may precede [y] under [sort({k: -1})]. *)
Definition desc_by (k : string) (x y : doc) : Prop :=
  key_le (sort_key (y !! k)) (sort_key (x !! k)).

#[global] Instance key_le_dec a b : Decision (key_le a b).
Proof. unfold key_le. apply _. Defined.

#[global] Instance desc_by_dec k : RelDecision (desc_by k).
Proof. intros x y. unfold desc_by. apply _. Defined.

Record db : Type := { users : list doc; tasks : list doc }.

Inductive coll : Type := Users | Tasks.

Definition get_coll (c : coll) (s : db) : list doc :=
  match c with Users => users s | Tasks => tasks s end.

Definition set_coll (c : coll) (l : list doc) (s : db) : db :=
  match c with
  | Users => {| users := l; tasks := tasks s |}
  | Tasks => {| users := users s; tasks := l |}
  end.

Record UpdateResult : Type := { matchedCount : Z; upsertedCount : Z }.

Section Operations.
Variable H : Host.

(** [findOne(q)]: the first match in natural order. *)
Definition findOne_op (c : coll) (q : query) (s : db) : option doc * db :=
  (List.find (matches H q) (get_coll c s), s).

(** [find(q).sort({k: -1}).limit(n).toArray()]; the sort is stable. *)
Definition find_desc_op (c : coll) (q : query) (k : string) (n : nat) (s : db)
  : list doc * db :=
  (take n (merge_sort (desc_by k) (List.filter (matches H q) (get_coll c s))), s).

(** [updateOne(q, {$set, $setOnInsert}, {upsert})]: the first match gets
    [$set]; without a match an upsert inserts what the query gives, [$set]
    and [$setOnInsert] under the new identifier [id]. *)
Definition updateOne_op (c : coll) (q : query) (set setOnInsert : list (string * value))
    (upsert : bool) (id : ObjectId) (s : db) : UpdateResult * db :=
  let l := get_coll c s in
  match List.find (matches H q) l with
  | Some _ =>
      ({| matchedCount := 1; upsertedCount := 0 |},
       set_coll c (update_first (matches H q) (apply_set set) l) s)
  | None =>
      if upsert then
        ({| matchedCount := 0; upsertedCount := 1 |},
         set_coll c (l ++ [<["_id" := VOid id]>
                             (apply_set setOnInsert
                                (apply_set set (apply_set (seed H q) ∅)))]) s)
      else ({| matchedCount := 0; upsertedCount := 0 |}, s)
  end.

(** [deleteOne(q)]: the result is [deletedCount]. *)
Definition deleteOne_op (c : coll) (q : query) (s : db) : Z * db :=
  let l := get_coll c s in
  match List.find (matches H q) l with
  | Some _ => (1, set_coll c (delete_first (matches H q) l) s)
  | None => (0, s)
  end.
End Operations.

(** [insertOne(d)] for a document without [_id]: the driver assigns [id]. *)
Definition insertOne_op (c : coll) (d : doc) (id : ObjectId) (s : db) : ObjectId * db :=
  (id, set_coll c (get_coll c s ++ [<["_id" := VOid id]> d]) s).

(** ** Handler computations

    A handler runs against the database and a schedule of driver failures:
    the n-th driver call of the request rejects with the n-th entry of
    [faults] when that entry is an exception, and takes effect otherwise. An
    exhausted schedule means no further failure. *)

Record world : Type := { store : db; faults : list (option exn) }.

Definition M (A : Type) : Type := world -> outcome A * world.

#[global] Instance M_ret : MRet M := fun A a w => (Ok a, w).

#[global] Instance M_bind : MBind M := fun A B k m w =>
  match m w with
  | (Ok a, w') => k a w'
  | (Throw e, w') => (Throw e, w')
  end.

Definition throw {A} (e : exn) : M A := fun w => (Throw e, w).

(** An evaluation that touches neither the database nor the driver. *)
Definition lift {A} (o : outcome A) : M A := fun w => (o, w).

(** [try { m } catch (e) { h(e) }]. *)
Definition try_catch {A} (m : M A) (h : exn -> M A) : M A := fun w =>
  match m w with
  | (Ok a, w') => (Ok a, w')
  | (Throw e, w') => h e w'
  end.

(** One awaited driver call; a call that rejects has had no effect. *)
Definition driver {A} (op : db -> A * db) : M A := fun w =>
  match faults w with
  | Some e :: fs => (Throw e, {| store := store w; faults := fs |})
  | None :: fs =>
      let '(a, s) := op (store w) in (Ok a, {| store := s; faults := fs |})
  | [] =>
      let '(a, s) := op (store w) in (Ok a, {| store := s; faults := [] |})
  end.

(** [new ObjectId(id)] as a statement that may throw. *)
Definition ObjectId_ctor (id : string) : M ObjectId :=
  match ObjectId_new id with
  | Some o => mret o
  | None => throw BSONError
  end.

(** ** Responses *)

Inductive json : Type :=
| JObj (m : doc)
| JArr (l : list doc).

Record response : Type := { status : Z; body : json }.

(** An object literal handed to [res.json]: members whose value is
    [undefined] do not appear in the serialised body. *)
Definition obj (l : list (string * value)) : doc :=
  list_to_map (List.filter (fun kv => match kv.2 with VUndef => false | _ => true end) l).

Definition reply (st : Z) (b : doc) : M response :=
  mret {| status := st; body := JObj b |}.

Definition error (msg : string) : doc := obj [("error", VStr msg)].

Definition internal_error : response :=
  {| status := 500; body := JObj (error "Internal server error") |}.

(** What a request reads from outside the program: the clock ([new Date()])
    and the identifier the store gives to a document it inserts. *)
Record env : Type := { now : Z; next_id : ObjectId }.

(** A destructuring default [k = dflt]: used when the member is [undefined]. *)
Definition with_default (v dflt : value) : value :=
  match v with VUndef => dflt | _ => v end.

(** A member of the destructured body, [const { k } = req.body || {}]. *)
Definition body_field (body : value) (k : string) : value :=
  prop (js_or body (VObj [])) k.

Definition is_nullish (v : value) : bool :=
  match v with VUndef | VNull => true | _ => false end.

(** [Boolean(n)] and [!n] for a count returned by the driver. *)
Definition nonzero (n : Z) : bool := negb (n =? 0).

(** ** The handlers

    The collection handles are objects, so the [503] guards
    ([if (!userCollection)]) never fire and are left out. *)

Section Handlers.
Variable H : Host.
Variable E : env.

(** The [$set] of [POST /users]: the destructured members with their
    defaults, and the time of the call. *)
Definition user_set (body : value) : list (string * value) :=
  let name := with_default (body_field body "name") (VStr "") in
  let photo := with_default (body_field body "photo") (VStr "") in
  let bio := with_default (body_field body "bio") (VStr "") in
  let authProvider :=
    with_default (body_field body "authProvider") (VStr "password") in
  [("name", name); ("photo", photo); ("bio", bio);
   ("authProvider", authProvider); ("updatedAt", VDate (now E))].

(** [{ ok: true, created, email }]. *)
Definition upsert_reply (created : bool) (email : value) : response :=
  {| status := if created then 201 else 200;
     body := JObj (obj [("ok", VBool true); ("created", VBool created);
                        ("email", email)]) |}.

(** [app.post("/users")]. *)
Definition post_users (body : value) : M response :=
  try_catch
    (let email := body_field body "email" in
     if negb (ToBoolean email) then reply 400 (error "Email is required")
     else
       result ← driver (updateOne_op H Users [("email", email)]
                          (user_set body)
                          [("createdAt", VDate (now E))]
                          true (next_id E));
       let created := nonzero (upsertedCount result) in
       mret (upsert_reply created email))
    (fun err =>
       if bool_decide (exn_code err = Some 11000)
       then reply 409 (error "User with this email already exists")
       else mret internal_error).

(** [{ name, email, photo, bio, authProvider, createdAt, updatedAt }] of a
    stored user. *)
Definition user_view (d : doc) : doc :=
  obj [("name", field d "name"); ("email", field d "email");
       ("photo", field d "photo"); ("bio", field d "bio");
       ("authProvider", field d "authProvider");
       ("createdAt", field d "createdAt");
       ("updatedAt", field d "updatedAt")].

(** [app.get("/users/:email")]. *)
Definition get_user (rawEmail : string) : M response :=
  try_catch
    (if negb (ToBoolean (VStr rawEmail)) then reply 400 (error "Email required")
     else
       doc1 ← driver (findOne_op H Users [("email", VStr rawEmail)]);
       doc2 ← match doc1 with
              | Some d => mret (Some d)
              | None => driver (findOne_op H Users
                                  [("email", VStr (toLowerCase rawEmail))])
              end;
       match doc2 with
       | None => reply 404 (error "User not found")
       | Some d => reply 200 (user_view d)
       end)
    (fun _ => mret internal_error).

(** [!v || !String(v).trim()]: the conversion is made, and may throw, only
    for a truthy [v]. *)
Definition blank (v : value) : outcome bool :=
  if negb (ToBoolean v) then Ok true
  else s ← ToString H v; Ok (negb (ToBoolean (VStr (trim s)))).

(** [budget === undefined || budget === null || isNaN(Number(budget))]. *)
Definition budget_rejected (budget : value) : outcome bool :=
  match budget with
  | VUndef | VNull => Ok true
  | _ => n ← ToNumber H budget; Ok (isNaN n)
  end.

(** The checks shared by [POST /tasks] and [PATCH /tasks/:id] on title,
    category, description, deadline and budget, in the order of the code:
    the message of the first one that fails, unless a conversion throws
    before. *)
Definition validate_fields (title category description deadline budget : value)
  : outcome (option string) :=
  no_title ← blank title;
  if (no_title : bool) then Ok (Some "Title is required")
  else if negb (ToBoolean category) then Ok (Some "Category is required")
  else
    no_description ← blank description;
    if (no_description : bool) then Ok (Some "Description is required")
    else if negb (ToBoolean deadline) then Ok (Some "Deadline is required")
    else
      no_budget ← budget_rejected budget;
      if (no_budget : bool) then Ok (Some "Budget must be a number") else Ok None.

(** [app.post("/tasks")]. *)
Definition post_tasks (body : value) : M response :=
  try_catch
    (let title := body_field body "title" in
     let category := body_field body "category" in
     let description := body_field body "description" in
     let deadline := body_field body "deadline" in
     let budget := body_field body "budget" in
     let userEmail := body_field body "userEmail" in
     let userName := body_field body "userName" in
     invalid ← lift (validate_fields title category description deadline budget);
     match invalid with
     | Some msg => reply 400 (error msg)
     | None =>
         if negb (ToBoolean userEmail) then reply 400 (error "User email is required")
         else
           deadlineDate ← lift (Date_new H deadline);
           match deadlineDate with
           | None => reply 400 (error "Deadline must be a valid date")
           | Some deadlineDate =>
               title_s ← lift (ToString H title);
               description_s ← lift (ToString H description);
               budget_n ← lift (ToNumber H budget);
               email_s ← lift (ToString H userEmail);
               let d : doc :=
                 list_to_map
                     [("title", VStr (trim title_s));
                      ("category", category);
                      ("description", VStr (trim description_s));
                      ("deadline", VDate deadlineDate);
                      ("budget", VNum budget_n);
                      ("author",
                       VObj [("email", VStr (toLowerCase email_s));
                             ("name", js_or userName (VStr ""))]);
                      ("status", VStr "open");
                      ("createdAt", VDate (now E));
                      ("updatedAt", VDate (now E))] in
               insertedId ← driver (insertOne_op Tasks d (next_id E));
               reply 201 (obj [("ok", VBool true); ("id", VOid insertedId)])
           end
     end)
    (fun _ => mret internal_error).

(** The query of [GET /tasks], built from the two optional parameters. *)
Definition list_query (q_email q_category : value) : outcome query :=
  by_email ← (if ToBoolean q_email
              then s ← ToString H q_email; Ok [("author.email", VStr (toLowerCase s))]
              else Ok []);
  Ok (by_email ++ (if ToBoolean q_category then [("category", q_category)] else []))%list.

(** [({ _id, deadline, ...rest }) => ({ _id: _id.toString(), deadline, ...rest })];
    calling [toString] on a missing [_id], or on one whose [toString] is no
    function, throws. *)
Definition normalize (d : doc) : M doc :=
  let _id := field d "_id" in
  let deadline := field d "deadline" in
  let rest := delete "deadline" (delete "_id" d) in
  if is_nullish _id then throw TypeError
  else
    id_s ← lift (ToString H _id);
    mret (obj [("_id", VStr id_s); ("deadline", deadline)] ∪ rest).

(** [app.get("/tasks")]. *)
Definition list_tasks (q_email q_category : value) : M response :=
  try_catch
    (q ← lift (list_query q_email q_category);
     docs ← driver (find_desc_op H Tasks q "createdAt" 100);
     items ← mapM normalize docs;
     mret {| status := 200; body := JArr items |})
    (fun _ => mret internal_error).

Definition invalid_id : response :=
  {| status := 400; body := JObj (error "Invalid task id") |}.

(** [app.get("/tasks/:id")]: the inner [try] holds both the construction
    of the identifier and the awaited [findOne]. *)
Definition get_task (id : string) : M response :=
  try_catch
    (r ← try_catch
           (_id ← ObjectId_ctor id;
            d ← driver (findOne_op H Tasks [("_id", VOid _id)]);
            mret (inr d))
           (fun _ => mret (inl invalid_id));
     match r with
     | inl early => mret early
     | inr None => reply 404 (error "Task not found")
     | inr (Some d) => reply 200 d
     end)
    (fun _ => mret internal_error).

(** [let _id; try { _id = new ObjectId(id) } catch { return 400 }]. *)
Definition parse_id (id : string) : M (response + ObjectId) :=
  try_catch (_id ← ObjectId_ctor id; mret (inr _id))
            (fun _ => mret (inl invalid_id)).

(** [String(req.query.email || "").toLowerCase()]. *)
Definition caller_email (q_email : value) : outcome string :=
  s ← ToString H (js_or q_email (VStr "")); Ok (toLowerCase s).

(** [task.author?.email]. *)
Definition author_email (task : doc) : value :=
  opt_prop (field task "author") "email".

(** [(task.author?.email || "") !== email]. *)
Definition not_author (task : doc) (email : string) : bool :=
  strict_neq_str (js_or (author_email task) (VStr "")) email.

(** [app.delete("/tasks/:id")]. *)
Definition delete_task (id : string) (q_email : value) : M response :=
  try_catch
    (email ← lift (caller_email q_email);
     if negb (ToBoolean (VStr email)) then reply 400 (error "Email is required")
     else
       r ← parse_id id;
       match r with
       | inl early => mret early
       | inr _id =>
           task ← driver (findOne_op H Tasks [("_id", VOid _id)]);
           match task with
           | None => reply 404 (error "Task not found")
           | Some task =>
               if not_author task email
               then reply 403 (error "Not allowed to delete this task")
               else
                 deletedCount ← driver (deleteOne_op H Tasks [("_id", VOid _id)]);
                 if negb (nonzero deletedCount)
                 then reply 500 (error "Failed to delete task")
                 else reply 200 (obj [("ok", VBool true); ("id", VStr id)])
           end
       end)
    (fun _ => mret internal_error).

(** The [$set] of [PATCH /tasks/:id], from the converted title, description
    and budget. *)
Definition patch_set (title_s : string) (category : value) (description_s : string)
    (deadlineDate : Z) (budget_n : number) : list (string * value) :=
  [("title", VStr (trim title_s));
   ("category", category);
   ("description", VStr (trim description_s));
   ("deadline", VDate deadlineDate);
   ("budget", VNum budget_n);
   ("updatedAt", VDate (now E))].

(** [app.patch("/tasks/:id")]. *)
Definition patch_task (id : string) (q_email body : value) : M response :=
  try_catch
    (email ← lift (caller_email q_email);
     if negb (ToBoolean (VStr email)) then reply 400 (error "Email is required")
     else
       r ← parse_id id;
       match r with
       | inl early => mret early
       | inr _id =>
           existing ← driver (findOne_op H Tasks [("_id", VOid _id)]);
           match existing with
           | None => reply 404 (error "Task not found")
           | Some existing =>
               if not_author existing email
               then reply 403 (error "Not allowed to update this task")
               else
                 let title := body_field body "title" in
                 let category := body_field body "category" in
                 let description := body_field body "description" in
                 let deadline := body_field body "deadline" in
                 let budget := body_field body "budget" in
                 invalid ← lift (validate_fields title category description
                                                 deadline budget);
                 match invalid with
                 | Some msg => reply 400 (error msg)
                 | None =>
                     deadlineDate ← lift (Date_new H deadline);
                     match deadlineDate with
                     | None => reply 400 (error "Deadline must be a valid date")
                     | Some deadlineDate =>
                         title_s ← lift (ToString H title);
                         description_s ← lift (ToString H description);
                         budget_n ← lift (ToNumber H budget);
                         r ← driver (updateOne_op H Tasks [("_id", VOid _id)]
                                       (patch_set title_s category description_s
                                                  deadlineDate budget_n)
                                       [] false (next_id E));
                         if negb (nonzero (matchedCount r))
                         then reply 404 (error "Task not found")
                         else reply 200 (obj [("ok", VBool true);
                                              ("id", VStr (ObjectId_toString _id))])
                     end
                 end
           end
       end)
    (fun _ => mret internal_error).
End Handlers.

(** Running a handler on a database under a failure schedule: what it
    answers (or the exception that escapes it) and the database it leaves. *)
Definition run (h : M response) (s : db) (fs : list (option exn))
  : outcome response * db :=
  let '(o, w) := h {| store := s; faults := fs |} in (o, store w).

(** ** Vocabulary of the statements

    What the properties below talk about. Nothing here is run by a handler;
    the handlers are compared with it. *)

(** The string and the number of a value whose conversion does not throw. *)
Definition string_of (H : Host) (v : value) : string :=
  match ToString H v with Ok s => s | Throw _ => "" end.

Definition number_of (H : Host) (v : value) : number :=
  match ToNumber H v with Ok n => n | Throw _ => NaN end.

(** [String(v)] does not throw: it gives [string_of H v]. *)
Definition has_string (H : Host) (v : value) : Prop :=
  ToString H v = Ok (string_of H v).

(** The answer of a refusal: a status and [{ error: msg }]. *)
Definition answer (st : Z) (msg : string) : response :=
  {| status := st; body := JObj (error msg) |}.

(** The task a request on [/tasks/:id] addresses: the first stored task
    under the identifier the path parameter denotes. *)
Definition task_of (H : Host) (id : string) (s : db) : option doc :=
  match ObjectId_new id with
  | Some o => List.find (matches H [("_id", VOid o)]) (tasks s)
  | None => None
  end.

(** The first [n] driver calls of the request do not fail. *)
Definition ok_calls (n : nat) (fs : list (option exn)) : Prop :=
  Forall (fun f => f = None) (take n fs).

(** The exception the next driver call rejects with, if it does. *)
Definition first_fault (fs : list (option exn)) : option exn :=
  match fs with
  | Some e :: _ => Some e
  | _ => None
  end.

(** The validation of the body of a task request. *)
Definition validation (H : Host) (body : value) : outcome (option string) :=
  validate_fields H (body_field body "title") (body_field body "category")
                  (body_field body "description") (body_field body "deadline")
                  (body_field body "budget").

(** The body of a [PATCH] passes validation and its deadline is the date [t]. *)
Definition patch_body_ok (H : Host) (body : value) (t : Z) : Prop :=
  validation H body = Ok None
  /\ Date_new H (body_field body "deadline") = Ok (Some t).

(** The body of a [PATCH] is refused with the message [msg]: by a check of
    the validation, or for a deadline that is no date. *)
Definition patch_body_refused (H : Host) (body : value) (msg : string) : Prop :=
  validation H body = Ok (Some msg)
  \/ (validation H body = Ok None
      /\ Date_new H (body_field body "deadline") = Ok None
      /\ msg = "Deadline must be a valid date").

(** A conversion that the checks of a [PATCH] make of its body throws. *)
Definition patch_body_throws (H : Host) (body : value) : Prop :=
  (exists e, validation H body = Throw e)
  \/ (validation H body = Ok None
      /\ exists e, Date_new H (body_field body "deadline") = Throw e).

(** The document a [PATCH] with that body writes over [old]. *)
Definition patched (H : Host) (E : env) (body : value) (t : Z) (old : doc) : doc :=
  apply_set (patch_set E (string_of H (body_field body "title"))
                       (body_field body "category")
                       (string_of H (body_field body "description"))
                       t (number_of H (body_field body "budget")))
            old.

(** The user document an upsert inserts, and the one it leaves when it
    finds [old]. *)
Definition new_user (H : Host) (E : env) (body : value) : doc :=
  <["_id" := VOid (next_id E)]>
    (apply_set [("createdAt", VDate (now E))]
       (apply_set (user_set E body)
          (apply_set (seed H [("email", body_field body "email")]) ∅))).

Definition refreshed (E : env) (body : value) (old : doc) : doc :=
  apply_set (user_set E body) old.

(** Requests to [POST /users] served one after the other, none of them
    meeting a driver failure: the answers in order and the final database. *)
Fixpoint post_users_seq (H : Host) (calls : list (env * value)) (s : db)
  : list (outcome response) * db :=
  match calls with
  | [] => ([], s)
  | (E, body) :: rest =>
      let '(r, s1) := run (post_users H E body) s [] in
      let '(rs, s2) := post_users_seq H rest s1 in
      (r :: rs, s2)
  end.

(** The members [GET /users/:email] answers with. *)
Definition user_fields : list string :=
  ["name"; "email"; "photo"; "bio"; "authProvider"; "createdAt"; "updatedAt"].

(** A member as the serialised body carries it: an [undefined] one is left
    out. *)
Definition present (o : option value) : option value :=
  match o with Some VUndef => None | _ => o end.

(** The filter of [GET /tasks] on one document: both parameters, each only
    when given, the email lower-cased. *)
Definition selected (H : Host) (q_email q_category : value) (d : doc) : bool :=
  (if ToBoolean q_email
   then cond_holds H d "author.email" (VStr (toLowerCase (string_of H q_email)))
   else true)
  && (if ToBoolean q_category then cond_holds H d "category" q_category else true).

(** The item [GET /tasks] answers with for a stored task: the document with
    its [_id] replaced by the string of it. *)
Definition task_view (H : Host) (d : doc) : doc :=
  obj [("_id", VStr (string_of H (field d "_id"))); ("deadline", field d "deadline")]
  ∪ delete "deadline" (delete "_id" d).

(** A stored task [GET /tasks] can answer with: it has an [_id], and the
    string of it can be taken. *)
Definition listable (H : Host) (d : doc) : Prop :=
  is_nullish (field d "_id") = false /\ has_string H (field d "_id").

(** The stored user [d] carries what the call [(E, body)] sent: each optional
    member or its default, and the time of that call as [updatedAt]. *)
Definition reflects (c : env * value) (d : doc) : Prop :=
  d !! "name" = Some (with_default (body_field c.2 "name") (VStr ""))
  /\ d !! "photo" = Some (with_default (body_field c.2 "photo") (VStr ""))
  /\ d !! "bio" = Some (with_default (body_field c.2 "bio") (VStr ""))
  /\ d !! "authProvider"
     = Some (with_default (body_field c.2 "authProvider") (VStr "password"))
  /\ d !! "updatedAt" = Some (VDate (now c.1)).

(** The title, or the description, of a task body passes its check: it is
    truthy, its string can be taken and is not blank. *)
Definition text_ok (H : Host) (v : value) : Prop :=
  ToBoolean v = true /\ has_string H v
  /\ ToBoolean (VStr (trim (string_of H v))) = true.

(** Every check of [POST /tasks] other than the one on the budget passes,
    the string of the creator's email can be taken, and the deadline is the
    date [t]. *)
Definition other_fields_ok (H : Host) (body : value) (t : Z) : Prop :=
  text_ok H (body_field body "title")
  /\ ToBoolean (body_field body "category") = true
  /\ text_ok H (body_field body "description")
  /\ ToBoolean (body_field body "deadline") = true
  /\ ToBoolean (body_field body "userEmail") = true
  /\ has_string H (body_field body "userEmail")
  /\ Date_new H (body_field body "deadline") = Ok (Some t).

(** No check that [POST /tasks] makes before the one on the budget throws:
    the title and the description, where truthy, have a string. *)
Definition texts_convert (H : Host) (body : value) : Prop :=
  (ToBoolean (body_field body "title") = true -> has_string H (body_field body "title"))
  /\ (ToBoolean (body_field body "description") = true ->
      has_string H (body_field body "description")).

(** The fields a [PATCH] writes. *)
Definition patch_keys : list string :=
  ["title"; "category"; "description"; "deadline"; "budget"; "updatedAt"].

(** The task document [POST /tasks] inserts for a body whose deadline is the
    date [t]. *)
Definition created (H : Host) (E : env) (body : value) (t : Z) : doc :=
  <["_id" := VOid (next_id E)]>
    (list_to_map
       [("title", VStr (trim (string_of H (body_field body "title"))));
        ("category", body_field body "category");
        ("description", VStr (trim (string_of H (body_field body "description"))));
        ("deadline", VDate t);
        ("budget", VNum (number_of H (body_field body "budget")));
        ("author",
         VObj [("email", VStr (toLowerCase (string_of H (body_field body "userEmail"))));
               ("name", js_or (body_field body "userName") (VStr ""))]);
        ("status", VStr "open");
        ("createdAt", VDate (now E));
        ("updatedAt", VDate (now E))]).

(** One request served: any handler, on any input, with any clock value,
    next identifier and driver failures. *)
Inductive served (H : Host) : db -> db -> Prop :=
| served_post_users E req s fs :
    served H s (run (post_users H E req) s fs).2
| served_get_user rawEmail s fs :
    served H s (run (get_user H rawEmail) s fs).2
| served_post_tasks E req s fs :
    served H s (run (post_tasks H E req) s fs).2
| served_list_tasks qe qc s fs :
    served H s (run (list_tasks H qe qc) s fs).2
| served_get_task id s fs :
    served H s (run (get_task H id) s fs).2
| served_delete_task id qe s fs :
    served H s (run (delete_task H id qe) s fs).2
| served_patch_task E id qe req s fs :
    served H s (run (patch_task H E id qe req) s fs).2.

(** The databases the backend can reach from two empty collections. *)
Definition reachable (H : Host) (s : db) : Prop :=
  rtc (served H) {| users := []; tasks := [] |} s.

(** A stored task as the handlers leave it. *)
Definition task_well_formed (d : doc) : Prop :=
  (exists o, d !! "_id" = Some (VOid o))
  /\ d !! "status" = Some (VStr "open")
  /\ (exists e, author_email d = VStr e /\ toLowerCase e = e)
  /\ (exists t, d !! "createdAt" = Some (VDate t))
  /\ (exists t, d !! "updatedAt" = Some (VDate t))
  /\ (exists t, d !! "deadline" = Some (VDate t))
  /\ (exists n, d !! "budget" = Some (VNum n) /\ isNaN n = false)
  /\ (exists x, d !! "title" = Some (VStr x) /\ x <> "")
  /\ (exists x, d !! "description" = Some (VStr x) /\ x <> "").

(** The members of a stored user that every upsert writes. *)
Definition upsert_fields : list string :=
  ["name"; "photo"; "bio"; "authProvider"; "createdAt"; "updatedAt"].

(** A stored user as the handlers leave it: it has an identifier, and each
    member an upsert writes is there. The email is there or not as the query
    of the upsert gave it. *)
Definition user_well_formed (d : doc) : Prop :=
  (exists o, d !! "_id" = Some (VOid o))
  /\ (exists t, d !! "createdAt" = Some (VDate t))
  /\ (exists t, d !! "updatedAt" = Some (VDate t))
  /\ forall k, k ∈ upsert_fields -> exists v, d !! k = Some v /\ v <> VUndef.

(** The stored user carries the string [e] as its email. *)
Definition has_email (e : string) (d : doc) : bool :=
  match d !! "email" with
  | Some (VStr x) => String.eqb x e
  | _ => false
  end.

(** At most one stored user carries the string [e] as its email. *)
Definition at_most_one (e : string) (s : db) : Prop :=
  (length (List.filter (has_email e) (users s)) <= 1)%nat.

(** ** A host for the examples

    Dates: the date-only form [YYYY-MM-DD] of the Date Time String Format
    (months 01 to 12, days 01 to 31), read as UTC midnight; every other
    string is unrecognised. Numbers:
    [NaN], the infinities and integers print as the language prints them for
    magnitudes below 1e21; for any other number only the integer part is
    printed, which is not the language's result, and no example below
    prints such a number. Operators: [$eq] and [$ne] with their literal
    reading, every other operator holding of no document; an upsert copies
    the operand of a lone [$eq]. *)

Definition days_from_civil (y m d : Z) : Z :=
  let y' := if m <=? 2 then y - 1 else y in
  let era := y' / 400 in
  let yoe := y' - era * 400 in
  let doy := (153 * (if 2 <? m then m - 3 else m + 9) + 2) / 5 + d - 1 in
  let doe := yoe * 365 + yoe / 4 - yoe / 100 + doy in
  era * 146097 + doe - 719468.

Definition iso_date_parse (s : string) : option Z :=
  match read_digits 10 0 0 s with
  | (y, 4, String "-" r1) =>
      match read_digits 10 0 0 r1 with
      | (m, 2, String "-" r2) =>
          match read_digits 10 0 0 r2 with
          | (d, 2, EmptyString) =>
              if (1 <=? m) && (m <=? 12) && (1 <=? d) && (d <=? 31)
              then Some (days_from_civil y m d * 86400000) else None
          | _ => None
          end
      | _ => None
      end
  | _ => None
  end.

Definition print_Z (z : Z) : string := NilZero.string_of_int (Z.to_int z).

Definition sample_Number_toString (x : number) : string :=
  match x with
  | S754_nan => "NaN"
  | S754_infinity false => "Infinity"
  | S754_infinity true => "-Infinity"
  | S754_zero _ => "0"
  | S754_finite s m e =>
      let a := if 0 <=? e then Zpos m * 2 ^ e else Zpos m / 2 ^ (- e) in
      print_Z (if s then - a else a)
  end.

Definition sample_Operator_holds (m : list (string * value)) (d : doc) (path : string)
  : bool :=
  forallb (fun kv => if String.eqb kv.1 "$eq" then literal_holds d path kv.2
                     else if String.eqb kv.1 "$ne" then negb (literal_holds d path kv.2)
                     else false) m.

Definition sample_Operator_seed (m : list (string * value)) : option value :=
  match m with
  | [(k, v)] => if String.eqb k "$eq" then Some v else None
  | _ => None
  end.

Definition sample_host : Host :=
  {| Number_toString := sample_Number_toString;
     Date_parse := iso_date_parse;
     Date_toString := fun t => print_Z t;
     Operator_holds := sample_Operator_holds;
     Operator_seed := sample_Operator_seed |}.

(** ** Example data *)

Definition owner_task : doc :=
  list_to_map
    [("_id", VOid 1%N); ("title", VStr "Logo"); ("category", VStr "design");
     ("description", VStr "A logo"); ("deadline", VDate 1735689600000);
     ("budget", VNum (number_of_Z 150));
     ("author", VObj [("email", VStr "owner@x.com"); ("name", VStr "Owner")]);
     ("status", VStr "open"); ("createdAt", VDate 1000); ("updatedAt", VDate 1000)].

Definition owner_task_id : string := "000000000000000000000001".

Definition one_task_db : db := {| users := []; tasks := [owner_task] |}.

Definition empty_db : db := {| users := []; tasks := [] |}.

Definition other_task : doc :=
  list_to_map
    [("_id", VOid 4%N); ("title", VStr "Site"); ("category", VStr "web");
     ("description", VStr "A site"); ("deadline", VDate 1735689600000);
     ("budget", VNum (number_of_Z 900));
     ("author", VObj [("email", VStr "other@x.com"); ("name", VStr "Other")]);
     ("status", VStr "open"); ("createdAt", VDate 1500); ("updatedAt", VDate 1500)].

Definition two_task_db : db := {| users := []; tasks := [owner_task; other_task] |}.

(** A task as an older version of the backend could have left it: no
    [author] record. *)
Definition orphan_task : doc :=
  list_to_map
    [("_id", VOid 3%N); ("title", VStr "Legacy"); ("status", VStr "open");
     ("createdAt", VDate 500)].

Definition orphan_task_id : string := "000000000000000000000003".

Definition orphan_db : db := {| users := []; tasks := [orphan_task] |}.

Definition sample_env : env := {| now := 2000; next_id := 2%N |}.

Definition sample_patch : value :=
  VObj [("title", VStr " New logo "); ("category", VStr "design");
        ("description", VStr "A better logo"); ("deadline", VStr "2025-01-01");
        ("budget", VStr "150.5")].

(** An object that has a member named [toString] of its own: no string and
    no number can be taken of it. *)
Definition unprintable : value := VObj [("toString", VNum (number_of_Z 1))].

(** The patch above with such an object, in an array, as its description. *)
Definition unprintable_patch : value :=
  VObj [("title", VStr " New logo "); ("category", VStr "design");
        ("description", VArr [VObj [("toString", VNull)]]);
        ("deadline", VStr "2025-01-01"); ("budget", VStr "150.5")].

(** A patch whose deadline is no date. *)
Definition undated_patch : value :=
  VObj [("title", VStr " New logo "); ("category", VStr "design");
        ("description", VStr "A better logo"); ("deadline", VStr "soon");
        ("budget", VStr "150.5")].

Definition alice : doc :=
  list_to_map
    [("_id", VOid 7%N); ("email", VStr "a@x.com"); ("name", VStr "Alice");
     ("photo", VStr "p.png"); ("bio", VStr "hi"); ("authProvider", VStr "google");
     ("createdAt", VDate 100); ("updatedAt", VDate 100)].

Definition one_user_db : db := {| users := [alice]; tasks := [] |}.

Definition bare_signup : value := VObj [("email", VStr "a@x.com")].

Definition full_signup : value :=
  VObj [("email", VStr "a@x.com"); ("name", VStr "Al"); ("photo", VStr "q.png");
        ("bio", VStr "hello"); ("authProvider", VStr "github")].

(** Sign-ups whose email is the number 0, the boolean [false], and an
    operator document that holds of every user with a non-empty email. *)
Definition zero_signup : value := VObj [("email", VNum (S754_zero false))].

Definition false_signup : value := VObj [("email", VBool false)].

Definition operator_signup : value :=
  VObj [("email", VObj [("$ne", VStr "")]); ("name", VStr "Mallory")].

Definition later_env : env := {| now := 3000; next_id := 9%N |}.

Definition sample_post (budget : value) : value :=
  VObj [("title", VStr " Logo "); ("category", VStr "design");
        ("description", VStr "A logo"); ("deadline", VStr "2025-01-01");
        ("budget", budget); ("userEmail", VStr "Owner@x.com")].

(** The creation above with another title. *)
Definition titled_post (title budget : value) : value :=
  VObj [("title", title); ("category", VStr "design");
        ("description", VStr "A logo"); ("deadline", VStr "2025-01-01");
        ("budget", budget); ("userEmail", VStr "Owner@x.com")].

Definition blank_title_post : value :=
  VObj [("title", VStr "   "); ("category", VStr "design");
        ("description", VStr "A logo"); ("deadline", VStr "2025-01-01");
        ("budget", VStr "150.5"); ("userEmail", VStr "Owner@x.com")].

Definition blank_description_post : value :=
  VObj [("title", VStr "Logo"); ("category", VStr "design");
        ("description", VStr (String (ascii_of_N 9) " "));
        ("deadline", VStr "2025-01-01");
        ("budget", VStr "150.5"); ("userEmail", VStr "Owner@x.com")].

(** A creation whose [userEmail] is an empty array: truthy, with the empty
    string as its string. *)
Definition anonymous_post : value :=
  VObj [("title", VStr "Logo"); ("category", VStr "design");
        ("description", VStr "A logo"); ("deadline", VStr "2025-01-01");
        ("budget", VStr "150.5"); ("userEmail", VArr [])].

Definition anonymous_db : db :=
  {| users := [];
     tasks := [created sample_host sample_env anonymous_post 1735689600000] |}.

(** A document without [_id], as no handler writes it but the type of a
    collection allows it. *)
Definition headless_task : doc :=
  list_to_map [("title", VStr "Imported"); ("createdAt", VDate 700)].

Definition headless_db : db := {| users := []; tasks := [owner_task; headless_task] |}.

Definition network_error : exn :=
  {| exn_name := "MongoNetworkError"; exn_code := None |}.

Definition duplicate_key_error : exn :=
  {| exn_name := "MongoServerError"; exn_code := Some 11000 |}.

(** * Properties *)

(** ** Failure schedules and driver calls *)

Lemma ok_calls_nil n : ok_calls n [].
Proof. unfold ok_calls. rewrite take_nil. constructor. Qed.

Lemma ok_calls_cons n f fs : ok_calls (S n) (f :: fs) <-> f = None /\ ok_calls n fs.
Proof. unfold ok_calls. simpl. rewrite Forall_cons. reflexivity. Qed.

Lemma ok_calls_tail n fs : ok_calls (S n) fs -> ok_calls n (tail fs).
Proof.
  destruct fs as [|f fs]; [intros _; apply ok_calls_nil|].
  rewrite ok_calls_cons. tauto.
Qed.

Lemma ok_calls_first n fs : ok_calls (S n) fs -> first_fault fs = None.
Proof.
  destruct fs as [|f fs]; [reflexivity|].
  rewrite ok_calls_cons. intros [-> _]. reflexivity.
Qed.

Lemma ok_calls_second n fs : ok_calls (S (S n)) fs -> first_fault (tail fs) = None.
Proof. intros Hok. apply (ok_calls_first n), ok_calls_tail, Hok. Qed.

(** A driver call either rejects and leaves the database alone, or applies
    its operation. *)
Lemma driver_run {A} (op : db -> A * db) s fs :
  driver op {| store := s; faults := fs |}
  = match first_fault fs with
    | Some e => (Throw e, {| store := s; faults := tail fs |})
    | None => (Ok (op s).1, {| store := (op s).2; faults := tail fs |})
    end.
Proof.
  unfold driver. destruct fs as [|[e|] fs]; simpl; try reflexivity;
    destruct (op s); reflexivity.
Qed.

Lemma driver_ok {A} (op : db -> A * db) n s fs :
  ok_calls (S n) fs ->
  driver op {| store := s; faults := fs |}
  = (Ok (op s).1, {| store := (op s).2; faults := tail fs |}).
Proof. intros Hok. rewrite driver_run, (ok_calls_first _ _ Hok). reflexivity. Qed.

Lemma driver_fault {A} (op : db -> A * db) e s fs :
  driver op {| store := s; faults := Some e :: fs |}
  = (Throw e, {| store := s; faults := fs |}).
Proof. reflexivity. Qed.

Lemma driver_cases {A} (op : db -> A * db) s fs :
  (exists e fs', driver op {| store := s; faults := fs |}
                 = (Throw e, {| store := s; faults := fs' |}))
  \/ (exists fs', driver op {| store := s; faults := fs |}
                  = (Ok (op s).1, {| store := (op s).2; faults := fs' |})).
Proof. rewrite driver_run. destruct (first_fault fs); eauto. Qed.

Lemma parse_id_some id o w : ObjectId_new id = Some o -> parse_id id w = (Ok (inr o), w).
Proof. unfold parse_id, try_catch, ObjectId_ctor. intros ->. reflexivity. Qed.

Lemma parse_id_none id w :
  ObjectId_new id = None -> parse_id id w = (Ok (inl invalid_id), w).
Proof. unfold parse_id, try_catch, ObjectId_ctor. intros ->. reflexivity. Qed.

Ltac munfold :=
  unfold run, try_catch, mbind, M_bind, mret, M_ret, reply, throw, lift; cbv beta.

Ltac ored := unfold mbind, outcome_bind, mret, outcome_ret; cbv beta iota.

Ltac mred :=
  cbn [negb fst snd findOne_op deleteOne_op get_coll set_coll users tasks store faults];
  cbv beta iota.

(** ** Values and conversions *)

Lemma ToBoolean_VStr s : ToBoolean (VStr s) = true <-> s <> "".
Proof. destruct s; simpl; split; congruence. Qed.

Lemma ToString_string_of H v s : ToString H v = Ok s -> string_of H v = s.
Proof. unfold string_of. intros ->. reflexivity. Qed.

Lemma ToString_has_string H v s : ToString H v = Ok s -> has_string H v.
Proof. unfold has_string, string_of. intros ->. reflexivity. Qed.

Lemma ToNumber_number_of H v n : ToNumber H v = Ok n -> number_of H v = n.
Proof. unfold number_of. intros ->. reflexivity. Qed.

(** A value is given a string or the conversion throws. *)
Lemma has_string_or_throws H v : has_string H v \/ exists e, ToString H v = Throw e.
Proof.
  destruct (ToString H v) as [s|e] eqn:Hs; [left | right; eauto].
  apply (ToString_has_string H v s Hs).
Qed.

Lemma has_string_VStr H s : has_string H (VStr s).
Proof. reflexivity. Qed.

(** An object with a member named [toString] has no string and no number,
    and no date can be made of it. *)
Lemma own_toString_throws H m x :
  assoc "toString" m = Some x ->
  ToString H (VObj m) = Throw TypeError
  /\ ToNumber H (VObj m) = Throw TypeError
  /\ Date_new H (VObj m) = Throw TypeError.
Proof.
  intros Hm. unfold Date_new, ToNumber. cbn [ToString]. rewrite Hm.
  repeat split.
Qed.

(** A value that is no object and no array always has a string. *)
Lemma primitive_has_string H v :
  match v with VArr _ | VObj _ => False | _ => True end -> has_string H v.
Proof.
  destruct v as [| |[]| | | | | |]; intros Hv; try contradiction; reflexivity.
Qed.

Lemma blank_text_ok H v : text_ok H v -> blank H v = Ok false.
Proof.
  intros (Hb & Hs & Ht). unfold blank. rewrite Hb, Hs. ored. rewrite Ht. reflexivity.
Qed.

Lemma blank_false H v : blank H v = Ok false -> text_ok H v.
Proof.
  unfold blank, text_ok. destruct (ToBoolean v); [|discriminate]. cbn [negb].
  destruct (ToString H v) as [s|e] eqn:Hs; [|discriminate]. ored.
  rewrite (ToString_string_of _ _ _ Hs).
  destruct (ToBoolean (VStr (trim s))); [|discriminate].
  intros _. split; [reflexivity|]. split; [|reflexivity].
  apply (ToString_has_string _ _ _ Hs).
Qed.

Lemma budget_rejected_false H v :
  budget_rejected H v = Ok false ->
  ToNumber H v = Ok (number_of H v) /\ isNaN (number_of H v) = false.
Proof.
  unfold budget_rejected, number_of.
  destruct (ToNumber H v) as [n|e] eqn:Hn;
    destruct v; try discriminate; ored; intros [= Hnan]; split; congruence.
Qed.

Lemma validate_fields_others H title category description deadline budget :
  text_ok H title -> ToBoolean category = true -> text_ok H description ->
  ToBoolean deadline = true ->
  validate_fields H title category description deadline budget
  = match budget_rejected H budget with
    | Ok true => Ok (Some "Budget must be a number")
    | Ok false => Ok None
    | Throw e => Throw e
    end.
Proof.
  intros Ht Hc Hd Hdl. unfold validate_fields.
  rewrite (blank_text_ok _ _ Ht), (blank_text_ok _ _ Hd). ored. rewrite Hc, Hdl.
  cbn [negb]. destruct (budget_rejected H budget) as [[]|]; reflexivity.
Qed.

Lemma validate_fields_none H title category description deadline budget :
  validate_fields H title category description deadline budget = Ok None ->
  text_ok H title /\ ToBoolean category = true /\ text_ok H description
  /\ ToBoolean deadline = true /\ budget_rejected H budget = Ok false.
Proof.
  unfold validate_fields.
  destruct (blank H title) as [[]|] eqn:Ht; ored; cbn [negb]; try discriminate.
  destruct (ToBoolean category); ored; cbn [negb]; [|discriminate].
  destruct (blank H description) as [[]|] eqn:Hd; ored; cbn [negb]; try discriminate.
  destruct (ToBoolean deadline); ored; cbn [negb]; [|discriminate].
  destruct (budget_rejected H budget) as [[]|] eqn:Hb; ored; cbn [negb]; try discriminate.
  intros _. split; [apply blank_false; exact Ht|]. split; [reflexivity|].
  split; [apply blank_false; exact Hd|]. split; reflexivity.
Qed.

(** The validation refuses with a message, or passes, or throws. *)
Lemma validate_fields_some H title category description deadline budget msg :
  validate_fields H title category description deadline budget = Ok (Some msg) ->
  In msg ["Title is required"; "Category is required"; "Description is required";
          "Deadline is required"; "Budget must be a number"].
Proof.
  unfold validate_fields.
  destruct (blank H title) as [[]|]; ored; cbn [negb]; try discriminate;
    [intros [= <-]; simpl; tauto|].
  destruct (ToBoolean category); ored; cbn [negb]; [|intros [= <-]; simpl; tauto].
  destruct (blank H description) as [[]|]; ored; cbn [negb]; try discriminate;
    [intros [= <-]; simpl; tauto|].
  destruct (ToBoolean deadline); ored; cbn [negb]; [|intros [= <-]; simpl; tauto].
  destruct (budget_rejected H budget) as [[]|]; ored; cbn [negb]; try discriminate.
  intros [= <-]; simpl; tauto.
Qed.

Lemma not_author_true task email :
  email <> "" -> author_email task <> VStr email -> not_author task email = true.
Proof.
  intros Hne Hneq. unfold not_author, js_or.
  destruct (ToBoolean (author_email task)) eqn:Hb.
  - destruct (author_email task) as [| | | |a| | | |]; simpl; try reflexivity.
    apply negb_true_iff, String.eqb_neq. congruence.
  - simpl. destruct email; [congruence | reflexivity].
Qed.

Lemma not_author_false task email :
  email <> "" -> author_email task = VStr email -> not_author task email = false.
Proof.
  intros Hne Heq. unfold not_author, js_or. rewrite Heq.
  apply ToBoolean_VStr in Hne as ->. simpl. rewrite String.eqb_refl. reflexivity.
Qed.

Lemma not_author_false_inv task email :
  email <> "" -> not_author task email = false -> author_email task = VStr email.
Proof.
  intros Hne. unfold not_author, js_or.
  destruct (ToBoolean (author_email task)) eqn:Hb.
  - destruct (author_email task) as [| | | |a| | | |]; simpl; try discriminate.
    intros Heq. apply negb_false_iff, String.eqb_eq in Heq. congruence.
  - simpl. destruct email; [congruence | discriminate].
Qed.

(** ** Collections *)

Lemma find_split {A} (p : A -> bool) (l : list A) (d : A) :
  List.find p l = Some d ->
  exists l1 l2, l = (l1 ++ d :: l2)%list /\ Forall (fun x => p x = false) l1 /\ p d = true.
Proof.
  induction l as [|x l IH]; simpl; [discriminate|].
  destruct (p x) eqn:Hx.
  - intros [= ->]. exists [], l. repeat split; [constructor | assumption].
  - intros Hf. destruct (IH Hf) as (l1 & l2 & -> & Hl1 & Hd).
    exists (x :: l1), l2. repeat split; [constructor; assumption | assumption].
Qed.

Lemma find_app_first {A} (p : A -> bool) (l1 l2 : list A) (d : A) :
  Forall (fun x => p x = false) l1 -> p d = true ->
  List.find p (l1 ++ d :: l2) = Some d.
Proof.
  intros Hl1 Hd. induction Hl1 as [|x l1 Hx _ IH]; simpl.
  - rewrite Hd. reflexivity.
  - rewrite Hx. exact IH.
Qed.

Lemma find_none_forall {A} (p : A -> bool) (l : list A) :
  List.find p l = None -> Forall (fun x => p x = false) l.
Proof.
  induction l as [|x l IH]; simpl; [constructor|].
  destruct (p x) eqn:Hx; [discriminate|]. intros Hf. constructor; auto.
Qed.

Lemma find_none_app {A} (p : A -> bool) (l1 l2 : list A) :
  Forall (fun x => p x = false) l1 -> Forall (fun x => p x = false) l2 ->
  List.find p (l1 ++ l2) = None.
Proof.
  intros Hl1 Hl2. induction Hl1 as [|x l1 Hx _ IH]; simpl.
  - induction Hl2 as [|y l2 Hy _ IH2]; simpl; [reflexivity|]. rewrite Hy. exact IH2.
  - rewrite Hx. exact IH.
Qed.

Lemma update_first_split (p : doc -> bool) (f : doc -> doc) (l1 l2 : list doc) (d : doc) :
  Forall (fun x => p x = false) l1 -> p d = true ->
  update_first p f (l1 ++ d :: l2) = (l1 ++ f d :: l2)%list.
Proof.
  intros Hl1 Hd. induction Hl1 as [|x l1 Hx _ IH]; simpl.
  - rewrite Hd. reflexivity.
  - rewrite Hx, IH. reflexivity.
Qed.

Lemma delete_first_split (p : doc -> bool) (l1 l2 : list doc) (d : doc) :
  Forall (fun x => p x = false) l1 -> p d = true ->
  delete_first p (l1 ++ d :: l2) = (l1 ++ l2)%list.
Proof.
  intros Hl1 Hd. induction Hl1 as [|x l1 Hx _ IH]; simpl.
  - rewrite Hd. reflexivity.
  - rewrite Hx, IH. reflexivity.
Qed.

Lemma apply_set_notin (l : list (string * value)) (d : doc) (k : string) :
  k ∉ l.*1 -> apply_set l d !! k = d !! k.
Proof.
  unfold apply_set. revert d. induction l as [|[k' v] l IH]; intros d Hk; simpl.
  - reflexivity.
  - apply not_elem_of_cons in Hk as [Hne Hk]. simpl in Hne.
    rewrite (IH _ Hk). apply lookup_insert_ne. congruence.
Qed.

Lemma apply_set_in (l : list (string * value)) (d : doc) (k : string) (v : value) :
  NoDup l.*1 -> (k, v) ∈ l -> apply_set l d !! k = Some v.
Proof.
  unfold apply_set. revert d. induction l as [|[k' v'] l IH]; intros d Hnd Hin; simpl.
  - inversion Hin.
  - simpl in Hnd. apply NoDup_cons in Hnd as [Hk' Hnd].
    apply elem_of_cons in Hin as [[= -> ->]|Hin].
    + fold (apply_set l (<[k':=v']> d)). rewrite (apply_set_notin _ _ _ Hk').
      apply lookup_insert_eq.
    + apply (IH _ Hnd Hin).
Qed.

(** A query on a literal operand: a field of the document itself is
    compared with it. *)
Lemma matches_field H (k : string) (v : value) (d : doc) :
  operator_doc v = None -> split_path "" k = [k] ->
  matches H [(k, v)] d = leaf_match (d !! k) v.
Proof.
  intros Hv Hk. unfold matches. cbn [forallb fst snd]. unfold cond_holds.
  rewrite Hv. unfold literal_holds. rewrite Hk. cbn [reach existsb].
  rewrite orb_false_r, andb_true_r. reflexivity.
Qed.

Lemma matches_id H (d : doc) (o : ObjectId) :
  matches H [("_id", VOid o)] d
  = match d !! "_id" with
    | Some x => leaf_match (Some x) (VOid o)
    | None => false
    end.
Proof.
  rewrite matches_field by reflexivity.
  destruct (d !! "_id"); reflexivity.
Qed.

Lemma matches_own_id H (d : doc) (o : ObjectId) :
  d !! "_id" = Some (VOid o) -> matches H [("_id", VOid o)] d = true.
Proof.
  intros Hd. rewrite matches_id, Hd. cbn [leaf_match bson_eqb].
  rewrite N.eqb_refl. reflexivity.
Qed.

Lemma matches_id_same_field H (d d' : doc) (o : ObjectId) :
  d' !! "_id" = d !! "_id" ->
  matches H [("_id", VOid o)] d' = matches H [("_id", VOid o)] d.
Proof. intros Hd. rewrite !matches_id, Hd. reflexivity. Qed.

Lemma matches_email_field H (d : doc) (e : string) :
  matches H [("email", VStr e)] d = leaf_match (d !! "email") (VStr e).
Proof. apply matches_field; reflexivity. Qed.

Lemma matches_email H d e :
  d !! "email" = Some (VStr e) -> matches H [("email", VStr e)] d = true.
Proof.
  intros Hd. rewrite matches_email_field, Hd.
  cbn [leaf_match bson_eqb]. rewrite String.eqb_refl. reflexivity.
Qed.

(** ** What each handler computes

    The answer and the database a handler leaves, read off its code: the
    checks in their order, each driver call failing or not. *)

Lemma delete_task_run H id qe s fs :
  run (delete_task H id qe) s fs
  = match caller_email H qe with
    | Throw _ => (Ok internal_error, s)
    | Ok email =>
        if negb (ToBoolean (VStr email))
        then (Ok (answer 400 "Email is required"), s)
        else
          match ObjectId_new id with
          | None => (Ok invalid_id, s)
          | Some o =>
              match first_fault fs with
              | Some _ => (Ok internal_error, s)
              | None =>
                  match List.find (matches H [("_id", VOid o)]) (tasks s) with
                  | None => (Ok (answer 404 "Task not found"), s)
                  | Some task =>
                      if not_author task email
                      then (Ok (answer 403 "Not allowed to delete this task"), s)
                      else
                        match first_fault (tail fs) with
                        | Some _ => (Ok internal_error, s)
                        | None =>
                            (Ok {| status := 200;
                                   body := JObj (obj [("ok", VBool true);
                                                      ("id", VStr id)]) |},
                             {| users := users s;
                                tasks := delete_first (matches H [("_id", VOid o)])
                                                      (tasks s) |})
                        end
                  end
              end
          end
    end.
Proof.
  unfold delete_task. munfold.
  destruct (caller_email H qe) as [email|e]; [|reflexivity].
  destruct (ToBoolean (VStr email)); mred; [|reflexivity].
  destruct (ObjectId_new id) as [o|] eqn:Ho;
    [rewrite (parse_id_some _ _ _ Ho) | rewrite (parse_id_none _ _ Ho); reflexivity].
  rewrite driver_run. destruct (first_fault fs); [reflexivity|]. mred.
  destruct (List.find (matches H [("_id", VOid o)]) (tasks s)) as [task|] eqn:Ht;
    [|reflexivity].
  destruct (not_author task email); [reflexivity|].
  rewrite driver_run. destruct (first_fault (tail fs)); [reflexivity|].
  unfold deleteOne_op. mred. rewrite Ht. reflexivity.
Qed.

Lemma patch_task_run H E id qe body s fs :
  run (patch_task H E id qe body) s fs
  = match caller_email H qe with
    | Throw _ => (Ok internal_error, s)
    | Ok email =>
        if negb (ToBoolean (VStr email))
        then (Ok (answer 400 "Email is required"), s)
        else
          match ObjectId_new id with
          | None => (Ok invalid_id, s)
          | Some o =>
              match first_fault fs with
              | Some _ => (Ok internal_error, s)
              | None =>
                  match List.find (matches H [("_id", VOid o)]) (tasks s) with
                  | None => (Ok (answer 404 "Task not found"), s)
                  | Some task =>
                      if not_author task email
                      then (Ok (answer 403 "Not allowed to update this task"), s)
                      else
                        match validation H body with
                        | Throw _ => (Ok internal_error, s)
                        | Ok (Some msg) => (Ok (answer 400 msg), s)
                        | Ok None =>
                            match Date_new H (body_field body "deadline") with
                            | Throw _ => (Ok internal_error, s)
                            | Ok None =>
                                (Ok (answer 400 "Deadline must be a valid date"), s)
                            | Ok (Some t) =>
                                match first_fault (tail fs) with
                                | Some _ => (Ok internal_error, s)
                                | None =>
                                    (Ok {| status := 200;
                                           body :=
                                             JObj (obj [("ok", VBool true);
                                                        ("id", VStr (ObjectId_toString o))]) |},
                                     {| users := users s;
                                        tasks :=
                                          update_first (matches H [("_id", VOid o)])
                                                       (patched H E body t) (tasks s) |})
                                end
                            end
                        end
                  end
              end
          end
    end.
Proof.
  unfold patch_task. munfold.
  destruct (caller_email H qe) as [email|e]; [|reflexivity].
  destruct (ToBoolean (VStr email)); mred; [|reflexivity].
  destruct (ObjectId_new id) as [o|] eqn:Ho;
    [rewrite (parse_id_some _ _ _ Ho) | rewrite (parse_id_none _ _ Ho); reflexivity].
  rewrite driver_run. destruct (first_fault fs); [reflexivity|]. mred.
  destruct (List.find (matches H [("_id", VOid o)]) (tasks s)) as [task|] eqn:Ht;
    [|reflexivity].
  destruct (not_author task email); [reflexivity|].
  unfold validation.
  destruct (validate_fields H _ _ _ _ _) as [[msg|]|e] eqn:Hv; try reflexivity.
  apply validate_fields_none in Hv as ((_ & Hts & _) & _ & (_ & Hds & _) & _ & Hb).
  apply budget_rejected_false in Hb as [Hn _].
  destruct (Date_new H (body_field body "deadline")) as [[t|]|e]; try reflexivity.
  rewrite Hts, Hds, Hn. rewrite driver_run.
  destruct (first_fault (tail fs)); [reflexivity|].
  unfold updateOne_op. mred. rewrite Ht. reflexivity.
Qed.

Lemma post_tasks_run H E body s fs :
  run (post_tasks H E body) s fs
  = match validation H body with
    | Throw _ => (Ok internal_error, s)
    | Ok (Some msg) => (Ok (answer 400 msg), s)
    | Ok None =>
        if negb (ToBoolean (body_field body "userEmail"))
        then (Ok (answer 400 "User email is required"), s)
        else
          match Date_new H (body_field body "deadline") with
          | Throw _ => (Ok internal_error, s)
          | Ok None => (Ok (answer 400 "Deadline must be a valid date"), s)
          | Ok (Some t) =>
              match ToString H (body_field body "userEmail") with
              | Throw _ => (Ok internal_error, s)
              | Ok _ =>
                  match first_fault fs with
                  | Some _ => (Ok internal_error, s)
                  | None =>
                      (Ok {| status := 201;
                             body := JObj (obj [("ok", VBool true);
                                                ("id", VOid (next_id E))]) |},
                       {| users := users s;
                          tasks := (tasks s ++ [created H E body t])%list |})
                  end
              end
          end
    end.
Proof.
  unfold post_tasks. munfold. unfold validation.
  destruct (validate_fields H _ _ _ _ _) as [[msg|]|e] eqn:Hv; try reflexivity.
  apply validate_fields_none in Hv as ((_ & Hts & _) & _ & (_ & Hds & _) & _ & Hb).
  apply budget_rejected_false in Hb as [Hn _].
  destruct (ToBoolean (body_field body "userEmail")); mred; [|reflexivity].
  destruct (Date_new H (body_field body "deadline")) as [[t|]|e]; try reflexivity.
  rewrite Hts, Hds, Hn.
  destruct (ToString H (body_field body "userEmail")) as [u|e] eqn:Hu; [|reflexivity].
  rewrite driver_run. destruct (first_fault fs); [reflexivity|].
  unfold insertOne_op, created. mred. rewrite (ToString_string_of _ _ _ Hu).
  reflexivity.
Qed.

Lemma post_users_run H E body s fs :
  run (post_users H E body) s fs
  = let email := body_field body "email" in
    if negb (ToBoolean email) then (Ok (answer 400 "Email is required"), s)
    else
      match first_fault fs with
      | Some e =>
          (Ok (if bool_decide (exn_code e = Some 11000)
               then answer 409 "User with this email already exists"
               else internal_error), s)
      | None =>
          match List.find (matches H [("email", email)]) (users s) with
          | Some _ =>
              (Ok (upsert_reply false email),
               {| users := update_first (matches H [("email", email)])
                                        (refreshed E body) (users s);
                  tasks := tasks s |})
          | None =>
              (Ok (upsert_reply true email),
               {| users := (users s ++ [new_user H E body])%list; tasks := tasks s |})
          end
      end.
Proof.
  unfold post_users. munfold. cbv zeta.
  destruct (ToBoolean (body_field body "email")); mred; [|reflexivity].
  rewrite driver_run. destruct (first_fault fs) as [e|].
  - destruct (bool_decide (exn_code e = Some 11000)); reflexivity.
  - unfold updateOne_op. mred.
    destruct (List.find _ (users s)); reflexivity.
Qed.

Lemma get_user_run H rawEmail s fs :
  run (get_user H rawEmail) s fs
  = if negb (ToBoolean (VStr rawEmail)) then (Ok (answer 400 "Email required"), s)
    else
      match first_fault fs with
      | Some _ => (Ok internal_error, s)
      | None =>
          match List.find (matches H [("email", VStr rawEmail)]) (users s) with
          | Some d => (Ok {| status := 200; body := JObj (user_view d) |}, s)
          | None =>
              match first_fault (tail fs) with
              | Some _ => (Ok internal_error, s)
              | None =>
                  match List.find (matches H [("email", VStr (toLowerCase rawEmail))])
                                  (users s) with
                  | Some d => (Ok {| status := 200; body := JObj (user_view d) |}, s)
                  | None => (Ok (answer 404 "User not found"), s)
                  end
              end
          end
      end.
Proof.
  unfold get_user. munfold.
  destruct (ToBoolean (VStr rawEmail)); mred; [|reflexivity].
  rewrite driver_run. destruct (first_fault fs); [reflexivity|]. mred.
  destruct (List.find _ (users s)); [reflexivity|].
  rewrite driver_run. destruct (first_fault (tail fs)); [reflexivity|]. mred.
  destruct (List.find _ (users s)); reflexivity.
Qed.

Lemma get_task_run H id s fs :
  run (get_task H id) s fs
  = match ObjectId_new id with
    | None => (Ok invalid_id, s)
    | Some o =>
        match first_fault fs with
        | Some _ => (Ok invalid_id, s)
        | None =>
            match List.find (matches H [("_id", VOid o)]) (tasks s) with
            | Some d => (Ok {| status := 200; body := JObj d |}, s)
            | None => (Ok (answer 404 "Task not found"), s)
            end
        end
    end.
Proof.
  unfold get_task, ObjectId_ctor.
  destruct (ObjectId_new id) as [o|]; munfold; [|reflexivity].
  rewrite driver_run. destruct (first_fault fs); [reflexivity|]. mred.
  destruct (List.find _ (tasks s)); reflexivity.
Qed.

(** ** Malformed identifiers and store failures *)

(** A path parameter the identifier constructor rejects is answered 400 by
    the three handlers of [/tasks/:id], whatever the failure schedule; in
    [DELETE] and [PATCH] the email parameter is read first, and must have a
    string. *)
Lemma get_task_invalid_id H id s fs :
  ObjectId_new id = None -> run (get_task H id) s fs = (Ok invalid_id, s).
Proof. intros Ho. rewrite get_task_run, Ho. reflexivity. Qed.

Lemma delete_task_invalid_id H id qe email s fs :
  ObjectId_new id = None -> caller_email H qe = Ok email ->
  exists r, run (delete_task H id qe) s fs = (Ok r, s) /\ status r = 400.
Proof.
  intros Ho Hc. rewrite delete_task_run, Hc, Ho.
  destruct (ToBoolean (VStr email)); eexists; split; reflexivity.
Qed.

Lemma patch_task_invalid_id H E id qe email body s fs :
  ObjectId_new id = None -> caller_email H qe = Ok email ->
  exists r, run (patch_task H E id qe body) s fs = (Ok r, s) /\ status r = 400.
Proof.
  intros Ho Hc. rewrite patch_task_run, Hc, Ho.
  destruct (ToBoolean (VStr email)); eexists; split; reflexivity.
Qed.

(** In [DELETE] and [PATCH] a failing driver call, the lookup or the write,
    reaches the outer [catch]: the generic 500. *)
Lemma delete_task_lookup_failure H id qe email o e s fs :
  caller_email H qe = Ok email -> email <> "" -> ObjectId_new id = Some o ->
  run (delete_task H id qe) s (Some e :: fs) = (Ok internal_error, s).
Proof.
  intros Hc Hne Ho. rewrite delete_task_run, Hc, Ho.
  apply ToBoolean_VStr in Hne as ->. reflexivity.
Qed.

Lemma delete_task_write_failure H id qe email task e s fs :
  caller_email H qe = Ok email -> email <> "" -> task_of H id s = Some task ->
  author_email task = VStr email ->
  run (delete_task H id qe) s (None :: Some e :: fs) = (Ok internal_error, s).
Proof.
  intros Hc Hne Ht Ha. unfold task_of in Ht. rewrite delete_task_run, Hc.
  apply ToBoolean_VStr in Hne as Hb. rewrite Hb. cbn [negb].
  destruct (ObjectId_new id) as [o|]; [|discriminate].
  cbn [first_fault tail]. rewrite Ht, (not_author_false _ _ Hne Ha). reflexivity.
Qed.

Lemma patch_task_lookup_failure H E id qe email body o e s fs :
  caller_email H qe = Ok email -> email <> "" -> ObjectId_new id = Some o ->
  run (patch_task H E id qe body) s (Some e :: fs) = (Ok internal_error, s).
Proof.
  intros Hc Hne Ho. rewrite patch_task_run, Hc, Ho.
  apply ToBoolean_VStr in Hne as ->. reflexivity.
Qed.

(** C8, the failing path. In [GET /tasks/:id] the awaited [findOne] sits
    inside the [try] whose [catch] answers "Invalid task id": for a
    well-formed identifier, a lookup that fails in the store is answered 400
    with that body and not with the generic 500. *)
Theorem get_task_store_failure_is_400 H id o e s fs :
  ObjectId_new id = Some o ->
  run (get_task H id) s (Some e :: fs) = (Ok invalid_id, s)
  /\ status invalid_id = 400
  /\ invalid_id <> internal_error.
Proof.
  intros Ho. split; [|split; [reflexivity | discriminate]].
  rewrite get_task_run, Ho. reflexivity.
Qed.

Lemma get_task_store_failure_witness :
  ObjectId_new "507f1f77bcf86cd799439011" = Some 24912482966938930280208240657%N
  /\ run (get_task sample_host "507f1f77bcf86cd799439011") {| users := []; tasks := [] |}
         [Some {| exn_name := "MongoNetworkError"; exn_code := None |}]
     = (Ok invalid_id, {| users := []; tasks := [] |}).
Proof.
  split; [reflexivity|].
  apply (get_task_store_failure_is_400 sample_host "507f1f77bcf86cd799439011"
           24912482966938930280208240657%N).
  reflexivity.
Defined.

(** ** Ownership of a task *)

Lemma email_required H E id qe body s fs :
  caller_email H qe = Ok "" ->
  run (delete_task H id qe) s fs
  = (Ok {| status := 400; body := JObj (error "Email is required") |}, s)
  /\ run (patch_task H E id qe body) s fs
     = (Ok {| status := 400; body := JObj (error "Email is required") |}, s).
Proof. intros Hc. rewrite delete_task_run, patch_task_run, Hc. split; reflexivity. Qed.

Lemma email_unreadable H E id qe body s fs e :
  caller_email H qe = Throw e ->
  run (delete_task H id qe) s fs = (Ok internal_error, s)
  /\ run (patch_task H E id qe body) s fs = (Ok internal_error, s).
Proof. intros Hc. rewrite delete_task_run, patch_task_run, Hc. split; reflexivity. Qed.

Lemma delete_forbidden H id qe email s fs task :
  task_of H id s = Some task -> caller_email H qe = Ok email -> email <> "" ->
  author_email task <> VStr email -> ok_calls 1 fs ->
  run (delete_task H id qe) s fs
  = (Ok {| status := 403; body := JObj (error "Not allowed to delete this task") |}, s).
Proof.
  intros Ht Hc Hne Hneq Hok. unfold task_of in Ht. rewrite delete_task_run, Hc.
  apply ToBoolean_VStr in Hne as Hb. rewrite Hb. cbn [negb].
  destruct (ObjectId_new id) as [o|]; [|discriminate].
  rewrite (ok_calls_first _ _ Hok), Ht, (not_author_true _ _ Hne Hneq). reflexivity.
Qed.

Lemma patch_forbidden H E id qe email body s fs task :
  task_of H id s = Some task -> caller_email H qe = Ok email -> email <> "" ->
  author_email task <> VStr email -> ok_calls 1 fs ->
  run (patch_task H E id qe body) s fs
  = (Ok {| status := 403; body := JObj (error "Not allowed to update this task") |}, s).
Proof.
  intros Ht Hc Hne Hneq Hok. unfold task_of in Ht. rewrite patch_task_run, Hc.
  apply ToBoolean_VStr in Hne as Hb. rewrite Hb. cbn [negb].
  destruct (ObjectId_new id) as [o|]; [|discriminate].
  rewrite (ok_calls_first _ _ Hok), Ht, (not_author_true _ _ Hne Hneq). reflexivity.
Qed.

Lemma delete_by_author H id o qe email s fs task l1 l2 :
  ObjectId_new id = Some o ->
  tasks s = (l1 ++ task :: l2)%list ->
  Forall (fun d => matches H [("_id", VOid o)] d = false) l1 ->
  matches H [("_id", VOid o)] task = true ->
  caller_email H qe = Ok email -> email <> "" ->
  author_email task = VStr email -> ok_calls 2 fs ->
  run (delete_task H id qe) s fs
  = (Ok {| status := 200; body := JObj (obj [("ok", VBool true); ("id", VStr id)]) |},
     {| users := users s; tasks := (l1 ++ l2)%list |}).
Proof.
  intros Ho Hl Hl1 Hd Hc Hne Ha Hok. rewrite delete_task_run, Hc, Ho.
  apply ToBoolean_VStr in Hne as Hb. rewrite Hb. cbn [negb].
  rewrite (ok_calls_first _ _ Hok), (ok_calls_second _ _ Hok), Hl.
  rewrite (find_app_first _ _ _ _ Hl1 Hd), (not_author_false _ _ Hne Ha).
  rewrite (delete_first_split _ _ _ _ Hl1 Hd). reflexivity.
Qed.

(** The author's [PATCH], up to the checks of its body. *)
Lemma patch_by_author_run H E id o qe email body s fs task l1 l2 :
  ObjectId_new id = Some o ->
  tasks s = (l1 ++ task :: l2)%list ->
  Forall (fun d => matches H [("_id", VOid o)] d = false) l1 ->
  matches H [("_id", VOid o)] task = true ->
  caller_email H qe = Ok email -> email <> "" ->
  author_email task = VStr email -> ok_calls 2 fs ->
  run (patch_task H E id qe body) s fs
  = match validation H body with
    | Throw _ => (Ok internal_error, s)
    | Ok (Some msg) => (Ok (answer 400 msg), s)
    | Ok None =>
        match Date_new H (body_field body "deadline") with
        | Throw _ => (Ok internal_error, s)
        | Ok None => (Ok (answer 400 "Deadline must be a valid date"), s)
        | Ok (Some t) =>
            (Ok {| status := 200;
                   body := JObj (obj [("ok", VBool true);
                                      ("id", VStr (ObjectId_toString o))]) |},
             {| users := users s;
                tasks := (l1 ++ patched H E body t task :: l2)%list |})
        end
    end.
Proof.
  intros Ho Hl Hl1 Hd Hc Hne Ha Hok. rewrite patch_task_run, Hc, Ho.
  apply ToBoolean_VStr in Hne as Hb. rewrite Hb. cbn [negb].
  rewrite (ok_calls_first _ _ Hok), (ok_calls_second _ _ Hok), Hl.
  rewrite (find_app_first _ _ _ _ Hl1 Hd), (not_author_false _ _ Hne Ha).
  destruct (validation H body) as [[msg|]|e]; try reflexivity.
  destruct (Date_new H (body_field body "deadline")) as [[t|]|e]; try reflexivity.
  rewrite (update_first_split _ _ _ _ _ Hl1 Hd). reflexivity.
Qed.

Lemma patch_by_author H E id o qe email body s fs task t l1 l2 :
  ObjectId_new id = Some o ->
  tasks s = (l1 ++ task :: l2)%list ->
  Forall (fun d => matches H [("_id", VOid o)] d = false) l1 ->
  matches H [("_id", VOid o)] task = true ->
  caller_email H qe = Ok email -> email <> "" ->
  author_email task = VStr email -> ok_calls 2 fs ->
  patch_body_ok H body t ->
  run (patch_task H E id qe body) s fs
  = (Ok {| status := 200;
           body := JObj (obj [("ok", VBool true);
                              ("id", VStr (ObjectId_toString o))]) |},
     {| users := users s; tasks := (l1 ++ patched H E body t task :: l2)%list |}).
Proof.
  intros Ho Hl Hl1 Hm Hc Hne Ha Hok [Hv Hd].
  rewrite (patch_by_author_run H E id o qe email body s fs task l1 l2) by assumption.
  rewrite Hv, Hd. reflexivity.
Qed.

(** C1, as the code has it. For a stored task: a [PATCH] or [DELETE] whose
    email parameter is absent or empty is answered 400 before the task is
    read, and one whose email parameter has no string is answered 500; with
    a non-empty lower-cased email that differs from the stored
    [author.email] both are answered 403; with the lower-cased email equal to
    it, [DELETE] answers 200 and removes the document, and [PATCH] answers
    200 and rewrites the document in place when its body passes validation,
    400 with the message of the failing check when the body is refused, and
    500 when a conversion of a member of the body throws. The database is
    changed by the two 200 only. *)
Theorem task_ownership H E id o qe body s fs task :
  ObjectId_new id = Some o ->
  task_of H id s = Some task ->
  (caller_email H qe = Ok "" ->
   run (delete_task H id qe) s fs
   = (Ok {| status := 400; body := JObj (error "Email is required") |}, s)
   /\ run (patch_task H E id qe body) s fs
      = (Ok {| status := 400; body := JObj (error "Email is required") |}, s))
  /\ (forall e, caller_email H qe = Throw e ->
      run (delete_task H id qe) s fs = (Ok internal_error, s)
      /\ run (patch_task H E id qe body) s fs = (Ok internal_error, s))
  /\ (forall email, caller_email H qe = Ok email -> email <> "" ->
      (author_email task <> VStr email -> ok_calls 1 fs ->
       run (delete_task H id qe) s fs
       = (Ok {| status := 403;
                body := JObj (error "Not allowed to delete this task") |}, s)
       /\ run (patch_task H E id qe body) s fs
          = (Ok {| status := 403;
                   body := JObj (error "Not allowed to update this task") |}, s))
      /\ (author_email task = VStr email -> ok_calls 2 fs ->
          exists l1 l2,
            tasks s = (l1 ++ task :: l2)%list
            /\ run (delete_task H id qe) s fs
               = (Ok {| status := 200;
                        body := JObj (obj [("ok", VBool true); ("id", VStr id)]) |},
                  {| users := users s; tasks := (l1 ++ l2)%list |})
            /\ (forall t, patch_body_ok H body t ->
                  run (patch_task H E id qe body) s fs
                  = (Ok {| status := 200;
                           body := JObj (obj [("ok", VBool true);
                                              ("id", VStr (ObjectId_toString o))]) |},
                     {| users := users s;
                        tasks := (l1 ++ patched H E body t task :: l2)%list |}))
            /\ (forall msg, patch_body_refused H body msg ->
                  run (patch_task H E id qe body) s fs
                  = (Ok {| status := 400; body := JObj (error msg) |}, s))
            /\ (patch_body_throws H body ->
                run (patch_task H E id qe body) s fs = (Ok internal_error, s)))).
Proof.
  intros Ho Ht. split; [apply email_required|]. split.
  { intros e. apply email_unreadable. }
  intros email Hc Hne. split.
  - intros Hneq Hok. split.
    + apply (delete_forbidden H id qe email s fs task); assumption.
    + apply (patch_forbidden H E id qe email body s fs task); assumption.
  - intros Ha Hok. unfold task_of in Ht. rewrite Ho in Ht.
    destruct (find_split _ _ _ Ht) as (l1 & l2 & Hl & Hl1 & Hd).
    pose proof (patch_by_author_run H E id o qe email body s fs task l1 l2
                  Ho Hl Hl1 Hd Hc Hne Ha Hok) as Hpatch.
    exists l1, l2. split; [exact Hl|]. split; [|split; [|split]].
    + apply (delete_by_author H id o qe email s fs task l1 l2); assumption.
    + intros t [Hv Hdate]. rewrite Hpatch, Hv, Hdate. reflexivity.
    + intros msg [Hv | (Hv & Hdate & ->)]; rewrite Hpatch, Hv; [reflexivity|].
      rewrite Hdate. reflexivity.
    + intros [[e Hv] | (Hv & e & Hdate)]; rewrite Hpatch, Hv; [reflexivity|].
      rewrite Hdate. reflexivity.
Qed.

Lemma task_ownership_witness :
  (run (delete_task sample_host owner_task_id (VStr "other@x.com")) one_task_db []
   = (Ok {| status := 403; body := JObj (error "Not allowed to delete this task") |},
      one_task_db)
   /\ run (patch_task sample_host sample_env owner_task_id (VStr "other@x.com")
                      sample_patch) one_task_db []
      = (Ok {| status := 403; body := JObj (error "Not allowed to update this task") |},
         one_task_db))
  /\ (exists l1 l2,
        tasks one_task_db = (l1 ++ owner_task :: l2)%list
        /\ run (delete_task sample_host owner_task_id (VStr "Owner@X.com")) one_task_db []
           = (Ok {| status := 200;
                    body := JObj (obj [("ok", VBool true); ("id", VStr owner_task_id)]) |},
              {| users := []; tasks := (l1 ++ l2)%list |})
        /\ run (patch_task sample_host sample_env owner_task_id (VStr "Owner@X.com")
                           sample_patch) one_task_db []
           = (Ok {| status := 200;
                    body := JObj (obj [("ok", VBool true); ("id", VStr owner_task_id)]) |},
              {| users := [];
                 tasks := (l1 ++ patched sample_host sample_env sample_patch
                                         1735689600000 owner_task :: l2)%list |})
        /\ run (patch_task sample_host sample_env owner_task_id (VStr "Owner@X.com")
                           undated_patch) one_task_db []
           = (Ok {| status := 400;
                    body := JObj (error "Deadline must be a valid date") |}, one_task_db)
        /\ run (patch_task sample_host sample_env owner_task_id (VStr "Owner@X.com")
                           unprintable_patch) one_task_db []
           = (Ok internal_error, one_task_db))
  /\ run (delete_task sample_host owner_task_id VUndef) one_task_db []
     = (Ok {| status := 400; body := JObj (error "Email is required") |}, one_task_db)
  /\ run (delete_task sample_host owner_task_id unprintable) one_task_db []
     = (Ok internal_error, one_task_db).
Proof.
  assert (Ho : ObjectId_new owner_task_id = Some 1%N) by reflexivity.
  assert (Ht : task_of sample_host owner_task_id one_task_db = Some owner_task)
    by (vm_compute; reflexivity).
  assert (Hother : caller_email sample_host (VStr "other@x.com") = Ok "other@x.com")
    by (vm_compute; reflexivity).
  assert (Howner : caller_email sample_host (VStr "Owner@X.com") = Ok "owner@x.com")
    by (vm_compute; reflexivity).
  split; [|split; [|split]].
  - destruct (task_ownership sample_host sample_env owner_task_id 1%N
                (VStr "other@x.com") sample_patch one_task_db [] owner_task Ho Ht)
      as (_ & _ & Hgiven).
    destruct (Hgiven "other@x.com" Hother ltac:(discriminate)) as [Hforbidden _].
    apply Hforbidden; [vm_compute; discriminate | apply ok_calls_nil].
  - destruct (task_ownership sample_host sample_env owner_task_id 1%N
                (VStr "Owner@X.com") sample_patch one_task_db [] owner_task Ho Ht)
      as (_ & _ & Hgiven).
    destruct (Hgiven "owner@x.com" Howner ltac:(discriminate)) as [_ Hallowed].
    destruct (Hallowed ltac:(vm_compute; reflexivity) (ok_calls_nil 2))
      as (l1 & l2 & Hl & Hdel & Hpatch & _).
    destruct (task_ownership sample_host sample_env owner_task_id 1%N
                (VStr "Owner@X.com") undated_patch one_task_db [] owner_task Ho Ht)
      as (_ & _ & Hgiven').
    destruct (Hgiven' "owner@x.com" Howner ltac:(discriminate)) as [_ Hallowed'].
    destruct (Hallowed' ltac:(vm_compute; reflexivity) (ok_calls_nil 2))
      as (_ & _ & _ & _ & _ & Hrefused & _).
    destruct (task_ownership sample_host sample_env owner_task_id 1%N
                (VStr "Owner@X.com") unprintable_patch one_task_db [] owner_task Ho Ht)
      as (_ & _ & Hgiven'').
    destruct (Hgiven'' "owner@x.com" Howner ltac:(discriminate)) as [_ Hallowed''].
    destruct (Hallowed'' ltac:(vm_compute; reflexivity) (ok_calls_nil 2))
      as (_ & _ & _ & _ & _ & _ & Hthrows).
    exists l1, l2. split; [exact Hl|]. split; [exact Hdel|]. split; [|split].
    + apply (Hpatch 1735689600000). split; vm_compute; reflexivity.
    + apply Hrefused. right. repeat split; vm_compute; reflexivity.
    + apply Hthrows. left. exists TypeError. vm_compute. reflexivity.
  - destruct (task_ownership sample_host sample_env owner_task_id 1%N
                VUndef sample_patch one_task_db [] owner_task Ho Ht)
      as (Hempty & _).
    apply Hempty. vm_compute. reflexivity.
  - destruct (task_ownership sample_host sample_env owner_task_id 1%N
                unprintable sample_patch one_task_db [] owner_task Ho Ht)
      as (_ & Hthrow & _).
    apply (Hthrow TypeError). vm_compute. reflexivity.
Defined.

(** C1 as stated fails where the handlers answer before the ownership check:
    an empty caller email differs from the stored [author.email], yet
    [DELETE] and [PATCH] answer 400, not 403; and the author's own [PATCH]
    with a body that fails validation answers 400 and changes nothing. *)
Lemma ownership_counterexample :
  task_of sample_host owner_task_id one_task_db = Some owner_task
  /\ author_email owner_task = VStr "owner@x.com"
  /\ caller_email sample_host (VStr "") = Ok ""
  /\ run (delete_task sample_host owner_task_id (VStr "")) one_task_db []
     = (Ok {| status := 400; body := JObj (error "Email is required") |}, one_task_db)
  /\ run (patch_task sample_host sample_env owner_task_id (VStr "") sample_patch)
         one_task_db []
     = (Ok {| status := 400; body := JObj (error "Email is required") |}, one_task_db)
  /\ caller_email sample_host (VStr "owner@x.com") = Ok "owner@x.com"
  /\ run (patch_task sample_host sample_env owner_task_id (VStr "owner@x.com") (VObj []))
         one_task_db []
     = (Ok {| status := 400; body := JObj (error "Title is required") |}, one_task_db).
Proof. repeat split; vm_compute; reflexivity. Qed.

(** C10. A stored task without an [author] record, or whose [author.email]
    is the empty string, is never written by [PATCH] or [DELETE]: whatever
    the caller email, the body and the failure schedule, the database is left
    as it was; and every request that carries a (necessarily non-empty)
    caller email is answered 403. *)
Theorem orphan_task_is_frozen H E id qe body s fs task :
  task_of H id s = Some task ->
  (task !! "author" = None \/ author_email task = VStr "") ->
  ((run (delete_task H id qe) s fs).2 = s
   /\ (run (patch_task H E id qe body) s fs).2 = s)
  /\ (forall email, caller_email H qe = Ok email -> email <> "" -> ok_calls 1 fs ->
      run (delete_task H id qe) s fs
      = (Ok {| status := 403; body := JObj (error "Not allowed to delete this task") |}, s)
      /\ run (patch_task H E id qe body) s fs
         = (Ok {| status := 403; body := JObj (error "Not allowed to update this task") |}, s)).
Proof.
  intros Ht Horphan.
  assert (Hneq : forall email, email <> "" -> author_email task <> VStr email).
  { intros email Hne. destruct Horphan as [Hnone | Hempty].
    - unfold author_email, field. rewrite Hnone. discriminate.
    - rewrite Hempty. congruence. }
  split.
  - unfold task_of in Ht. rewrite delete_task_run, patch_task_run.
    destruct (caller_email H qe) as [email|e]; [|split; reflexivity].
    destruct (ToBoolean (VStr email)) eqn:Hb; cbn [negb]; [|split; reflexivity].
    apply ToBoolean_VStr in Hb.
    destruct (ObjectId_new id) as [o|]; [|discriminate].
    destruct (first_fault fs); [split; reflexivity|].
    rewrite Ht, (not_author_true _ _ Hb (Hneq _ Hb)). split; reflexivity.
  - intros email Hc Hne Hok. split.
    + apply (delete_forbidden H id qe email s fs task); auto.
    + apply (patch_forbidden H E id qe email body s fs task); auto.
Qed.

Lemma orphan_task_is_frozen_witness :
  (run (delete_task sample_host orphan_task_id (VStr "anyone@x.com")) orphan_db []).2
  = orphan_db
  /\ run (patch_task sample_host sample_env orphan_task_id (VStr "anyone@x.com")
                     sample_patch) orphan_db []
     = (Ok {| status := 403; body := JObj (error "Not allowed to update this task") |},
        orphan_db).
Proof.
  assert (Ht : task_of sample_host orphan_task_id orphan_db = Some orphan_task)
    by (vm_compute; reflexivity).
  assert (Horphan : orphan_task !! "author" = None \/ author_email orphan_task = VStr "")
    by (left; vm_compute; reflexivity).
  destruct (orphan_task_is_frozen sample_host sample_env orphan_task_id
              (VStr "anyone@x.com") sample_patch orphan_db [] orphan_task Ht Horphan)
    as [[Hdel _] Hforbidden].
  split; [exact Hdel|].
  apply (Hforbidden "anyone@x.com");
    [vm_compute; reflexivity | discriminate | apply ok_calls_nil].
Defined.

(** ** What a successful PATCH writes *)

Ltac in_list := apply list_elem_of_In; simpl; tauto.
Ltac notin_list := rewrite list_elem_of_In; simpl; intuition discriminate.

(** Discards an answer whose status is not the one assumed. *)
Ltac other_status :=
  let Hst := fresh "Hst" in
  intros [= <- _] Hst;
  cbn [status answer internal_error invalid_id] in Hst; discriminate Hst.

Lemma patched_frame H E body t old k :
  k ∉ patch_keys -> patched H E body t old !! k = old !! k.
Proof. intros Hk. unfold patched. apply apply_set_notin. exact Hk. Qed.

Lemma patched_field H E body t old k v :
  (k, v) ∈ patch_set E (string_of H (body_field body "title"))
             (body_field body "category")
             (string_of H (body_field body "description")) t
             (number_of H (body_field body "budget")) ->
  patched H E body t old !! k = Some v.
Proof.
  intros Hin. unfold patched. apply apply_set_in; [|exact Hin].
  unfold patch_set. simpl. apply (bool_decide_unpack _). vm_compute. exact I.
Qed.

(** C7. When [PATCH /tasks/:id] answers 200, the first task under that
    identifier has been rewritten in place: its title and description are the
    trimmed strings of the body's, its category the body's, its deadline the
    date parsed from the body's, its budget the number coerced from the
    body's, its [updatedAt] the current time; every other field of the
    document ([status], [author], [createdAt] and [bidsCount] among them),
    every other task and the users are as before. *)
Theorem patch_writes_only_its_fields H E id qe body s fs r s' :
  run (patch_task H E id qe body) s fs = (Ok r, s') ->
  status r = 200 ->
  exists old t l1 l2,
    task_of H id s = Some old
    /\ Date_new H (body_field body "deadline") = Ok (Some t)
    /\ ToString H (body_field body "title")
       = Ok (string_of H (body_field body "title"))
    /\ ToString H (body_field body "description")
       = Ok (string_of H (body_field body "description"))
    /\ ToNumber H (body_field body "budget")
       = Ok (number_of H (body_field body "budget"))
    /\ tasks s = (l1 ++ old :: l2)%list
    /\ users s' = users s
    /\ tasks s' = (l1 ++ patched H E body t old :: l2)%list
    /\ patched H E body t old !! "title"
       = Some (VStr (trim (string_of H (body_field body "title"))))
    /\ patched H E body t old !! "category" = Some (body_field body "category")
    /\ patched H E body t old !! "description"
       = Some (VStr (trim (string_of H (body_field body "description"))))
    /\ patched H E body t old !! "deadline" = Some (VDate t)
    /\ patched H E body t old !! "budget"
       = Some (VNum (number_of H (body_field body "budget")))
    /\ patched H E body t old !! "updatedAt" = Some (VDate (now E))
    /\ (forall k, k ∉ patch_keys -> patched H E body t old !! k = old !! k)
    /\ patched H E body t old !! "status" = old !! "status"
    /\ patched H E body t old !! "author" = old !! "author"
    /\ patched H E body t old !! "createdAt" = old !! "createdAt"
    /\ patched H E body t old !! "bidsCount" = old !! "bidsCount".
Proof.
  rewrite patch_task_run. unfold task_of.
  destruct (caller_email H qe) as [email|e]; [|other_status].
  destruct (ToBoolean (VStr email)); cbn [negb]; [|other_status].
  destruct (ObjectId_new id) as [o|]; [|other_status].
  destruct (first_fault fs); [other_status|].
  destruct (List.find (matches H [("_id", VOid o)]) (tasks s)) as [old|] eqn:Ht;
    [|other_status].
  destruct (not_author old email); [other_status|].
  destruct (validation H body) as [[msg|]|e] eqn:Hv; try other_status.
  destruct (Date_new H (body_field body "deadline")) as [[t|]|e] eqn:Hd;
    try other_status.
  destruct (first_fault (tail fs)); [other_status|].
  destruct (find_split _ _ _ Ht) as (l1 & l2 & Hl & Hl1 & Hm).
  apply validate_fields_none in Hv as ((_ & Hts & _) & _ & (_ & Hds & _) & _ & Hb).
  apply budget_rejected_false in Hb as [Hn _].
  intros [= <- <-] _. exists old, t, l1, l2. cbn [users tasks].
  rewrite Hl at 2. rewrite (update_first_split _ _ _ _ _ Hl1 Hm).
  repeat match goal with |- _ /\ _ => split end;
    try reflexivity; try assumption;
    try (apply patched_field; unfold patch_set; in_list);
    try (intros k Hk; apply patched_frame; exact Hk);
    apply patched_frame; unfold patch_keys; notin_list.
Qed.

Lemma patch_writes_only_its_fields_witness :
  exists old t,
    task_of sample_host owner_task_id one_task_db = Some old
    /\ Date_new sample_host (body_field sample_patch "deadline") = Ok (Some t)
    /\ patched sample_host sample_env sample_patch t old !! "title"
       = Some (VStr "New logo")
    /\ patched sample_host sample_env sample_patch t old !! "author" = old !! "author".
Proof.
  assert (Hrun :
    run (patch_task sample_host sample_env owner_task_id (VStr "owner@x.com")
                    sample_patch) one_task_db []
    = (Ok {| status := 200;
             body := JObj (obj [("ok", VBool true); ("id", VStr owner_task_id)]) |},
       {| users := [];
          tasks := [patched sample_host sample_env sample_patch 1735689600000
                            owner_task] |}))
    by (vm_compute; reflexivity).
  destruct (patch_writes_only_its_fields _ _ _ _ _ _ _ _ _ Hrun eq_refl)
    as (old & t & l1 & l2 & Ht & Hd & _ & _ & _ & _ & _ & _ & Htitle & _ & _ & _ & _
        & _ & _ & _ & Hauthor & _).
  exists old, t. repeat split; assumption.
Defined.

(** ** The budget of a new task *)

Lemma blank_throws H v e :
  blank H v = Throw e -> ToBoolean v = true /\ ToString H v = Throw e.
Proof.
  unfold blank. destruct (ToBoolean v); [|discriminate]. cbn [negb].
  destruct (ToString H v); ored; [discriminate|]. intros [= ->]. split; reflexivity.
Qed.

(** With a rejected budget the validation does not pass: it refuses, or a
    conversion of the title or of the description has thrown before. *)
Lemma validate_fields_budget H title category description deadline budget :
  budget_rejected H budget = Ok true ->
  (exists msg, validate_fields H title category description deadline budget
               = Ok (Some msg))
  \/ (exists e, validate_fields H title category description deadline budget = Throw e
                /\ ((ToBoolean title = true /\ ToString H title = Throw e)
                    \/ (ToBoolean description = true
                        /\ ToString H description = Throw e))).
Proof.
  intros Hb. unfold validate_fields.
  destruct (blank H title) as [[]|e] eqn:Ht; ored; [left; eauto | |].
  - destruct (ToBoolean category); cbn [negb]; [|left; eauto].
    destruct (blank H description) as [[]|e] eqn:Hd; ored; [left; eauto | |].
    + destruct (ToBoolean deadline); cbn [negb]; [|left; eauto].
      rewrite Hb. left. eauto.
    + right. exists e. split; [reflexivity|]. right. apply blank_throws. exact Hd.
  - right. exists e. split; [reflexivity|]. left. apply blank_throws. exact Ht.
Qed.

Lemma created_fields H E body t :
  created H E body t !! "_id" = Some (VOid (next_id E))
  /\ created H E body t !! "title"
     = Some (VStr (trim (string_of H (body_field body "title"))))
  /\ created H E body t !! "category" = Some (body_field body "category")
  /\ created H E body t !! "description"
     = Some (VStr (trim (string_of H (body_field body "description"))))
  /\ created H E body t !! "deadline" = Some (VDate t)
  /\ created H E body t !! "budget"
     = Some (VNum (number_of H (body_field body "budget")))
  /\ created H E body t !! "author"
     = Some (VObj [("email",
                    VStr (toLowerCase (string_of H (body_field body "userEmail"))));
                   ("name", js_or (body_field body "userName") (VStr ""))])
  /\ created H E body t !! "status" = Some (VStr "open")
  /\ created H E body t !! "createdAt" = Some (VDate (now E))
  /\ created H E body t !! "updatedAt" = Some (VDate (now E)).
Proof.
  unfold created. cbn [list_to_map foldr fst snd uncurry].
  repeat split;
    repeat (rewrite lookup_insert_ne by discriminate); apply lookup_insert_eq.
Qed.

(** [POST /tasks] once every check other than the budget's passes. *)
Lemma post_tasks_checked H E body t s fs :
  other_fields_ok H body t ->
  run (post_tasks H E body) s fs
  = match budget_rejected H (body_field body "budget") with
    | Throw _ => (Ok internal_error, s)
    | Ok true => (Ok (answer 400 "Budget must be a number"), s)
    | Ok false =>
        match first_fault fs with
        | Some _ => (Ok internal_error, s)
        | None =>
            (Ok {| status := 201;
                   body := JObj (obj [("ok", VBool true); ("id", VOid (next_id E))]) |},
             {| users := users s; tasks := (tasks s ++ [created H E body t])%list |})
        end
    end.
Proof.
  intros (Ht & Hc & Hd & Hdl & Hu & Hus & Hdate).
  rewrite post_tasks_run. unfold validation.
  rewrite (validate_fields_others H _ _ _ _ _ Ht Hc Hd Hdl).
  destruct (budget_rejected H (body_field body "budget")) as [[]|]; try reflexivity.
  rewrite Hu, Hdate, Hus. reflexivity.
Qed.

(** C2, as the code has it. A budget that is [undefined], [null] or coerces
    to NaN is never accepted: [POST /tasks] answers 400, unless the
    conversion of the title or of the description, which are checked first,
    throws (then 500); nothing is written. When every other check passes,
    [POST /tasks] answers 400 exactly for such a budget, 500 for a budget
    that has no number, and otherwise 201, storing the coerced number as the
    budget of the one document it adds. A budget that coerces to an infinity
    is accepted. *)
Theorem post_tasks_budget H E body s fs :
  (budget_rejected H (body_field body "budget") = Ok true ->
   exists r,
     run (post_tasks H E body) s fs = (Ok r, s)
     /\ (status r = 400 \/ r = internal_error)
     /\ (texts_convert H body ->
         exists msg, r = {| status := 400; body := JObj (error msg) |}))
  /\ (forall t, other_fields_ok H body t -> ok_calls 1 fs ->
      exists r s',
        run (post_tasks H E body) s fs = (Ok r, s')
        /\ (status r = 400 <-> budget_rejected H (body_field body "budget") = Ok true)
        /\ (budget_rejected H (body_field body "budget") = Ok true ->
            r = {| status := 400; body := JObj (error "Budget must be a number") |}
            /\ s' = s)
        /\ ((exists e, budget_rejected H (body_field body "budget") = Throw e) ->
            r = internal_error /\ s' = s)
        /\ (budget_rejected H (body_field body "budget") = Ok false ->
            status r = 201
            /\ users s' = users s
            /\ ToNumber H (body_field body "budget")
               = Ok (number_of H (body_field body "budget"))
            /\ exists d, tasks s' = (tasks s ++ [d])%list
                         /\ d !! "budget"
                            = Some (VNum (number_of H (body_field body "budget"))))).
Proof.
  split.
  - intros Hb. rewrite post_tasks_run. unfold validation.
    destruct (validate_fields_budget H (body_field body "title")
                (body_field body "category") (body_field body "description")
                (body_field body "deadline") _ Hb)
      as [[msg ->] | (e & -> & Hthrow)].
    + exists (answer 400 msg). split; [reflexivity|]. split; [left; reflexivity|].
      intros _. exists msg. reflexivity.
    + exists internal_error. split; [reflexivity|]. split; [right; reflexivity|].
      intros [Ht Hd]. exfalso.
      destruct Hthrow as [[Hb' Hs] | [Hb' Hs]];
        [specialize (Ht Hb') | specialize (Hd Hb')];
        unfold has_string in *; congruence.
  - intros t Hok Hfs. rewrite (post_tasks_checked H E body t s fs Hok).
    destruct (budget_rejected H (body_field body "budget")) as [[]|e] eqn:Hb.
    + do 2 eexists. split; [reflexivity|]. cbn [status answer].
      split; [split; reflexivity|]. split; [intros _; split; reflexivity|].
      split; [intros [e He]; discriminate | discriminate].
    + rewrite (ok_calls_first _ _ Hfs).
      do 2 eexists. split; [reflexivity|]. cbn [status users tasks].
      split; [split; discriminate|]. split; [discriminate|].
      split; [intros [e He]; discriminate|]. intros _.
      split; [reflexivity|]. split; [reflexivity|].
      split; [apply (budget_rejected_false _ _ Hb)|].
      eexists. split; [reflexivity|]. apply created_fields.
    + do 2 eexists. split; [reflexivity|]. cbn [status internal_error].
      split; [split; discriminate|]. split; [discriminate|].
      split; [intros _; split; reflexivity | discriminate].
Qed.

Lemma post_tasks_budget_witness :
  (exists msg,
     run (post_tasks sample_host sample_env (sample_post (VStr "abc"))) empty_db []
     = (Ok {| status := 400; body := JObj (error msg) |}, empty_db))
  /\ (exists r s',
        run (post_tasks sample_host sample_env (sample_post (VStr "150.5"))) empty_db []
        = (Ok r, s')
        /\ status r = 201
        /\ exists d, tasks s' = [d]
                     /\ d !! "budget" = Some (VNum (StringToNumber "150.5")))
  /\ run (post_tasks sample_host sample_env (sample_post unprintable)) empty_db []
     = (Ok internal_error, empty_db).
Proof.
  assert (Hothers : forall b, other_fields_ok sample_host (sample_post b) 1735689600000)
    by (intros b; vm_compute; repeat split; reflexivity).
  split; [|split].
  - destruct (post_tasks_budget sample_host sample_env (sample_post (VStr "abc"))
                empty_db []) as [Hbad _].
    destruct (Hbad ltac:(vm_compute; reflexivity)) as (r & Hrun & _ & Hmsg).
    destruct Hmsg as [msg ->]; [split; intros _; vm_compute; reflexivity|].
    exists msg. exact Hrun.
  - destruct (post_tasks_budget sample_host sample_env (sample_post (VStr "150.5"))
                empty_db []) as [_ Hvalid].
    destruct (Hvalid _ (Hothers _) (ok_calls_nil 1))
      as (r & s' & Hrun & _ & _ & _ & Hacc).
    destruct (Hacc ltac:(vm_compute; reflexivity)) as (Hst & _ & _ & d & Hd & Hbudget).
    exists r, s'. split; [exact Hrun|]. split; [exact Hst|].
    exists d. split; [exact Hd | exact Hbudget].
  - destruct (post_tasks_budget sample_host sample_env (sample_post unprintable)
                empty_db []) as [_ Hvalid].
    destruct (Hvalid _ (Hothers _) (ok_calls_nil 1))
      as (r & s' & Hrun & _ & _ & Hthrow & _).
    destruct Hthrow as [-> ->]; [exists TypeError; vm_compute; reflexivity|].
    exact Hrun.
Defined.

(** C2 as stated fails on a budget that coerces to an infinity: it is not a
    finite number, yet the request is accepted with 201 and the infinity is
    stored. *)
Lemma infinite_budget_counterexample :
  ToNumber sample_host (VStr "Infinity") = Ok Infinity
  /\ isFinite Infinity = false
  /\ exists d,
       run (post_tasks sample_host sample_env (sample_post (VStr "Infinity")))
           empty_db []
       = (Ok {| status := 201;
                body := JObj (obj [("ok", VBool true); ("id", VOid 2%N)]) |},
          {| users := []; tasks := [d] |})
       /\ d !! "budget" = Some (VNum Infinity).
Proof.
  split; [reflexivity|]. split; [reflexivity|].
  eexists. split; vm_compute; reflexivity.
Qed.

(** Numeric strings are accepted, other strings are not; of an object with
    a [toString] member no number can be taken, whichever member of the body
    it is. *)
Lemma budget_rejected_examples :
  budget_rejected sample_host (VStr "150.5") = Ok false
  /\ budget_rejected sample_host (VStr " 12 ") = Ok false
  /\ budget_rejected sample_host (VStr "abc") = Ok true
  /\ budget_rejected sample_host VUndef = Ok true
  /\ budget_rejected sample_host VNull = Ok true
  /\ budget_rejected sample_host unprintable = Throw TypeError
  /\ run (post_tasks sample_host sample_env (titled_post unprintable (VStr "150.5")))
         empty_db []
     = (Ok internal_error, empty_db)
  /\ run (post_tasks sample_host sample_env (titled_post unprintable VUndef))
         empty_db []
     = (Ok internal_error, empty_db).
Proof. repeat split; vm_compute; reflexivity. Qed.

(** ** The user upsert *)

Lemma post_users_inserts H E body s fs :
  ToBoolean (body_field body "email") = true -> ok_calls 1 fs ->
  List.find (matches H [("email", body_field body "email")]) (users s) = None ->
  run (post_users H E body) s fs
  = (Ok (upsert_reply true (body_field body "email")),
     {| users := (users s ++ [new_user H E body])%list; tasks := tasks s |}).
Proof.
  intros Hb Hok Hf. rewrite post_users_run. cbv zeta.
  rewrite Hb, (ok_calls_first _ _ Hok), Hf. reflexivity.
Qed.

Lemma post_users_updates H E body s fs old l1 l2 :
  ToBoolean (body_field body "email") = true -> ok_calls 1 fs ->
  users s = (l1 ++ old :: l2)%list ->
  Forall (fun d => matches H [("email", body_field body "email")] d = false) l1 ->
  matches H [("email", body_field body "email")] old = true ->
  run (post_users H E body) s fs
  = (Ok (upsert_reply false (body_field body "email")),
     {| users := (l1 ++ refreshed E body old :: l2)%list; tasks := tasks s |}).
Proof.
  intros Hb Hok Hl Hl1 Hm. rewrite post_users_run. cbv zeta.
  rewrite Hb, (ok_calls_first _ _ Hok), Hl, (find_app_first _ _ _ _ Hl1 Hm).
  rewrite (update_first_split _ _ _ _ _ Hl1 Hm). reflexivity.
Qed.

(** C3, as the code has it. [POST /users] with a falsy email (absent,
    [null], empty, but also [0] or [false]) answers 400 and writes nothing.
    With any other email and a driver call that does not fail it makes one
    upsert whose query is the email: when the query matches no stored user
    it appends one new document and answers 201 with [created: true]; when
    it matches one, it rewrites the first match in place and answers 200
    with [created: false]. *)
Theorem post_users_upsert H E body s fs :
  (ToBoolean (body_field body "email") = false ->
   run (post_users H E body) s fs
   = (Ok {| status := 400; body := JObj (error "Email is required") |}, s))
  /\ (ToBoolean (body_field body "email") = true -> ok_calls 1 fs ->
      match List.find (matches H [("email", body_field body "email")]) (users s) with
      | None =>
          run (post_users H E body) s fs
          = (Ok {| status := 201;
                   body := JObj (obj [("ok", VBool true); ("created", VBool true);
                                      ("email", body_field body "email")]) |},
             {| users := (users s ++ [new_user H E body])%list; tasks := tasks s |})
      | Some old =>
          exists l1 l2,
            users s = (l1 ++ old :: l2)%list
            /\ Forall (fun d => matches H [("email", body_field body "email")] d
                                = false) l1
            /\ run (post_users H E body) s fs
               = (Ok {| status := 200;
                        body := JObj (obj [("ok", VBool true);
                                           ("created", VBool false);
                                           ("email", body_field body "email")]) |},
                  {| users := (l1 ++ refreshed E body old :: l2)%list;
                     tasks := tasks s |})
      end).
Proof.
  split.
  - intros Hb. rewrite post_users_run. cbv zeta. rewrite Hb. reflexivity.
  - intros Hb Hok.
    destruct (List.find _ (users s)) as [old|] eqn:Hf.
    + destruct (find_split _ _ _ Hf) as (l1 & l2 & Hl & Hl1 & Hm).
      exists l1, l2. split; [exact Hl|]. split; [exact Hl1|].
      apply (post_users_updates H E body s fs old l1 l2); assumption.
    + apply (post_users_inserts H E body s fs); assumption.
Qed.

(** C9. When [POST /users] finds a stored document for the email, every
    optional member the body leaves out is overwritten with its default:
    the empty string for [name], [photo] and [bio], ["password"] for
    [authProvider]. *)
Theorem post_users_resets_omitted H E body s fs old :
  ToBoolean (body_field body "email") = true ->
  List.find (matches H [("email", body_field body "email")]) (users s) = Some old ->
  ok_calls 1 fs ->
  exists l1 l2,
    users s = (l1 ++ old :: l2)%list
    /\ run (post_users H E body) s fs
       = (Ok (upsert_reply false (body_field body "email")),
          {| users := (l1 ++ refreshed E body old :: l2)%list; tasks := tasks s |})
    /\ (body_field body "name" = VUndef ->
        refreshed E body old !! "name" = Some (VStr ""))
    /\ (body_field body "photo" = VUndef ->
        refreshed E body old !! "photo" = Some (VStr ""))
    /\ (body_field body "bio" = VUndef ->
        refreshed E body old !! "bio" = Some (VStr ""))
    /\ (body_field body "authProvider" = VUndef ->
        refreshed E body old !! "authProvider" = Some (VStr "password")).
Proof.
  intros Hb Hf Hok.
  destruct (find_split _ _ _ Hf) as (l1 & l2 & Hl & Hl1 & Hm).
  exists l1, l2. split; [exact Hl|]. split.
  { apply (post_users_updates H E body s fs old l1 l2); assumption. }
  assert (Hnd : NoDup (user_set E body).*1).
  { unfold user_set. simpl. apply (bool_decide_unpack _). vm_compute. exact I. }
  repeat split; intros Hu; unfold refreshed;
    apply (apply_set_in _ _ _ _ Hnd); unfold user_set; rewrite Hu; in_list.
Qed.

Lemma post_users_upsert_witness :
  run (post_users sample_host sample_env (VObj [("name", VStr "Al")])) one_user_db []
  = (Ok {| status := 400; body := JObj (error "Email is required") |}, one_user_db)
  /\ run (post_users sample_host sample_env bare_signup) empty_db []
     = (Ok {| status := 201;
              body := JObj (obj [("ok", VBool true); ("created", VBool true);
                                 ("email", VStr "a@x.com")]) |},
        {| users := [new_user sample_host sample_env bare_signup]; tasks := [] |})
  /\ (exists l1 l2,
        users one_user_db = (l1 ++ alice :: l2)%list
        /\ run (post_users sample_host sample_env bare_signup) one_user_db []
           = (Ok {| status := 200;
                    body := JObj (obj [("ok", VBool true); ("created", VBool false);
                                       ("email", VStr "a@x.com")]) |},
              {| users := (l1 ++ refreshed sample_env bare_signup alice :: l2)%list;
                 tasks := [] |}))
  /\ (exists l1 l2,
        users one_user_db = (l1 ++ alice :: l2)%list
        /\ run (post_users sample_host sample_env operator_signup) one_user_db []
           = (Ok {| status := 200;
                    body := JObj (obj [("ok", VBool true); ("created", VBool false);
                                       ("email", VObj [("$ne", VStr "")])]) |},
              {| users := (l1 ++ refreshed sample_env operator_signup alice :: l2)%list;
                 tasks := [] |})).
Proof.
  split; [|split; [|split]].
  - destruct (post_users_upsert sample_host sample_env (VObj [("name", VStr "Al")])
                one_user_db []) as [Hmissing _].
    apply Hmissing. reflexivity.
  - destruct (post_users_upsert sample_host sample_env bare_signup empty_db [])
      as [_ Hup].
    exact (Hup eq_refl (ok_calls_nil 1)).
  - destruct (post_users_upsert sample_host sample_env bare_signup one_user_db [])
      as [_ Hup].
    destruct (Hup eq_refl (ok_calls_nil 1)) as (l1 & l2 & Hl & _ & Hrun).
    exists l1, l2. split; [exact Hl | exact Hrun].
  - destruct (post_users_upsert sample_host sample_env operator_signup one_user_db [])
      as [_ Hup].
    destruct (Hup eq_refl (ok_calls_nil 1)) as (l1 & l2 & Hl & _ & Hrun).
    exists l1, l2. split; [exact Hl | exact Hrun].
Defined.

(** C3 as stated fails on an email that is present and not empty, yet
    falsy: the number 0 and the boolean [false] are refused with 400 like a
    missing email, and nothing is upserted. *)
Lemma falsy_email_counterexample :
  body_field zero_signup "email" = VNum (S754_zero false)
  /\ body_field zero_signup "email" <> VUndef
  /\ body_field zero_signup "email" <> VStr ""
  /\ run (post_users sample_host sample_env zero_signup) empty_db []
     = (Ok {| status := 400; body := JObj (error "Email is required") |}, empty_db)
  /\ body_field false_signup "email" = VBool false
  /\ run (post_users sample_host sample_env false_signup) one_user_db []
     = (Ok {| status := 400; body := JObj (error "Email is required") |}, one_user_db).
Proof.
  split; [reflexivity|]. split; [discriminate|]. split; [discriminate|].
  repeat split; vm_compute; reflexivity.
Qed.

Lemma post_users_resets_omitted_witness :
  alice !! "name" = Some (VStr "Alice")
  /\ alice !! "authProvider" = Some (VStr "google")
  /\ refreshed sample_env bare_signup alice !! "name" = Some (VStr "")
  /\ refreshed sample_env bare_signup alice !! "authProvider" = Some (VStr "password").
Proof.
  destruct (post_users_resets_omitted sample_host sample_env bare_signup one_user_db []
              alice eq_refl ltac:(vm_compute; reflexivity) (ok_calls_nil 1))
    as (l1 & l2 & _ & _ & Hname & _ & _ & Hauth).
  split; [vm_compute; reflexivity|]. split; [vm_compute; reflexivity|].
  split; [apply Hname; reflexivity | apply Hauth; reflexivity].
Defined.

(** ** Repeated upserts *)

Lemma last_cons {A} (a d : A) (l : list A) : List.last (a :: l) d = List.last l a.
Proof.
  revert a d. induction l as [|b l IH]; intros a d; [reflexivity|].
  change (List.last (a :: b :: l) d) with (List.last (b :: l) d).
  rewrite (IH b d), (IH b a). reflexivity.
Qed.

Lemma user_set_NoDup E body : NoDup (user_set E body).*1.
Proof. unfold user_set. simpl. apply (bool_decide_unpack _). vm_compute. exact I. Qed.

Lemma refreshed_reflects E body old : reflects (E, body) (refreshed E body old).
Proof.
  unfold reflects, refreshed. simpl.
  repeat split; apply (apply_set_in _ _ _ _ (user_set_NoDup E body));
    unfold user_set; in_list.
Qed.

Lemma refreshed_keeps E body old k :
  k ∉ ["name"; "photo"; "bio"; "authProvider"; "updatedAt"] ->
  refreshed E body old !! k = old !! k.
Proof. intros Hk. unfold refreshed. apply apply_set_notin. exact Hk. Qed.

(** What every inserted user carries, whatever its query gave. *)
Lemma new_user_written H E body :
  new_user H E body !! "_id" = Some (VOid (next_id E))
  /\ new_user H E body !! "createdAt" = Some (VDate (now E))
  /\ reflects (E, body) (new_user H E body).
Proof.
  unfold new_user, reflects, user_set. cbn [apply_set foldl fst snd].
  repeat split;
    repeat (rewrite lookup_insert_ne by discriminate); apply lookup_insert_eq.
Qed.

(** The email of an inserted user, for a query on a literal. *)
Lemma new_user_email H E body :
  operator_doc (body_field body "email") = None ->
  new_user H E body !! "email" = Some (body_field body "email").
Proof.
  intros Hlit. unfold new_user, seed, user_set. cbn [flat_map snd fst app].
  rewrite Hlit. cbn [apply_set foldl fst snd].
  repeat (rewrite lookup_insert_ne by discriminate). apply lookup_insert_eq.
Qed.

Lemma new_user_fields H E body :
  operator_doc (body_field body "email") = None ->
  new_user H E body !! "email" = Some (body_field body "email")
  /\ new_user H E body !! "createdAt" = Some (VDate (now E))
  /\ reflects (E, body) (new_user H E body).
Proof.
  intros Hlit. split; [apply new_user_email; exact Hlit|].
  apply new_user_written.
Qed.

(** Once the user exists as the last document of the collection, each
    further call answers 200 and rewrites that document. *)
Lemma post_users_seq_existing H e rest :
  Forall (fun c => body_field c.2 "email" = VStr e) rest ->
  e <> "" ->
  forall s l d c0,
    users s = (l ++ [d])%list ->
    Forall (fun x => matches H [("email", VStr e)] x = false) l ->
    d !! "email" = Some (VStr e) ->
    reflects c0 d ->
    (post_users_seq H rest s).1
    = map (fun _ => Ok (upsert_reply false (VStr e))) rest
    /\ exists d',
         users (post_users_seq H rest s).2 = (l ++ [d'])%list
         /\ tasks (post_users_seq H rest s).2 = tasks s
         /\ d' !! "email" = Some (VStr e)
         /\ d' !! "createdAt" = d !! "createdAt"
         /\ reflects (List.last rest c0) d'.
Proof.
  intros Hrest Hne. induction Hrest as [|[E b] rest Hb _ IH];
    intros s l d c0 Hl Hl1 Hd Hc0.
  - simpl. split; [reflexivity|]. exists d. repeat split; try assumption; apply Hc0.
  - simpl in Hb. cbn [post_users_seq].
    assert (Hrun :
      run (post_users H E b) s []
      = (Ok (upsert_reply false (VStr e)),
         {| users := (l ++ [refreshed E b d])%list; tasks := tasks s |})).
    { rewrite <- Hb.
      apply (post_users_updates H E b s [] d l []); rewrite ?Hb; try assumption.
      - apply ToBoolean_VStr. exact Hne.
      - apply ok_calls_nil.
      - apply matches_email. exact Hd. }
    rewrite Hrun.
    destruct (IH {| users := (l ++ [refreshed E b d])%list; tasks := tasks s |}
                 l (refreshed E b d) (E, b) eq_refl Hl1)
      as (Hrs & d' & Hu & Ht & He & Hc & Hr).
    { rewrite refreshed_keeps by notin_list. exact Hd. }
    { apply refreshed_reflects. }
    destruct (post_users_seq H rest _) as [rs s2]. cbn [fst snd] in *.
    split; [rewrite Hrs; reflexivity|].
    exists d'. repeat split; try assumption.
    + rewrite Hc. apply refreshed_keeps. notin_list.
    + rewrite last_cons. apply Hr.
    + rewrite last_cons. apply Hr.
    + rewrite last_cons. apply Hr.
    + rewrite last_cons. apply Hr.
    + rewrite last_cons. apply Hr.
Qed.

(** C4. For a non-empty email no stored user has: of any number of
    [POST /users] calls with that email served in turn, the first answers
    201 with [created: true] and every later one 200 with [created: false];
    the collection ends with exactly one more document, which carries the
    email, the [createdAt] of the first call, and the name, photo, bio and
    authProvider (or their defaults) and the [updatedAt] of the last call. *)
Theorem post_users_converges H e s E1 b1 rest :
  e <> "" ->
  List.find (matches H [("email", VStr e)]) (users s) = None ->
  body_field b1 "email" = VStr e ->
  Forall (fun c => body_field c.2 "email" = VStr e) rest ->
  (post_users_seq H ((E1, b1) :: rest) s).1
  = Ok (upsert_reply true (VStr e))
    :: map (fun _ => Ok (upsert_reply false (VStr e))) rest
  /\ status (upsert_reply true (VStr e)) = 201
  /\ status (upsert_reply false (VStr e)) = 200
  /\ exists d,
       users (post_users_seq H ((E1, b1) :: rest) s).2 = (users s ++ [d])%list
       /\ tasks (post_users_seq H ((E1, b1) :: rest) s).2 = tasks s
       /\ d !! "email" = Some (VStr e)
       /\ d !! "createdAt" = Some (VDate (now E1))
       /\ reflects (List.last rest (E1, b1)) d.
Proof.
  intros Hne Hf Hb Hrest. cbn [post_users_seq].
  assert (Hrun :
    run (post_users H E1 b1) s []
    = (Ok (upsert_reply true (VStr e)),
       {| users := (users s ++ [new_user H E1 b1])%list; tasks := tasks s |})).
  { rewrite <- Hb. apply post_users_inserts; rewrite ?Hb.
    - apply ToBoolean_VStr. exact Hne.
    - apply ok_calls_nil.
    - exact Hf. }
  rewrite Hrun.
  destruct (new_user_fields H E1 b1) as (He & Hc & Hr); [rewrite Hb; reflexivity|].
  rewrite Hb in He.
  destruct (post_users_seq_existing H e rest Hrest Hne
              {| users := (users s ++ [new_user H E1 b1])%list; tasks := tasks s |}
              (users s) (new_user H E1 b1) (E1, b1) eq_refl
              (find_none_forall _ _ Hf) He Hr)
    as (Hrs & d & Hu & Ht & Hde & Hdc & Hdr).
  destruct (post_users_seq H rest _) as [rs s2]. cbn [fst snd] in *.
  split; [rewrite Hrs; reflexivity|]. split; [reflexivity|]. split; [reflexivity|].
  exists d. split; [exact Hu|]. split; [exact Ht|]. split; [exact Hde|].
  split; [rewrite Hdc; exact Hc | exact Hdr].
Qed.

Lemma post_users_converges_witness :
  (post_users_seq sample_host [(sample_env, full_signup); (later_env, bare_signup)]
                  empty_db).1
  = [Ok (upsert_reply true (VStr "a@x.com")); Ok (upsert_reply false (VStr "a@x.com"))]
  /\ exists d,
       users (post_users_seq sample_host
                             [(sample_env, full_signup); (later_env, bare_signup)]
                             empty_db).2 = [d]
       /\ d !! "createdAt" = Some (VDate 2000)
       /\ d !! "name" = Some (VStr "")
       /\ d !! "updatedAt" = Some (VDate 3000).
Proof.
  destruct (post_users_converges sample_host "a@x.com" empty_db sample_env full_signup
              [(later_env, bare_signup)]
              ltac:(discriminate) eq_refl eq_refl ltac:(repeat constructor))
    as (Hrs & _ & _ & d & Hu & _ & _ & Hc & Hname & _ & _ & _ & Hup).
  split; [exact Hrs|]. exists d. repeat split; assumption.
Defined.

(** ** User lookup *)

Lemma obj_lookup_in (l : list (string * value)) (k : string) (v : value) :
  NoDup l.*1 -> (k, v) ∈ l -> obj l !! k = present (Some v).
Proof.
  intros Hnd Hin. unfold obj.
  set (p := fun kv : string * value => match kv.2 with VUndef => false | _ => true end).
  assert (Hsub : NoDup (List.filter p l).*1).
  { clear Hin. induction l as [|[k' v'] l IH]; simpl; [constructor|].
    simpl in Hnd. apply NoDup_cons in Hnd as [Hk' Hnd].
    destruct (p (k', v')); [|apply IH; exact Hnd].
    simpl. apply NoDup_cons. split; [|apply IH; exact Hnd].
    intros Hin. apply Hk'. apply list_elem_of_fmap in Hin as ([k2 v2] & -> & Hin).
    apply list_elem_of_In, filter_In in Hin as [Hin _].
    apply list_elem_of_fmap. exists (k2, v2). split; [reflexivity|].
    apply list_elem_of_In. exact Hin. }
  destruct (p (k, v)) eqn:Hp.
  - transitivity (Some v); [|destruct v; try reflexivity; discriminate].
    apply elem_of_list_to_map_1; [exact Hsub|].
    apply list_elem_of_In, filter_In. split; [apply list_elem_of_In; exact Hin | exact Hp].
  - transitivity (@None value); [|destruct v; try reflexivity; discriminate].
    apply not_elem_of_list_to_map_1. intros Hk.
    apply list_elem_of_fmap in Hk as ([k2 v2] & Hk2 & Hin2). simpl in Hk2. subst k2.
    apply list_elem_of_In, filter_In in Hin2 as [Hin2 Hp2].
    apply list_elem_of_In in Hin2.
    assert (v2 = v); [|congruence].
    clear -Hnd Hin Hin2. induction l as [|[k' v'] l IH]; [inversion Hin|].
    simpl in Hnd. apply NoDup_cons in Hnd as [Hk' Hnd].
    apply elem_of_cons in Hin as [[= -> ->]|Hin];
      apply elem_of_cons in Hin2 as [[= ->]|Hin2]; try reflexivity.
    + exfalso. apply Hk'. apply list_elem_of_fmap. exists (k', v2). split; auto.
    + subst. exfalso. apply Hk'. apply list_elem_of_fmap. exists (k', v). split; auto.
    + apply IH; assumption.
Qed.

Lemma obj_lookup_notin (l : list (string * value)) (k : string) :
  k ∉ l.*1 -> obj l !! k = None.
Proof.
  intros Hk. unfold obj. apply not_elem_of_list_to_map_1. intros Hin. apply Hk.
  apply list_elem_of_fmap in Hin as (kv & -> & Hin).
  apply list_elem_of_In, filter_In in Hin as [Hin _].
  apply list_elem_of_fmap. exists kv. split; [reflexivity | apply list_elem_of_In; exact Hin].
Qed.

Lemma present_field (d : doc) (k : string) : present (Some (field d k)) = present (d !! k).
Proof. unfold field. destruct (d !! k) as [v|]; reflexivity. Qed.

Lemma user_view_lookup (d : doc) (k : string) :
  user_view d !! k = if bool_decide (k ∈ user_fields) then present (d !! k) else None.
Proof.
  unfold user_view. case_bool_decide as Hk.
  - rewrite <- present_field. apply obj_lookup_in.
    + simpl. apply (bool_decide_unpack _). vm_compute. exact I.
    + unfold user_fields in Hk.
      repeat (apply elem_of_cons in Hk as [-> | Hk]; [in_list|]). inversion Hk.
  - apply obj_lookup_notin. exact Hk.
Qed.

(** C5. [GET /users/:email] answers with the first user stored under the
    exact email and makes no second lookup; only when there is none it looks
    the lower-cased email up; it answers 404 when both find nothing. The body
    of a 200 holds the seven members [name], [email], [photo], [bio],
    [authProvider], [createdAt], [updatedAt] of the stored document and
    nothing else, so not its [_id]. *)
Theorem get_user_lookup H rawEmail s fs :
  rawEmail <> "" ->
  (forall d, List.find (matches H [("email", VStr rawEmail)]) (users s) = Some d ->
             ok_calls 1 fs ->
             run (get_user H rawEmail) s fs
             = (Ok {| status := 200; body := JObj (user_view d) |}, s))
  /\ (List.find (matches H [("email", VStr rawEmail)]) (users s) = None ->
      ok_calls 2 fs ->
      run (get_user H rawEmail) s fs
      = (Ok match List.find (matches H [("email", VStr (toLowerCase rawEmail))])
                            (users s) with
            | Some d => {| status := 200; body := JObj (user_view d) |}
            | None => {| status := 404; body := JObj (error "User not found") |}
            end, s))
  /\ (forall e fs',
        List.find (matches H [("email", VStr rawEmail)]) (users s) = None ->
        run (get_user H rawEmail) s (None :: Some e :: fs') = (Ok internal_error, s))
  /\ (forall d k,
        user_view d !! k
        = if bool_decide (k ∈ user_fields) then present (d !! k) else None)
  /\ (forall d, user_view d !! "_id" = None).
Proof.
  intros Hne. apply ToBoolean_VStr in Hne as Hb.
  split; [|split; [|split; [|split]]].
  - intros d Hf Hok. rewrite get_user_run, Hb, (ok_calls_first _ _ Hok), Hf.
    reflexivity.
  - intros Hf Hok.
    rewrite get_user_run, Hb, (ok_calls_first _ _ Hok), Hf, (ok_calls_second _ _ Hok).
    cbn [negb].
    destruct (List.find (matches H [("email", VStr (toLowerCase rawEmail))]) (users s));
      reflexivity.
  - intros e fs' Hf. rewrite get_user_run, Hb. cbn [negb first_fault tail].
    rewrite Hf. reflexivity.
  - apply user_view_lookup.
  - intros d. rewrite user_view_lookup. reflexivity.
Qed.

Lemma get_user_lookup_witness :
  run (get_user sample_host "a@x.com") one_user_db []
  = (Ok {| status := 200; body := JObj (user_view alice) |}, one_user_db)
  /\ run (get_user sample_host "A@X.COM") one_user_db []
     = (Ok {| status := 200; body := JObj (user_view alice) |}, one_user_db)
  /\ run (get_user sample_host "b@x.com") one_user_db []
     = (Ok {| status := 404; body := JObj (error "User not found") |}, one_user_db)
  /\ run (get_user sample_host "A@X.COM") one_user_db
         [None; Some {| exn_name := "MongoNetworkError"; exn_code := None |}]
     = (Ok internal_error, one_user_db).
Proof.
  split; [|split; [|split]].
  - destruct (get_user_lookup sample_host "a@x.com" one_user_db [] ltac:(discriminate))
      as [Hexact _].
    apply Hexact; [vm_compute; reflexivity | apply ok_calls_nil].
  - destruct (get_user_lookup sample_host "A@X.COM" one_user_db [] ltac:(discriminate))
      as (_ & Hretry & _).
    exact (Hretry ltac:(vm_compute; reflexivity) (ok_calls_nil 2)).
  - destruct (get_user_lookup sample_host "b@x.com" one_user_db [] ltac:(discriminate))
      as (_ & Hretry & _).
    exact (Hretry ltac:(vm_compute; reflexivity) (ok_calls_nil 2)).
  - destruct (get_user_lookup sample_host "A@X.COM" one_user_db [] ltac:(discriminate))
      as (_ & _ & Hfail & _).
    apply Hfail. vm_compute. reflexivity.
Defined.

(** ** Listing tasks *)

#[local] Instance desc_by_total k : Total (desc_by k).
Proof. intros x y. unfold desc_by, key_le. lia. Qed.

#[local] Instance desc_by_trans k : Transitive (desc_by k).
Proof. intros x y z. unfold desc_by, key_le. lia. Qed.

(** The query of [GET /tasks] for an email parameter that has a string. *)
Lemma list_query_ok H qe qc :
  has_string H qe ->
  exists q, list_query H qe qc = Ok q /\ forall d, matches H q d = selected H qe qc d.
Proof.
  intros Hs. unfold list_query, selected, matches. rewrite Hs. ored.
  destruct (ToBoolean qe), (ToBoolean qc); eexists; (split; [reflexivity|]);
    intros d; cbn [app forallb fst snd]; rewrite ?andb_true_r; reflexivity.
Qed.

(** An email parameter without a string: the query is not built. *)
Lemma list_query_throws H qe qc e :
  ToString H qe = Throw e -> list_query H qe qc = Throw e.
Proof.
  intros Hs. unfold list_query.
  destruct (ToBoolean qe) eqn:Hb; [rewrite Hs; reflexivity|].
  exfalso. destruct qe as [| |[]|n|x| | | |]; cbn in Hs, Hb; discriminate.
Qed.

Lemma normalize_listable H (d : doc) w :
  listable H d -> normalize H d w = (Ok (task_view H d), w).
Proof.
  intros [Hid Hs]. unfold normalize. rewrite Hid. munfold. rewrite Hs. reflexivity.
Qed.

Lemma mapM_normalize H (docs : list doc) w :
  Forall (listable H) docs ->
  mapM (normalize H) docs w = (Ok (map (task_view H) docs), w).
Proof.
  intros Hall. induction Hall as [|d docs Hd _ IH]; [reflexivity|].
  cbn [mapM map]. unfold mbind, M_bind at 1. rewrite (normalize_listable H d w Hd).
  fold (mapM (normalize H) docs). unfold M_bind at 1. rewrite IH. reflexivity.
Qed.

Lemma normalize_state H (d : doc) w : exists o, normalize H d w = (o, w).
Proof.
  unfold normalize. destruct (is_nullish (field d "_id")); [eexists; reflexivity|].
  munfold. destruct (ToString H (field d "_id")); eexists; reflexivity.
Qed.

Lemma mapM_normalize_state H (docs : list doc) w :
  exists o, mapM (normalize H) docs w = (o, w).
Proof.
  induction docs as [|d docs [o IH]]; [eexists; reflexivity|].
  cbn [mapM]. unfold mbind, M_bind at 1.
  destruct (normalize_state H d w) as [[x|e] ->]; [|eexists; reflexivity].
  fold (mapM (normalize H) docs).
  unfold M_bind at 1. rewrite IH. destruct o; eexists; reflexivity.
Qed.

(** [GET /tasks] up to the conversion of the items. *)
Lemma list_tasks_run H qe qc s fs :
  run (list_tasks H qe qc) s fs
  = match list_query H qe qc with
    | Throw _ => (Ok internal_error, s)
    | Ok q =>
        match first_fault fs with
        | Some _ => (Ok internal_error, s)
        | None =>
            match mapM (normalize H)
                       (take 100 (merge_sort (desc_by "createdAt")
                                    (List.filter (matches H q) (tasks s))))
                       {| store := s; faults := tail fs |} with
            | (Ok items, _) => (Ok {| status := 200; body := JArr items |}, s)
            | (Throw _, _) => (Ok internal_error, s)
            end
        end
    end.
Proof.
  unfold list_tasks. munfold.
  destruct (list_query H qe qc) as [q|e]; [|reflexivity].
  rewrite driver_run. destruct (first_fault fs); [reflexivity|].
  unfold find_desc_op. mred.
  match goal with
  | |- context [mapM (normalize H) ?docs ?w] =>
      destruct (mapM_normalize_state H docs w) as [o Ho];
      unfold M_bind, M_ret in Ho |- *; rewrite Ho
  end.
  destruct o; reflexivity.
Qed.

Lemma list_tasks_listed H qe qc s fs :
  Forall (listable H) (tasks s) ->
  has_string H qe ->
  ok_calls 1 fs ->
  run (list_tasks H qe qc) s fs
  = (Ok {| status := 200;
           body := JArr (map (task_view H)
                             (take 100 (merge_sort (desc_by "createdAt")
                                          (List.filter (selected H qe qc) (tasks s))))) |},
     s).
Proof.
  intros Hids Hs Hok. rewrite list_tasks_run.
  destruct (list_query_ok H qe qc Hs) as (q & -> & Hq).
  rewrite (ok_calls_first _ _ Hok), (filter_ext _ _ Hq).
  rewrite mapM_normalize; [reflexivity|].
  apply Forall_forall. intros d Hd. apply (subseteq_take 100) in Hd.
  rewrite merge_sort_Permutation in Hd.
  apply list_elem_of_In, filter_In in Hd as [Hd _].
  apply (proj1 (Forall_forall _ _) Hids). apply list_elem_of_In. exact Hd.
Qed.

Lemma task_view_id H d :
  task_view H d !! "_id" = Some (VStr (string_of H (field d "_id"))).
Proof.
  unfold task_view. apply lookup_union_Some_l.
  rewrite (obj_lookup_in _ "_id" (VStr (string_of H (field d "_id")))).
  - reflexivity.
  - simpl. apply (bool_decide_unpack _). vm_compute. exact I.
  - in_list.
Qed.

Lemma task_view_deadline H d :
  task_view H d !! "deadline" = present (d !! "deadline").
Proof.
  unfold task_view. rewrite lookup_union.
  rewrite (obj_lookup_in _ "deadline" (field d "deadline")).
  - rewrite lookup_delete_eq, present_field. destruct (present _); reflexivity.
  - simpl. apply (bool_decide_unpack _). vm_compute. exact I.
  - in_list.
Qed.

Lemma task_view_rest H d k :
  k <> "_id" -> k <> "deadline" -> task_view H d !! k = d !! k.
Proof.
  intros H1 H2. unfold task_view. rewrite lookup_union.
  rewrite obj_lookup_notin
    by (simpl; rewrite list_elem_of_In; simpl; intuition congruence).
  rewrite !lookup_delete_ne by congruence. destruct (d !! k); reflexivity.
Qed.

Lemma StronglySorted_lookup {A} (R : relation A) (l : list A) (i j : nat) (x y : A) :
  StronglySorted R l -> (i < j)%nat -> l !! i = Some x -> l !! j = Some y -> R x y.
Proof.
  intros Hs. revert i j. induction Hs as [|a l _ IH Hall]; intros i j Hij Hi Hj.
  - discriminate.
  - destruct j as [|j]; [lia|]. destruct i as [|i].
    + injection Hi as <-. simpl in Hj.
      apply (proj1 (Forall_forall _ _) Hall). apply list_elem_of_lookup. eauto.
    + simpl in Hi, Hj. apply (IH i j); [lia | assumption | assumption].
Qed.

(** C6. [GET /tasks] answers 200 with the views of at most 100 stored tasks:
    tasks that pass both filters (each one only when its parameter is given,
    the email lower-cased and matched against [author.email], the category
    matched as it is), all of them when they are no more than 100 and
    otherwise 100 of them that no omitted one precedes, in descending order
    of [createdAt]. A view is the document with its [_id] replaced by the
    string of it and every other member as stored. This is for an email
    parameter and stored identifiers of which the string can be taken, as it
    can of every string and of every identifier the store assigns. *)
Theorem list_tasks_result H qe qc s fs :
  Forall (listable H) (tasks s) ->
  has_string H qe ->
  ok_calls 1 fs ->
  exists docs,
    run (list_tasks H qe qc) s fs
    = (Ok {| status := 200; body := JArr (map (task_view H) docs) |}, s)
    /\ (length (map (task_view H) docs) <= 100)%nat
    /\ length docs = Nat.min 100 (length (List.filter (selected H qe qc) (tasks s)))
    /\ (forall d, d ∈ docs -> d ∈ tasks s /\ selected H qe qc d = true)
    /\ ((length (List.filter (selected H qe qc) (tasks s)) <= 100)%nat ->
        docs ≡ₚ List.filter (selected H qe qc) (tasks s))
    /\ (forall d x, d ∈ tasks s -> selected H qe qc d = true -> d ∉ docs ->
                    x ∈ docs -> desc_by "createdAt" x d)
    /\ StronglySorted (desc_by "createdAt") docs
    /\ (forall i j x y tx ty,
          (i < j)%nat -> docs !! i = Some x -> docs !! j = Some y ->
          x !! "createdAt" = Some (VDate tx) -> y !! "createdAt" = Some (VDate ty) ->
          ty <= tx)
    /\ (forall d,
          task_view H d !! "_id" = Some (VStr (string_of H (field d "_id")))
          /\ task_view H d !! "deadline" = present (d !! "deadline")
          /\ forall k, k <> "_id" -> k <> "deadline" -> task_view H d !! k = d !! k)
    /\ (forall d, d ∈ docs ->
          ToString H (field d "_id") = Ok (string_of H (field d "_id"))).
Proof.
  intros Hids Hqe Hok.
  set (hits := List.filter (selected H qe qc) (tasks s)).
  set (sorted := merge_sort (desc_by "createdAt") hits).
  assert (Hin : forall d, d ∈ take 100 sorted ->
                          d ∈ tasks s /\ selected H qe qc d = true).
  { intros d Hd. apply (subseteq_take 100 sorted) in Hd.
    unfold sorted in Hd. rewrite merge_sort_Permutation in Hd.
    apply list_elem_of_In, filter_In in Hd as [Hd Hsel].
    split; [apply list_elem_of_In; exact Hd | exact Hsel]. }
  assert (Hall : StronglySorted (desc_by "createdAt") sorted)
    by (apply StronglySorted_merge_sort; apply _).
  assert (Hsorted : StronglySorted (desc_by "createdAt") (take 100 sorted)).
  { apply (StronglySorted_app_1_l _ _ (drop 100 sorted)). rewrite take_drop.
    exact Hall. }
  exists (take 100 sorted).
  split; [|split; [|split; [|split; [|split; [|split; [|split; [|split; [|split]]]]]]]].
  - apply list_tasks_listed; assumption.
  - rewrite length_map, length_take. lia.
  - rewrite length_take. unfold sorted.
    rewrite merge_sort_Permutation. reflexivity.
  - exact Hin.
  - intros Hlen.
    rewrite take_ge; [apply merge_sort_Permutation|].
    unfold sorted. rewrite merge_sort_Permutation. exact Hlen.
  - intros d x Hd Hsel Hout Hx.
    assert (Hd' : d ∈ sorted).
    { unfold sorted. rewrite merge_sort_Permutation.
      apply list_elem_of_In, filter_In.
      split; [apply list_elem_of_In; exact Hd | exact Hsel]. }
    rewrite <- (take_drop 100 sorted) in Hd', Hall.
    apply elem_of_app in Hd' as [Hd' | Hd']; [contradiction|].
    exact (StronglySorted_app_1_elem_of _ _ _ _ _ Hall Hx Hd').
  - exact Hsorted.
  - intros i j x y tx ty Hij Hi Hj Hx Hy.
    pose proof (StronglySorted_lookup _ _ i j x y Hsorted Hij Hi Hj) as Hxy.
    unfold desc_by, key_le in Hxy. rewrite Hx, Hy in Hxy. simpl in Hxy. lia.
  - intros d. split; [apply task_view_id|]. split; [apply task_view_deadline|].
    intros k. apply task_view_rest.
  - intros d Hd. destruct (Hin d Hd) as [Hd' _].
    apply (proj1 (Forall_forall _ _) Hids d Hd').
Qed.

Lemma list_tasks_result_witness :
  exists docs,
    run (list_tasks sample_host (VStr "OWNER@x.com") VUndef) two_task_db []
    = (Ok {| status := 200; body := JArr (map (task_view sample_host) docs) |},
       two_task_db)
    /\ (forall d, d ∈ docs ->
                  selected sample_host (VStr "OWNER@x.com") VUndef d = true)
    /\ docs ≡ₚ [owner_task].
Proof.
  destruct (list_tasks_result sample_host (VStr "OWNER@x.com") VUndef two_task_db [])
    as (docs & Hrun & _ & _ & Hin & Hall & _).
  - repeat constructor.
  - reflexivity.
  - apply ok_calls_nil.
  - exists docs. split; [exact Hrun|]. split; [intros d Hd; apply (Hin d Hd)|].
    apply Hall. vm_compute. lia.
Defined.

(** * Further properties of the handlers *)

(** ** What each handler can answer, and what it then leaves *)

Ltac unchanged :=
  do 2 eexists; split; [reflexivity|]; right; split; [simpl; auto 10 | reflexivity].

Lemma delete_task_outcome H id qe s fs :
  exists r s',
    run (delete_task H id qe) s fs = (Ok r, s')
    /\ ((status r = 200
         /\ exists o email task l1 l2,
              ObjectId_new id = Some o
              /\ tasks s = (l1 ++ task :: l2)%list
              /\ Forall (fun d => matches H [("_id", VOid o)] d = false) l1
              /\ matches H [("_id", VOid o)] task = true
              /\ caller_email H qe = Ok email
              /\ email <> ""
              /\ author_email task = VStr email
              /\ s' = {| users := users s; tasks := (l1 ++ l2)%list |})
        \/ (In (status r) [400; 403; 404; 500] /\ s' = s)).
Proof.
  rewrite delete_task_run.
  destruct (caller_email H qe) as [email|e]; [|unchanged].
  destruct (ToBoolean (VStr email)) eqn:Hb; cbn [negb]; [|unchanged].
  apply ToBoolean_VStr in Hb.
  destruct (ObjectId_new id) as [o|]; [|unchanged].
  destruct (first_fault fs); [unchanged|].
  destruct (List.find (matches H [("_id", VOid o)]) (tasks s)) as [task|] eqn:Ht;
    [|unchanged].
  destruct (not_author task email) eqn:Hna; [unchanged|].
  destruct (first_fault (tail fs)); [unchanged|].
  destruct (find_split _ _ _ Ht) as (l1 & l2 & Hl & Hl1 & Hm).
  do 2 eexists. split; [reflexivity|]. left. split; [reflexivity|].
  exists o, email, task, l1, l2.
  split; [reflexivity|]. split; [exact Hl|]. split; [exact Hl1|]. split; [exact Hm|].
  split; [reflexivity|]. split; [exact Hb|].
  split; [apply not_author_false_inv; assumption|].
  rewrite Hl, (delete_first_split _ _ _ _ Hl1 Hm). reflexivity.
Qed.

Lemma patch_task_outcome H E id qe body s fs :
  exists r s',
    run (patch_task H E id qe body) s fs = (Ok r, s')
    /\ ((status r = 200
         /\ exists o email task t l1 l2,
              ObjectId_new id = Some o
              /\ tasks s = (l1 ++ task :: l2)%list
              /\ Forall (fun d => matches H [("_id", VOid o)] d = false) l1
              /\ matches H [("_id", VOid o)] task = true
              /\ caller_email H qe = Ok email
              /\ email <> ""
              /\ author_email task = VStr email
              /\ patch_body_ok H body t
              /\ s' = {| users := users s;
                         tasks := (l1 ++ patched H E body t task :: l2)%list |})
        \/ (In (status r) [400; 403; 404; 500] /\ s' = s)).
Proof.
  rewrite patch_task_run.
  destruct (caller_email H qe) as [email|e]; [|unchanged].
  destruct (ToBoolean (VStr email)) eqn:Hb; cbn [negb]; [|unchanged].
  apply ToBoolean_VStr in Hb.
  destruct (ObjectId_new id) as [o|]; [|unchanged].
  destruct (first_fault fs); [unchanged|].
  destruct (List.find (matches H [("_id", VOid o)]) (tasks s)) as [task|] eqn:Ht;
    [|unchanged].
  destruct (not_author task email) eqn:Hna; [unchanged|].
  destruct (validation H body) as [[msg|]|e] eqn:Hv; [unchanged | | unchanged].
  destruct (Date_new H (body_field body "deadline")) as [[t|]|e] eqn:Hd;
    [ | unchanged | unchanged].
  destruct (first_fault (tail fs)); [unchanged|].
  destruct (find_split _ _ _ Ht) as (l1 & l2 & Hl & Hl1 & Hm).
  do 2 eexists. split; [reflexivity|]. left. split; [reflexivity|].
  exists o, email, task, t, l1, l2.
  split; [reflexivity|]. split; [exact Hl|]. split; [exact Hl1|]. split; [exact Hm|].
  split; [reflexivity|]. split; [exact Hb|].
  split; [apply not_author_false_inv; assumption|].
  split; [split; assumption|].
  rewrite Hl, (update_first_split _ _ _ _ _ Hl1 Hm). reflexivity.
Qed.

Lemma post_tasks_outcome H E body s fs :
  exists r s',
    run (post_tasks H E body) s fs = (Ok r, s')
    /\ ((exists t,
           other_fields_ok H body t
           /\ budget_rejected H (body_field body "budget") = Ok false
           /\ r = {| status := 201;
                     body := JObj (obj [("ok", VBool true);
                                        ("id", VOid (next_id E))]) |}
           /\ s' = {| users := users s;
                      tasks := (tasks s ++ [created H E body t])%list |})
        \/ (In (status r) [400; 500] /\ s' = s)).
Proof.
  rewrite post_tasks_run.
  destruct (validation H body) as [[msg|]|e] eqn:Hv; [unchanged | | unchanged].
  destruct (ToBoolean (body_field body "userEmail")) eqn:Hu; cbn [negb]; [|unchanged].
  destruct (Date_new H (body_field body "deadline")) as [[t|]|e] eqn:Hd;
    [ | unchanged | unchanged].
  destruct (ToString H (body_field body "userEmail")) as [u|e] eqn:Hus; [|unchanged].
  destruct (first_fault fs); [unchanged|].
  do 2 eexists. split; [reflexivity|]. left. exists t.
  apply validate_fields_none in Hv as (Ht & Hc & Hde & Hdl & Hb).
  split; [|split; [exact Hb | split; reflexivity]].
  split; [exact Ht|]. split; [exact Hc|]. split; [exact Hde|]. split; [exact Hdl|].
  split; [exact Hu|]. split; [apply (ToString_has_string _ _ _ Hus) | exact Hd].
Qed.

Lemma post_users_outcome H E body s fs :
  exists r s',
    run (post_users H E body) s fs = (Ok r, s')
    /\ ((r = upsert_reply true (body_field body "email")
         /\ ToBoolean (body_field body "email") = true
         /\ List.find (matches H [("email", body_field body "email")]) (users s) = None
         /\ s' = {| users := (users s ++ [new_user H E body])%list; tasks := tasks s |})
        \/ (r = upsert_reply false (body_field body "email")
            /\ ToBoolean (body_field body "email") = true
            /\ exists old l1 l2,
                 users s = (l1 ++ old :: l2)%list
                 /\ Forall (fun d => matches H [("email", body_field body "email")] d
                                     = false) l1
                 /\ matches H [("email", body_field body "email")] old = true
                 /\ s' = {| users := (l1 ++ refreshed E body old :: l2)%list;
                            tasks := tasks s |})
        \/ (In (status r) [400; 409; 500] /\ s' = s)).
Proof.
  rewrite post_users_run. cbv zeta.
  destruct (ToBoolean (body_field body "email")) eqn:Hb; cbn [negb];
    [|do 2 eexists; split; [reflexivity|]; right; right;
      split; [simpl; auto | reflexivity]].
  destruct (first_fault fs) as [e|].
  { destruct (bool_decide (exn_code e = Some 11000));
      do 2 eexists; (split; [reflexivity|]); right; right;
      (split; [simpl; auto | reflexivity]). }
  destruct (List.find _ (users s)) as [old|] eqn:Hf.
  - destruct (find_split _ _ _ Hf) as (l1 & l2 & Hl & Hl1 & Hm).
    do 2 eexists. split; [reflexivity|]. right. left.
    split; [reflexivity|]. split; [reflexivity|].
    exists old, l1, l2. repeat split; try assumption.
    rewrite Hl, (update_first_split _ _ _ _ _ Hl1 Hm). reflexivity.
  - do 2 eexists. split; [reflexivity|]. left. repeat split; reflexivity.
Qed.

Lemma get_user_outcome H rawEmail s fs :
  exists r, run (get_user H rawEmail) s fs = (Ok r, s)
            /\ In (status r) [200; 400; 404; 500].
Proof.
  rewrite get_user_run.
  destruct (ToBoolean (VStr rawEmail)); cbn [negb];
    [|eexists; split; [reflexivity | simpl; auto]].
  destruct (first_fault fs); [eexists; split; [reflexivity | simpl; auto]|].
  destruct (List.find _ (users s)) as [d|];
    [eexists; split; [reflexivity | simpl; auto]|].
  destruct (first_fault (tail fs)); [eexists; split; [reflexivity | simpl; auto]|].
  destruct (List.find _ (users s)) as [d|];
    eexists; (split; [reflexivity | simpl; auto]).
Qed.

Lemma get_task_outcome H id s fs :
  exists r, run (get_task H id) s fs = (Ok r, s)
            /\ In (status r) [200; 400; 404].
Proof.
  rewrite get_task_run.
  destruct (ObjectId_new id) as [o|];
    [|eexists; split; [reflexivity | simpl; auto]].
  destruct (first_fault fs); [eexists; split; [reflexivity | simpl; auto]|].
  destruct (List.find _ (tasks s)) as [d|];
    eexists; (split; [reflexivity | simpl; auto]).
Qed.

Lemma list_tasks_outcome H qe qc s fs :
  exists r, run (list_tasks H qe qc) s fs = (Ok r, s)
            /\ In (status r) [200; 500].
Proof.
  rewrite list_tasks_run.
  destruct (list_query H qe qc) as [q|e];
    [|eexists; split; [reflexivity | simpl; auto]].
  destruct (first_fault fs); [eexists; split; [reflexivity | simpl; auto]|].
  match goal with
  | |- context [mapM (normalize H) ?docs ?w] =>
      destruct (mapM (normalize H) docs w) as [[items|e] w']
  end; eexists; (split; [reflexivity | simpl; auto]).
Qed.

(** X1. Every request is answered: no exception escapes a handler, whatever
    the input, the database and the failures of the driver, and each handler
    answers with one of its own statuses. [GET /tasks/:id] never answers
    500. *)
Theorem handlers_always_answer H E id rawEmail qe qc body s fs :
  (exists r s', run (post_users H E body) s fs = (Ok r, s')
                /\ In (status r) [200; 201; 400; 409; 500])
  /\ (exists r s', run (get_user H rawEmail) s fs = (Ok r, s')
                   /\ In (status r) [200; 400; 404; 500])
  /\ (exists r s', run (post_tasks H E body) s fs = (Ok r, s')
                   /\ In (status r) [201; 400; 500])
  /\ (exists r s', run (list_tasks H qe qc) s fs = (Ok r, s')
                   /\ In (status r) [200; 500])
  /\ (exists r s', run (get_task H id) s fs = (Ok r, s')
                   /\ In (status r) [200; 400; 404])
  /\ (exists r s', run (delete_task H id qe) s fs = (Ok r, s')
                   /\ In (status r) [200; 400; 403; 404; 500])
  /\ (exists r s', run (patch_task H E id qe body) s fs = (Ok r, s')
                   /\ In (status r) [200; 400; 403; 404; 500]).
Proof.
  repeat split.
  - destruct (post_users_outcome H E body s fs)
      as (r & s' & Hrun & [(-> & _) | [(-> & _) | (Hst & _)]]);
      do 2 eexists; (split; [exact Hrun|]); simpl in *; intuition (auto 10).
  - destruct (get_user_outcome H rawEmail s fs) as (r & Hrun & Hst). eauto.
  - destruct (post_tasks_outcome H E body s fs)
      as (r & s' & Hrun & [(t & _ & _ & -> & _) | (Hst & _)]);
      do 2 eexists; (split; [exact Hrun|]); simpl in *; intuition (auto 10).
  - destruct (list_tasks_outcome H qe qc s fs) as (r & Hrun & Hst). eauto.
  - destruct (get_task_outcome H id s fs) as (r & Hrun & Hst). eauto.
  - destruct (delete_task_outcome H id qe s fs)
      as (r & s' & Hrun & [(Hst & _) | (Hst & _)]);
      do 2 eexists; (split; [exact Hrun|]); simpl in *; intuition (auto 10).
  - destruct (patch_task_outcome H E id qe body s fs)
      as (r & s' & Hrun & [(Hst & _) | (Hst & _)]);
      do 2 eexists; (split; [exact Hrun|]); simpl in *; intuition (auto 10).
Qed.

(** X2. The three reading handlers never write: after [GET /users/:email],
    [GET /tasks] and [GET /tasks/:id] the database is the one before,
    whatever the input and the failures of the driver. *)
Theorem reads_never_write H id rawEmail qe qc s fs :
  (run (get_user H rawEmail) s fs).2 = s
  /\ (run (list_tasks H qe qc) s fs).2 = s
  /\ (run (get_task H id) s fs).2 = s.
Proof.
  destruct (get_user_outcome H rawEmail s fs) as (r1 & -> & _).
  destruct (list_tasks_outcome H qe qc s fs) as (r2 & -> & _).
  destruct (get_task_outcome H id s fs) as (r3 & -> & _).
  repeat split.
Qed.

(** X3. A request that is not answered with success has written nothing:
    the database changes only with a 201 of [POST /tasks], a 200 or 201 of
    [POST /users], a 200 of [DELETE] or a 200 of [PATCH]. *)
Theorem refused_requests_write_nothing H E id qe body s fs r s' :
  (run (post_users H E body) s fs = (Ok r, s') ->
   status r <> 200 -> status r <> 201 -> s' = s)
  /\ (run (post_tasks H E body) s fs = (Ok r, s') -> status r <> 201 -> s' = s)
  /\ (run (delete_task H id qe) s fs = (Ok r, s') -> status r <> 200 -> s' = s)
  /\ (run (patch_task H E id qe body) s fs = (Ok r, s') -> status r <> 200 -> s' = s).
Proof.
  repeat split.
  - destruct (post_users_outcome H E body s fs)
      as (r0 & s0 & Hrun & [(-> & _) | [(-> & _) | (_ & ->)]]);
      rewrite Hrun; intros [= <- <-]; simpl; congruence.
  - destruct (post_tasks_outcome H E body s fs)
      as (r0 & s0 & Hrun & [(t & _ & _ & -> & _) | (_ & ->)]);
      rewrite Hrun; intros [= <- <-]; simpl; congruence.
  - destruct (delete_task_outcome H id qe s fs)
      as (r0 & s0 & Hrun & [(Hst & _) | (_ & ->)]);
      rewrite Hrun; intros [= <- <-]; congruence.
  - destruct (patch_task_outcome H E id qe body s fs)
      as (r0 & s0 & Hrun & [(Hst & _) | (_ & ->)]);
      rewrite Hrun; intros [= <- <-]; congruence.
Qed.

Lemma refused_requests_write_nothing_witness :
  (run (post_tasks sample_host sample_env (sample_post (VStr "abc"))) one_task_db []).2
  = one_task_db.
Proof.
  destruct (refused_requests_write_nothing sample_host sample_env owner_task_id
              VUndef (sample_post (VStr "abc")) one_task_db []
              {| status := 400; body := JObj (error "Budget must be a number") |}
              (run (post_tasks sample_host sample_env (sample_post (VStr "abc")))
                   one_task_db []).2) as (_ & Hpost & _).
  apply Hpost; [vm_compute; reflexivity | discriminate].
Defined.

(** X4. The two collections are kept apart: [POST /users] never touches the
    tasks, and [POST /tasks], [DELETE /tasks/:id] and [PATCH /tasks/:id]
    never touch the users. *)
Theorem collections_are_separate H E id qe body s fs :
  tasks (run (post_users H E body) s fs).2 = tasks s
  /\ users (run (post_tasks H E body) s fs).2 = users s
  /\ users (run (delete_task H id qe) s fs).2 = users s
  /\ users (run (patch_task H E id qe body) s fs).2 = users s.
Proof.
  repeat split.
  - destruct (post_users_outcome H E body s fs)
      as (r & s' & -> & [(_ & _ & _ & ->) | [(_ & _ & old & l1 & l2 & _ & _ & _ & ->)
                                            | (_ & ->)]]); reflexivity.
  - destruct (post_tasks_outcome H E body s fs)
      as (r & s' & -> & [(t & _ & _ & _ & ->) | (_ & ->)]); reflexivity.
  - destruct (delete_task_outcome H id qe s fs)
      as (r & s' & -> & [(_ & o & email & task & l1 & l2 & _ & _ & _ & _ & _ & _ & _ & ->)
                        | (_ & ->)]); reflexivity.
  - destruct (patch_task_outcome H E id qe body s fs)
      as (r & s' & -> & [(_ & o & email & task & t & l1 & l2
                          & _ & _ & _ & _ & _ & _ & _ & _ & ->)
                        | (_ & ->)]); reflexivity.
Qed.

(** X5. Nothing is written without ownership: whenever [DELETE] or [PATCH]
    answers 200 or leaves a database other than the one it found, the caller
    email is non-empty and its lower-cased form is the [author.email] of the
    first stored task under the identifier. *)
Theorem writes_require_ownership H E id qe body s fs r s' :
  (run (delete_task H id qe) s fs = (Ok r, s') -> status r = 200 \/ s' <> s ->
   exists task email,
     task_of H id s = Some task
     /\ caller_email H qe = Ok email
     /\ email <> ""
     /\ author_email task = VStr email)
  /\ (run (patch_task H E id qe body) s fs = (Ok r, s') -> status r = 200 \/ s' <> s ->
      exists task email,
        task_of H id s = Some task
        /\ caller_email H qe = Ok email
        /\ email <> ""
        /\ author_email task = VStr email).
Proof.
  split.
  - destruct (delete_task_outcome H id qe s fs)
      as (r0 & s0 & Hrun & [(_ & o & email & task & l1 & l2 & Ho & Hl & Hl1 & Hm & Hc
                             & Hne & Ha & _)
                           | (Hst & ->)]);
      rewrite Hrun; intros [= <- <-] Hw.
    + exists task, email. split; [|split; [|split]; assumption].
      unfold task_of. rewrite Ho, Hl. apply find_app_first; assumption.
    + exfalso. destruct Hw as [Hw | Hw]; [|congruence].
      rewrite Hw in Hst. simpl in Hst. intuition discriminate.
  - destruct (patch_task_outcome H E id qe body s fs)
      as (r0 & s0 & Hrun & [(_ & o & email & task & t & l1 & l2 & Ho & Hl & Hl1 & Hm
                             & Hc & Hne & Ha & _) | (Hst & ->)]);
      rewrite Hrun; intros [= <- <-] Hw.
    + exists task, email. split; [|split; [|split]; assumption].
      unfold task_of. rewrite Ho, Hl. apply find_app_first; assumption.
    + exfalso. destruct Hw as [Hw | Hw]; [|congruence].
      rewrite Hw in Hst. simpl in Hst. intuition discriminate.
Qed.

Lemma writes_require_ownership_witness :
  exists task email,
    task_of sample_host owner_task_id one_task_db = Some task
    /\ caller_email sample_host (VStr "Owner@X.com") = Ok email
    /\ email <> ""
    /\ author_email task = VStr email.
Proof.
  destruct (writes_require_ownership sample_host sample_env owner_task_id
              (VStr "Owner@X.com") sample_patch one_task_db []
              {| status := 200;
                 body := JObj (obj [("ok", VBool true); ("id", VStr owner_task_id)]) |}
              empty_db) as [Hdel _].
  apply Hdel; [vm_compute; reflexivity | left; reflexivity].
Defined.

(** X6. When [DELETE /tasks/:id] answers 200, exactly one document is gone:
    the first stored task under the identifier; the tasks before and after
    it keep their order, the users are untouched, and the body echoes the
    path parameter as it was sent. *)
Theorem delete_removes_one_task H id qe s fs r s' :
  run (delete_task H id qe) s fs = (Ok r, s') ->
  status r = 200 ->
  exists task l1 l2,
    task_of H id s = Some task
    /\ tasks s = (l1 ++ task :: l2)%list
    /\ tasks s' = (l1 ++ l2)%list
    /\ S (length (tasks s')) = length (tasks s)
    /\ users s' = users s
    /\ body r = JObj (obj [("ok", VBool true); ("id", VStr id)]).
Proof.
  rewrite delete_task_run. unfold task_of.
  destruct (caller_email H qe) as [email|e]; [|other_status].
  destruct (ToBoolean (VStr email)); cbn [negb]; [|other_status].
  destruct (ObjectId_new id) as [o|]; [|other_status].
  destruct (first_fault fs); [other_status|].
  destruct (List.find (matches H [("_id", VOid o)]) (tasks s)) as [task|] eqn:Ht;
    [|other_status].
  destruct (not_author task email); [other_status|].
  destruct (first_fault (tail fs)); [other_status|].
  destruct (find_split _ _ _ Ht) as (l1 & l2 & Hl & Hl1 & Hm).
  intros [= <- <-] _. exists task, l1, l2. cbn [tasks users body].
  rewrite Hl, (delete_first_split _ _ _ _ Hl1 Hm).
  repeat split; try reflexivity. rewrite !length_app. simpl. lia.
Qed.

Lemma delete_removes_one_task_witness :
  exists task l1 l2,
    task_of sample_host owner_task_id two_task_db = Some task
    /\ tasks two_task_db = (l1 ++ task :: l2)%list
    /\ [other_task] = (l1 ++ l2)%list.
Proof.
  destruct (delete_removes_one_task sample_host owner_task_id (VStr "owner@x.com")
              two_task_db []
              {| status := 200;
                 body := JObj (obj [("ok", VBool true); ("id", VStr owner_task_id)]) |}
              {| users := []; tasks := [other_task] |})
    as (task & l1 & l2 & Ht & Hl & Hl' & _).
  - vm_compute. reflexivity.
  - reflexivity.
  - exists task, l1, l2. repeat split; assumption.
Defined.

(** ** Creating and fetching a task *)

Lemma created_author H E body t :
  author_email (created H E body t)
  = VStr (toLowerCase (string_of H (body_field body "userEmail"))).
Proof.
  destruct (created_fields H E body t) as (_ & _ & _ & _ & _ & _ & Ha & _).
  unfold author_email, field. rewrite Ha. reflexivity.
Qed.

(** X7. When [POST /tasks] answers 201, exactly one document has been
    appended to the tasks and the users are untouched. The document carries
    the identifier returned in the body, the status ["open"], the lower-cased
    string of [userEmail] as [author.email], [userName] (or the empty string)
    as [author.name], the time of the call as both [createdAt] and
    [updatedAt], and as title and description the trimmed strings of the
    body's, neither of them empty. *)
Theorem post_tasks_creates_open_task H E req s fs r s' :
  run (post_tasks H E req) s fs = (Ok r, s') ->
  status r = 201 ->
  exists d,
    tasks s' = (tasks s ++ [d])%list
    /\ users s' = users s
    /\ body r = JObj (obj [("ok", VBool true); ("id", VOid (next_id E))])
    /\ d !! "_id" = Some (VOid (next_id E))
    /\ d !! "status" = Some (VStr "open")
    /\ d !! "author"
       = Some (VObj [("email",
                      VStr (toLowerCase (string_of H (body_field req "userEmail"))));
                     ("name", js_or (body_field req "userName") (VStr ""))])
    /\ d !! "createdAt" = Some (VDate (now E))
    /\ d !! "updatedAt" = Some (VDate (now E))
    /\ d !! "title" = Some (VStr (trim (string_of H (body_field req "title"))))
    /\ trim (string_of H (body_field req "title")) <> ""
    /\ d !! "description"
       = Some (VStr (trim (string_of H (body_field req "description"))))
    /\ trim (string_of H (body_field req "description")) <> ""
    /\ ToString H (body_field req "userEmail")
       = Ok (string_of H (body_field req "userEmail"))
    /\ ToString H (body_field req "title") = Ok (string_of H (body_field req "title"))
    /\ ToString H (body_field req "description")
       = Ok (string_of H (body_field req "description")).
Proof.
  intros Hrun Hst.
  destruct (post_tasks_outcome H E req s fs)
    as (r0 & s0 & Hrun0 & [(t & Hok & _ & -> & ->) | (Hin & _)]);
    rewrite Hrun0 in Hrun; injection Hrun as <- <-.
  - destruct Hok as ((_ & Hts & Ht) & _ & (_ & Hds & Hd) & _ & _ & Hus & _).
    destruct (created_fields H E req t)
      as (Hid & Htitle & _ & Hdesc & _ & _ & Ha & Hs & Hc & Hu).
    exists (created H E req t).
    repeat split; try assumption; apply ToBoolean_VStr; assumption.
  - exfalso. rewrite Hst in Hin. simpl in Hin. intuition discriminate.
Qed.

Lemma post_tasks_creates_open_task_witness :
  exists d,
    tasks (run (post_tasks sample_host sample_env (sample_post (VStr "150.5")))
               one_task_db []).2 = [owner_task; d]
    /\ d !! "status" = Some (VStr "open")
    /\ d !! "author"
       = Some (VObj [("email", VStr "owner@x.com"); ("name", VStr "")])
    /\ d !! "title" = Some (VStr "Logo").
Proof.
  destruct (post_tasks_creates_open_task sample_host sample_env
              (sample_post (VStr "150.5")) one_task_db []
              {| status := 201;
                 body := JObj (obj [("ok", VBool true); ("id", VOid 2%N)]) |}
              (run (post_tasks sample_host sample_env (sample_post (VStr "150.5")))
                   one_task_db []).2)
    as (d & Hl & _ & _ & _ & Hs & Ha & _ & _ & Ht & _).
  - vm_compute. reflexivity.
  - reflexivity.
  - exists d. repeat split; assumption.
Defined.

(** X8. A title or a description made of white space only counts as
    missing: [POST /tasks] answers 400 with the message of that field and
    writes nothing, whatever the members checked after it are. The
    description is checked after the title and the category: for it the
    title must have passed, so have a string that is not blank. *)
Theorem blank_text_is_missing H E req s fs :
  (forall ts, body_field req "title" = VStr ts -> trim ts = "" ->
              run (post_tasks H E req) s fs
              = (Ok {| status := 400; body := JObj (error "Title is required") |}, s))
  /\ (forall ds, ToBoolean (body_field req "title") = true ->
                 ToString H (body_field req "title")
                 = Ok (string_of H (body_field req "title")) ->
                 trim (string_of H (body_field req "title")) <> "" ->
                 ToBoolean (body_field req "category") = true ->
                 body_field req "description" = VStr ds -> trim ds = "" ->
                 run (post_tasks H E req) s fs
                 = (Ok {| status := 400;
                          body := JObj (error "Description is required") |}, s)).
Proof.
  split.
  - intros ts Ht Hblank. rewrite post_tasks_run. unfold validation, validate_fields.
    rewrite Ht. unfold blank. cbn [ToString]. ored. rewrite Hblank.
    destruct (ToBoolean (VStr ts)); reflexivity.
  - intros ds Ht Hts Ht' Hc Hd Hblank. apply ToBoolean_VStr in Ht'.
    rewrite post_tasks_run. unfold validation, validate_fields.
    rewrite (blank_text_ok H (body_field req "title"))
      by (split; [exact Ht | split; [exact Hts | exact Ht']]).
    ored. rewrite Hc, Hd. unfold blank. cbn [ToString negb]. ored. rewrite Hblank.
    destruct (ToBoolean (VStr ds)); reflexivity.
Qed.

Lemma blank_text_is_missing_witness :
  run (post_tasks sample_host sample_env blank_title_post) one_task_db []
  = (Ok {| status := 400; body := JObj (error "Title is required") |}, one_task_db)
  /\ run (post_tasks sample_host sample_env blank_description_post) one_task_db []
     = (Ok {| status := 400; body := JObj (error "Description is required") |},
        one_task_db).
Proof.
  split.
  - destruct (blank_text_is_missing sample_host sample_env blank_title_post
                one_task_db []) as [Htitle _].
    apply (Htitle "   "); vm_compute; reflexivity.
  - destruct (blank_text_is_missing sample_host sample_env blank_description_post
                one_task_db []) as [_ Hdesc].
    apply (Hdesc (String (ascii_of_N 9) " ")); vm_compute;
      try reflexivity; discriminate.
Defined.

(** ** Failures of the store *)

(** X9. When the upsert of [POST /users] is rejected by the driver, a
    duplicate-key error (code 11000) is answered 409 with its own message
    and any other error with the generic 500; nothing has been written. *)
Theorem post_users_error_mapping H E req s e fs :
  ToBoolean (body_field req "email") = true ->
  (exn_code e = Some 11000 ->
   run (post_users H E req) s (Some e :: fs)
   = (Ok {| status := 409;
            body := JObj (error "User with this email already exists") |}, s))
  /\ (exn_code e <> Some 11000 ->
      run (post_users H E req) s (Some e :: fs) = (Ok internal_error, s)).
Proof.
  intros Hb. split; intros He; rewrite post_users_run; cbv zeta; rewrite Hb;
    cbn [negb first_fault].
  - rewrite bool_decide_eq_true_2 by exact He. reflexivity.
  - rewrite bool_decide_eq_false_2 by exact He. reflexivity.
Qed.

Lemma post_users_error_mapping_witness :
  run (post_users sample_host sample_env bare_signup) one_user_db
      [Some duplicate_key_error]
  = (Ok {| status := 409;
           body := JObj (error "User with this email already exists") |},
     one_user_db)
  /\ run (post_users sample_host sample_env bare_signup) one_user_db [Some network_error]
     = (Ok internal_error, one_user_db).
Proof.
  split.
  - destruct (post_users_error_mapping sample_host sample_env bare_signup one_user_db
                duplicate_key_error [] eq_refl) as [Hdup _].
    apply Hdup. reflexivity.
  - destruct (post_users_error_mapping sample_host sample_env bare_signup one_user_db
                network_error [] eq_refl) as [_ Hother].
    apply Hother. discriminate.
Defined.

Lemma get_task_lookup H id o s fs :
  ObjectId_new id = Some o -> ok_calls 1 fs ->
  run (get_task H id) s fs
  = (Ok match List.find (matches H [("_id", VOid o)]) (tasks s) with
        | Some d => {| status := 200; body := JObj d |}
        | None => {| status := 404; body := JObj (error "Task not found") |}
        end, s).
Proof.
  intros Ho Hok. rewrite get_task_run, Ho, (ok_calls_first _ _ Hok).
  destruct (List.find _ (tasks s)); reflexivity.
Qed.

(** X10. [GET /tasks/:id] with a well-formed identifier and a lookup that
    does not fail answers 404 when no task is stored under it, and otherwise
    200 with the first such document as it is stored: every member, the
    identifier included, unchanged. *)
Theorem get_task_found_or_404 H id o s fs :
  ObjectId_new id = Some o -> ok_calls 1 fs ->
  run (get_task H id) s fs
  = (Ok match task_of H id s with
        | Some d => {| status := 200; body := JObj d |}
        | None => {| status := 404; body := JObj (error "Task not found") |}
        end, s).
Proof.
  intros Ho Hok. unfold task_of. rewrite Ho. apply get_task_lookup; assumption.
Qed.

Lemma get_task_found_or_404_witness :
  run (get_task sample_host owner_task_id) two_task_db []
  = (Ok {| status := 200; body := JObj owner_task |}, two_task_db)
  /\ run (get_task sample_host orphan_task_id) two_task_db []
     = (Ok {| status := 404; body := JObj (error "Task not found") |}, two_task_db).
Proof.
  split.
  - exact (get_task_found_or_404 sample_host owner_task_id 1%N two_task_db [] eq_refl
             (ok_calls_nil 1)).
  - exact (get_task_found_or_404 sample_host orphan_task_id 3%N two_task_db [] eq_refl
             (ok_calls_nil 1)).
Defined.

(** X11. Outside [GET /tasks/:id], a driver call that rejects is answered
    with the generic 500 and nothing is written: the insert of [POST /tasks],
    the lookups of [GET /users/:email] and [GET /tasks], and the write of
    [PATCH /tasks/:id] after the ownership check has passed. *)
Theorem store_failures_are_500 H E id qe qc rawEmail req s e fs :
  (forall t, other_fields_ok H req t ->
             budget_rejected H (body_field req "budget") = Ok false ->
             run (post_tasks H E req) s (Some e :: fs) = (Ok internal_error, s))
  /\ (rawEmail <> "" ->
      run (get_user H rawEmail) s (Some e :: fs) = (Ok internal_error, s))
  /\ run (list_tasks H qe qc) s (Some e :: fs) = (Ok internal_error, s)
  /\ (forall task email t,
        task_of H id s = Some task ->
        caller_email H qe = Ok email -> email <> "" ->
        author_email task = VStr email ->
        patch_body_ok H req t ->
        run (patch_task H E id qe req) s (None :: Some e :: fs)
        = (Ok internal_error, s)).
Proof.
  split; [|split; [|split]].
  - intros t Hok Hb. rewrite (post_tasks_checked H E req t _ _ Hok), Hb. reflexivity.
  - intros Hne. apply ToBoolean_VStr in Hne. rewrite get_user_run, Hne. reflexivity.
  - rewrite list_tasks_run. destruct (list_query H qe qc); reflexivity.
  - intros task email t Ht Hc Hne Ha [Hv Hd]. unfold task_of in Ht.
    rewrite patch_task_run, Hc. apply ToBoolean_VStr in Hne as Hb. rewrite Hb.
    cbn [negb]. destruct (ObjectId_new id) as [o|]; [|discriminate].
    cbn [first_fault tail]. rewrite Ht, (not_author_false _ _ Hne Ha), Hv, Hd.
    reflexivity.
Qed.

Lemma store_failures_are_500_witness :
  run (post_tasks sample_host sample_env (sample_post (VStr "150.5"))) one_task_db
      [Some network_error]
  = (Ok internal_error, one_task_db)
  /\ run (get_user sample_host "a@x.com") one_user_db [Some network_error]
     = (Ok internal_error, one_user_db)
  /\ run (patch_task sample_host sample_env owner_task_id (VStr "owner@x.com")
                     sample_patch) one_task_db [None; Some network_error]
     = (Ok internal_error, one_task_db).
Proof.
  split; [|split].
  - destruct (store_failures_are_500 sample_host sample_env owner_task_id VUndef
                VUndef "a@x.com" (sample_post (VStr "150.5")) one_task_db
                network_error []) as [Hpost _].
    apply (Hpost 1735689600000); vm_compute; repeat split; reflexivity.
  - destruct (store_failures_are_500 sample_host sample_env owner_task_id VUndef
                VUndef "a@x.com" sample_patch one_user_db network_error [])
      as (_ & Hget & _).
    apply Hget. discriminate.
  - destruct (store_failures_are_500 sample_host sample_env owner_task_id
                (VStr "owner@x.com") VUndef "a@x.com" sample_patch one_task_db
                network_error []) as (_ & _ & _ & Hpatch).
    apply (Hpatch owner_task "owner@x.com" 1735689600000); vm_compute;
      try (split; reflexivity); try reflexivity; discriminate.
Defined.

(** ** Identifiers as strings *)

Lemma digit_in_hex_unit (d : N) :
  (d < 16)%N -> digit_in 16 (hex_unit d) = Some (Z.of_N d).
Proof.
  intros Hd.
  destruct d as [|p]; [reflexivity|].
  do 4 (destruct p as [p|p|]; try reflexivity); lia.
Qed.

Lemma read_hex_digits (k : nat) :
  forall (n : N) (a c : Z) (rest : string),
    read_digits 16 a c (hex_digits k n rest)
    = read_digits 16 (a * 16 ^ Z.of_nat k + Z.of_N (n mod 16 ^ N.of_nat k))
                  (c + Z.of_nat k) rest.
Proof.
  induction k as [|k IH]; intros n a c rest.
  - cbn [hex_digits]. change (N.of_nat 0) with 0%N. change (Z.of_nat 0) with 0.
    rewrite N.pow_0_r, N.mod_1_r, Z.pow_0_r. f_equal; lia.
  - cbn [hex_digits]. rewrite IH. cbn [read_digits].
    rewrite digit_in_hex_unit by (apply N.mod_lt; discriminate).
    rewrite Nat2N.inj_succ, N.pow_succ_r', Nat2Z.inj_succ, Z.pow_succ_r by lia.
    rewrite (N.Div0.mod_mul_r n 16 (16 ^ N.of_nat k)).
    f_equal; [rewrite N2Z.inj_add, N2Z.inj_mul; change (Z.of_N 16) with 16; ring | lia].
Qed.

Lemma length_hex_digits (k : nat) :
  forall (n : N) (acc : string),
    String.length (hex_digits k n acc) = (k + String.length acc)%nat.
Proof.
  induction k as [|k IH]; intros n acc; [reflexivity|].
  cbn [hex_digits]. rewrite IH. simpl. lia.
Qed.

(** The string of a twelve-byte identifier is 24 characters long and the
    constructor reads it back as the same identifier. *)
Lemma ObjectId_roundtrip (o : ObjectId) :
  (o < 16 ^ 24)%N -> ObjectId_new (ObjectId_toString o) = Some o.
Proof.
  intros Ho. unfold ObjectId_new, ObjectId_toString.
  rewrite length_hex_digits. cbn [String.length Nat.add Nat.eqb].
  rewrite (read_hex_digits 24 o 0 0 ""). cbn [read_digits].
  rewrite N.mod_small by exact Ho. f_equal. lia.
Qed.

(** ** Creating, then fetching, changing and deleting *)

Lemma post_tasks_accepts H E req t s fs :
  other_fields_ok H req t ->
  budget_rejected H (body_field req "budget") = Ok false ->
  ok_calls 1 fs ->
  run (post_tasks H E req) s fs
  = (Ok {| status := 201;
           body := JObj (obj [("ok", VBool true); ("id", VOid (next_id E))]) |},
     {| users := users s; tasks := (tasks s ++ [created H E req t])%list |}).
Proof.
  intros Hok Hb Hfs.
  rewrite (post_tasks_checked H E req t _ _ Hok), Hb, (ok_calls_first _ _ Hfs).
  reflexivity.
Qed.

Lemma created_is_found H E req t (l : list doc) :
  List.find (matches H [("_id", VOid (next_id E))]) l = None ->
  List.find (matches H [("_id", VOid (next_id E))]) (l ++ [created H E req t])
  = Some (created H E req t).
Proof.
  intros Hf. apply find_app_first; [apply find_none_forall; exact Hf|].
  apply matches_own_id. apply created_fields.
Qed.

(** X12. A task that has been created can be fetched: after a [POST /tasks]
    that is accepted, under an identifier of twelve bytes no stored task
    has, [GET /tasks/:id] with the string of that identifier answers 200 with
    the created document, whose budget is the number coerced from the body's
    and whose deadline is the date parsed from it. *)
Theorem created_task_is_retrievable H E req t s fs fs' :
  other_fields_ok H req t ->
  budget_rejected H (body_field req "budget") = Ok false ->
  (next_id E < 16 ^ 24)%N ->
  List.find (matches H [("_id", VOid (next_id E))]) (tasks s) = None ->
  ok_calls 1 fs -> ok_calls 1 fs' ->
  exists s' d,
    run (post_tasks H E req) s fs
    = (Ok {| status := 201;
             body := JObj (obj [("ok", VBool true); ("id", VOid (next_id E))]) |}, s')
    /\ run (get_task H (ObjectId_toString (next_id E))) s' fs'
       = (Ok {| status := 200; body := JObj d |}, s')
    /\ d !! "_id" = Some (VOid (next_id E))
    /\ d !! "budget" = Some (VNum (number_of H (body_field req "budget")))
    /\ ToNumber H (body_field req "budget")
       = Ok (number_of H (body_field req "budget"))
    /\ d !! "deadline" = Some (VDate t)
    /\ Date_new H (body_field req "deadline") = Ok (Some t).
Proof.
  intros Hok Hb Hid Hfresh Hfs Hfs'.
  exists {| users := users s; tasks := (tasks s ++ [created H E req t])%list |},
         (created H E req t).
  split; [apply post_tasks_accepts; assumption|]. split.
  - rewrite (get_task_lookup _ _ (next_id E) _ _ (ObjectId_roundtrip _ Hid) Hfs').
    cbn [tasks]. rewrite (created_is_found H E req t _ Hfresh). reflexivity.
  - destruct (created_fields H E req t) as (H1 & _ & _ & _ & H5 & H6 & _).
    split; [exact H1|]. split; [exact H6|].
    split; [apply (budget_rejected_false _ _ Hb)|]. split; [exact H5|]. apply Hok.
Qed.

Lemma created_task_is_retrievable_witness :
  exists s' d,
    run (post_tasks sample_host sample_env (sample_post (VStr "150.5"))) one_task_db []
    = (Ok {| status := 201;
             body := JObj (obj [("ok", VBool true); ("id", VOid 2%N)]) |}, s')
    /\ run (get_task sample_host "000000000000000000000002") s' []
       = (Ok {| status := 200; body := JObj d |}, s')
    /\ d !! "budget" = Some (VNum (StringToNumber "150.5"))
    /\ d !! "deadline" = Some (VDate 1735689600000).
Proof.
  destruct (created_task_is_retrievable sample_host sample_env
              (sample_post (VStr "150.5")) 1735689600000 one_task_db [] [])
    as (s' & d & Hpost & Hget & _ & Hb & _ & Hd & _).
  - vm_compute. repeat split; reflexivity.
  - vm_compute. reflexivity.
  - vm_compute. reflexivity.
  - vm_compute. reflexivity.
  - apply ok_calls_nil.
  - apply ok_calls_nil.
  - exists s', d. repeat split; assumption.
Defined.

Lemma caller_email_truthy H (u : value) :
  ToBoolean u = true -> has_string H u ->
  caller_email H u = Ok (toLowerCase (string_of H u)).
Proof.
  intros Hu Hs. unfold caller_email, js_or. rewrite Hu, Hs. reflexivity.
Qed.

Lemma toLowerCase_nonempty (x : string) : x <> "" -> toLowerCase x <> "".
Proof. destruct x; [congruence | discriminate]. Qed.

(** X13. Whoever created a task can delete it with the email they created it
    with, in whatever case it was written: after an accepted [POST /tasks]
    under a fresh twelve-byte identifier, a [DELETE] of that identifier whose
    email parameter is the [userEmail] of the creation answers 200 and leaves
    the database exactly as it was before the creation. The [userEmail] must
    have a non-empty string. *)
Theorem creator_can_delete H E req t s fs fs' :
  other_fields_ok H req t ->
  budget_rejected H (body_field req "budget") = Ok false ->
  (next_id E < 16 ^ 24)%N ->
  List.find (matches H [("_id", VOid (next_id E))]) (tasks s) = None ->
  string_of H (body_field req "userEmail") <> "" ->
  ok_calls 1 fs -> ok_calls 2 fs' ->
  exists s',
    run (post_tasks H E req) s fs
    = (Ok {| status := 201;
             body := JObj (obj [("ok", VBool true); ("id", VOid (next_id E))]) |}, s')
    /\ run (delete_task H (ObjectId_toString (next_id E)) (body_field req "userEmail"))
           s' fs'
       = (Ok {| status := 200;
                body := JObj (obj [("ok", VBool true);
                                   ("id", VStr (ObjectId_toString (next_id E)))]) |},
          s).
Proof.
  intros Hok Hb Hid Hfresh Hne Hfs Hfs'.
  exists {| users := users s; tasks := (tasks s ++ [created H E req t])%list |}.
  split; [apply post_tasks_accepts; assumption|].
  destruct Hok as (_ & _ & _ & _ & Hu & Hus & _).
  assert (Hrestore : {| users := users s; tasks := (tasks s ++ [])%list |} = s).
  { rewrite app_nil_r. destruct s; reflexivity. }
  rewrite (delete_by_author H _ (next_id E) _
             (toLowerCase (string_of H (body_field req "userEmail")))
             {| users := users s; tasks := (tasks s ++ [created H E req t])%list |}
             fs' (created H E req t) (tasks s) []
             (ObjectId_roundtrip _ Hid) eq_refl (find_none_forall _ _ Hfresh)
             (matches_own_id _ _ _ (proj1 (created_fields H E req t)))
             (caller_email_truthy H _ Hu Hus) (toLowerCase_nonempty _ Hne)
             (created_author H E req t) Hfs').
  cbn [users]. rewrite Hrestore. reflexivity.
Qed.

Lemma creator_can_delete_witness :
  exists s',
    run (post_tasks sample_host sample_env (sample_post (VStr "150.5"))) one_task_db []
    = (Ok {| status := 201;
             body := JObj (obj [("ok", VBool true); ("id", VOid 2%N)]) |}, s')
    /\ run (delete_task sample_host "000000000000000000000002" (VStr "Owner@x.com"))
           s' []
       = (Ok {| status := 200;
                body := JObj (obj [("ok", VBool true);
                                   ("id", VStr "000000000000000000000002")]) |},
          one_task_db).
Proof.
  destruct (creator_can_delete sample_host sample_env (sample_post (VStr "150.5"))
              1735689600000 one_task_db [] [])
    as (s' & Hpost & Hdel).
  - vm_compute. repeat split; reflexivity.
  - vm_compute. reflexivity.
  - vm_compute. reflexivity.
  - vm_compute. reflexivity.
  - vm_compute. discriminate.
  - apply ok_calls_nil.
  - apply ok_calls_nil.
  - exists s'. split; [exact Hpost | exact Hdel].
Defined.

(** The requests on an identifier under which nothing is stored. *)
Lemma task_handlers_404 H E id o qe email req s fs :
  ObjectId_new id = Some o ->
  List.find (matches H [("_id", VOid o)]) (tasks s) = None ->
  (ok_calls 1 fs ->
   run (get_task H id) s fs
   = (Ok {| status := 404; body := JObj (error "Task not found") |}, s))
  /\ (caller_email H qe = Ok email -> email <> "" -> ok_calls 1 fs ->
      run (delete_task H id qe) s fs
      = (Ok {| status := 404; body := JObj (error "Task not found") |}, s)
      /\ run (patch_task H E id qe req) s fs
         = (Ok {| status := 404; body := JObj (error "Task not found") |}, s))
  /\ (run (delete_task H id qe) s fs).2 = s
  /\ (run (patch_task H E id qe req) s fs).2 = s.
Proof.
  intros Ho Hf. split; [|split].
  - intros Hok. rewrite (get_task_lookup _ _ _ _ _ Ho Hok), Hf. reflexivity.
  - intros Hc Hne Hok. apply ToBoolean_VStr in Hne as Hb.
    rewrite delete_task_run, patch_task_run, Hc, Hb, Ho, (ok_calls_first _ _ Hok), Hf.
    split; reflexivity.
  - rewrite delete_task_run, patch_task_run, Ho, Hf.
    destruct (caller_email H qe) as [x|x]; [|split; reflexivity].
    destruct (ToBoolean (VStr x)); cbn [negb]; [|split; reflexivity].
    destruct (first_fault fs); split; reflexivity.
Qed.

(** X14. A deleted task is gone: when the identifier is stored once, after
    the author's [DELETE] has answered 200, every further [GET] of that
    identifier and every further [DELETE] and [PATCH] of it that carries an
    email, the author's or any other, answers 404 "Task not found"; one that
    carries no email is answered 400 as before the deletion; and none of
    them changes anything, whatever it carries. *)
Theorem deleted_task_is_gone H id o qe email s fs task l1 l2 :
  ObjectId_new id = Some o ->
  tasks s = (l1 ++ task :: l2)%list ->
  Forall (fun d => matches H [("_id", VOid o)] d = false) l1 ->
  matches H [("_id", VOid o)] task = true ->
  Forall (fun d => matches H [("_id", VOid o)] d = false) l2 ->
  caller_email H qe = Ok email -> email <> "" ->
  author_email task = VStr email ->
  ok_calls 2 fs ->
  exists s',
    run (delete_task H id qe) s fs
    = (Ok {| status := 200;
             body := JObj (obj [("ok", VBool true); ("id", VStr id)]) |}, s')
    /\ tasks s' = (l1 ++ l2)%list
    /\ forall E qe' req fs',
         (ok_calls 1 fs' ->
          run (get_task H id) s' fs'
          = (Ok {| status := 404; body := JObj (error "Task not found") |}, s'))
         /\ (forall email', caller_email H qe' = Ok email' -> email' <> "" ->
             ok_calls 1 fs' ->
             run (delete_task H id qe') s' fs'
             = (Ok {| status := 404; body := JObj (error "Task not found") |}, s')
             /\ run (patch_task H E id qe' req) s' fs'
                = (Ok {| status := 404; body := JObj (error "Task not found") |}, s'))
         /\ (caller_email H qe' = Ok "" ->
             run (delete_task H id qe') s' fs'
             = (Ok {| status := 400; body := JObj (error "Email is required") |}, s')
             /\ run (patch_task H E id qe' req) s' fs'
                = (Ok {| status := 400; body := JObj (error "Email is required") |}, s'))
         /\ (run (delete_task H id qe') s' fs').2 = s'
         /\ (run (patch_task H E id qe' req) s' fs').2 = s'.
Proof.
  intros Ho Hl Hl1 Hm Hl2 Hc Hne Ha Hfs.
  exists {| users := users s; tasks := (l1 ++ l2)%list |}.
  split; [apply (delete_by_author H id o qe email s fs task l1 l2); assumption|].
  split; [reflexivity|].
  intros E qe' req fs'.
  assert (Hgone : List.find (matches H [("_id", VOid o)])
                    (tasks {| users := users s; tasks := (l1 ++ l2)%list |}) = None)
    by (apply find_none_app; assumption).
  split; [|split; [|split]].
  - apply (task_handlers_404 H E id o qe' "" req _ fs' Ho Hgone).
  - intros email' Hc' Hne' Hok'.
    apply (task_handlers_404 H E id o qe' email' req _ fs' Ho Hgone); assumption.
  - apply email_required.
  - apply (task_handlers_404 H E id o qe' "" req _ fs' Ho Hgone).
Qed.

Lemma deleted_task_is_gone_witness :
  exists s',
    run (delete_task sample_host owner_task_id (VStr "owner@x.com")) two_task_db []
    = (Ok {| status := 200;
             body := JObj (obj [("ok", VBool true); ("id", VStr owner_task_id)]) |}, s')
    /\ tasks s' = [other_task]
    /\ run (get_task sample_host owner_task_id) s' []
       = (Ok {| status := 404; body := JObj (error "Task not found") |}, s')
    /\ run (delete_task sample_host owner_task_id (VStr "other@x.com")) s' []
       = (Ok {| status := 404; body := JObj (error "Task not found") |}, s')
    /\ run (patch_task sample_host sample_env owner_task_id VUndef sample_patch) s' []
       = (Ok {| status := 400; body := JObj (error "Email is required") |}, s').
Proof.
  destruct (deleted_task_is_gone sample_host owner_task_id 1%N
              (VStr "owner@x.com") "owner@x.com" two_task_db [] owner_task
              [] [other_task])
    as (s' & Hdel & Hl & Hafter).
  - reflexivity.
  - reflexivity.
  - constructor.
  - vm_compute. reflexivity.
  - repeat constructor.
  - vm_compute. reflexivity.
  - discriminate.
  - vm_compute. reflexivity.
  - apply ok_calls_nil.
  - exists s'. split; [exact Hdel|]. split; [exact Hl|]. split; [|split].
    + apply (Hafter sample_env VUndef sample_patch []). apply ok_calls_nil.
    + destruct (Hafter sample_env (VStr "other@x.com") sample_patch [])
        as (_ & Hgiven & _).
      apply (Hgiven "other@x.com");
        [vm_compute; reflexivity | discriminate | apply ok_calls_nil].
    + destruct (Hafter sample_env VUndef sample_patch []) as (_ & _ & Hnone & _).
      apply Hnone. vm_compute. reflexivity.
Defined.

Lemma patched_author H E req t (task : doc) :
  author_email (patched H E req t task) = author_email task.
Proof.
  unfold author_email, field. rewrite patched_frame by (unfold patch_keys; notin_list).
  reflexivity.
Qed.

Lemma patched_matches H E req t (task : doc) (o : ObjectId) :
  matches H [("_id", VOid o)] (patched H E req t task)
  = matches H [("_id", VOid o)] task.
Proof.
  apply matches_id_same_field. apply patched_frame. unfold patch_keys. notin_list.
Qed.

Lemma apply_set_twice (l : list (string * value)) (d : doc) :
  NoDup l.*1 -> apply_set l (apply_set l d) = apply_set l d.
Proof.
  intros Hnd. apply map_eq. intros k.
  destruct (decide (k ∈ l.*1)) as [Hin | Hout].
  - apply list_elem_of_fmap in Hin as ([k' v] & -> & Hin). simpl.
    rewrite !(apply_set_in _ _ _ _ Hnd Hin). reflexivity.
  - rewrite (apply_set_notin _ _ _ Hout). reflexivity.
Qed.

Lemma patched_twice H E req t (task : doc) :
  patched H E req t (patched H E req t task) = patched H E req t task.
Proof.
  unfold patched. apply apply_set_twice.
  unfold patch_set. simpl. apply (bool_decide_unpack _). vm_compute. exact I.
Qed.

(** X15. A successful [PATCH] keeps the task where it is and under its
    identifier: fetching it afterwards answers 200 with the rewritten
    document. It also keeps the author, so sending the same [PATCH] again
    (at the same clock time) answers 200 again and leaves the database as
    the first one left it. *)
Theorem patch_then_fetch_or_repeat H E id o qe email req t s fs fs1 fs2 task :
  ObjectId_new id = Some o ->
  task_of H id s = Some task ->
  caller_email H qe = Ok email -> email <> "" ->
  author_email task = VStr email ->
  patch_body_ok H req t ->
  ok_calls 2 fs -> ok_calls 1 fs1 -> ok_calls 2 fs2 ->
  exists s',
    run (patch_task H E id qe req) s fs
    = (Ok {| status := 200;
             body := JObj (obj [("ok", VBool true);
                                ("id", VStr (ObjectId_toString o))]) |}, s')
    /\ run (get_task H id) s' fs1
       = (Ok {| status := 200; body := JObj (patched H E req t task) |}, s')
    /\ run (patch_task H E id qe req) s' fs2
       = (Ok {| status := 200;
                body := JObj (obj [("ok", VBool true);
                                   ("id", VStr (ObjectId_toString o))]) |}, s').
Proof.
  intros Ho Ht Hc Hne Ha Hbody Hfs Hfs1 Hfs2.
  unfold task_of in Ht. rewrite Ho in Ht.
  destruct (find_split _ _ _ Ht) as (l1 & l2 & Hl & Hl1 & Hm).
  exists {| users := users s; tasks := (l1 ++ patched H E req t task :: l2)%list |}.
  assert (Hm' : matches H [("_id", VOid o)] (patched H E req t task) = true)
    by (rewrite patched_matches; exact Hm).
  split; [apply (patch_by_author H E id o qe email req s fs task t l1 l2); assumption|].
  split.
  - rewrite (get_task_lookup _ _ _ _ _ Ho Hfs1). cbn [tasks].
    rewrite (find_app_first _ _ _ _ Hl1 Hm'). reflexivity.
  - assert (Ha' : author_email (patched H E req t task) = VStr email)
      by (rewrite patched_author; exact Ha).
    rewrite (patch_by_author H E id o qe email req
               {| users := users s;
                  tasks := (l1 ++ patched H E req t task :: l2)%list |}
               fs2 (patched H E req t task) t l1 l2
               Ho eq_refl Hl1 Hm' Hc Hne Ha' Hfs2 Hbody).
    rewrite patched_twice. reflexivity.
Qed.

Lemma patch_then_fetch_or_repeat_witness :
  exists s',
    run (patch_task sample_host sample_env owner_task_id (VStr "owner@x.com")
                    sample_patch) two_task_db []
    = (Ok {| status := 200;
             body := JObj (obj [("ok", VBool true); ("id", VStr owner_task_id)]) |}, s')
    /\ run (get_task sample_host owner_task_id) s' []
       = (Ok {| status := 200;
                body := JObj (patched sample_host sample_env sample_patch
                                      1735689600000 owner_task) |}, s').
Proof.
  destruct (patch_then_fetch_or_repeat sample_host sample_env owner_task_id 1%N
              (VStr "owner@x.com") "owner@x.com" sample_patch 1735689600000
              two_task_db [] [] [] owner_task)
    as (s' & Hpatch & Hget & _).
  - reflexivity.
  - vm_compute. reflexivity.
  - vm_compute. reflexivity.
  - discriminate.
  - vm_compute. reflexivity.
  - split; vm_compute; reflexivity.
  - apply ok_calls_nil.
  - apply ok_calls_nil.
  - apply ok_calls_nil.
  - exists s'. split; [exact Hpatch | exact Hget].
Defined.

(** ** Users: upsert, then lookup *)

Lemma refreshed_matches H E req (old : doc) (e : string) :
  matches H [("email", VStr e)] (refreshed E req old)
  = matches H [("email", VStr e)] old.
Proof.
  rewrite !matches_email_field. rewrite refreshed_keeps by notin_list. reflexivity.
Qed.

Lemma with_default_defined (v : value) (s : string) :
  present (Some (with_default v (VStr s))) = Some (with_default v (VStr s)).
Proof. destruct v; reflexivity. Qed.

Lemma reflects_view (c : env * value) (d : doc) :
  reflects c d ->
  user_view d !! "name" = Some (with_default (body_field c.2 "name") (VStr ""))
  /\ user_view d !! "photo" = Some (with_default (body_field c.2 "photo") (VStr ""))
  /\ user_view d !! "bio" = Some (with_default (body_field c.2 "bio") (VStr ""))
  /\ user_view d !! "authProvider"
     = Some (with_default (body_field c.2 "authProvider") (VStr "password"))
  /\ user_view d !! "updatedAt" = Some (VDate (now c.1)).
Proof.
  intros (Hn & Hp & Hb & Ha & Hu). rewrite !user_view_lookup.
  rewrite !bool_decide_eq_true_2 by (unfold user_fields; in_list).
  rewrite Hn, Hp, Hb, Ha, Hu, !with_default_defined. repeat split.
Qed.

(** X16. A user that has been upserted can be looked up: after a
    [POST /users] with a non-empty string email whose driver call did not
    fail, [GET /users/:email] with that same email answers 200, and the
    body carries the name, photo, bio and authProvider of the upsert (or
    their defaults) and its time as [updatedAt]. *)
Theorem upserted_user_is_retrievable H E req e s fs fs' :
  body_field req "email" = VStr e -> e <> "" ->
  ok_calls 1 fs -> ok_calls 1 fs' ->
  exists r s' d,
    run (post_users H E req) s fs = (Ok r, s')
    /\ (status r = 200 \/ status r = 201)
    /\ run (get_user H e) s' fs'
       = (Ok {| status := 200; body := JObj (user_view d) |}, s')
    /\ user_view d !! "name" = Some (with_default (body_field req "name") (VStr ""))
    /\ user_view d !! "photo" = Some (with_default (body_field req "photo") (VStr ""))
    /\ user_view d !! "bio" = Some (with_default (body_field req "bio") (VStr ""))
    /\ user_view d !! "authProvider"
       = Some (with_default (body_field req "authProvider") (VStr "password"))
    /\ user_view d !! "updatedAt" = Some (VDate (now E)).
Proof.
  intros He Hne Hfs Hfs'. apply ToBoolean_VStr in Hne as Hb.
  assert (Hget : forall s' d,
            List.find (matches H [("email", VStr e)]) (users s') = Some d ->
            run (get_user H e) s' fs'
            = (Ok {| status := 200; body := JObj (user_view d) |}, s')).
  { intros s' d Hf. rewrite get_user_run, Hb, (ok_calls_first _ _ Hfs'), Hf.
    reflexivity. }
  destruct (List.find (matches H [("email", VStr e)]) (users s)) as [old|] eqn:Hf.
  - destruct (find_split _ _ _ Hf) as (l1 & l2 & Hl & Hl1 & Hm).
    exists (upsert_reply false (VStr e)),
           {| users := (l1 ++ refreshed E req old :: l2)%list; tasks := tasks s |},
           (refreshed E req old).
    split.
    { rewrite <- He. apply (post_users_updates H E req s fs old l1 l2);
        rewrite ?He; assumption. }
    split; [left; reflexivity|]. split.
    { apply Hget. cbn [users]. apply find_app_first; [exact Hl1|].
      rewrite refreshed_matches. exact Hm. }
    apply (reflects_view (E, req)). apply refreshed_reflects.
  - exists (upsert_reply true (VStr e)),
           {| users := (users s ++ [new_user H E req])%list; tasks := tasks s |},
           (new_user H E req).
    destruct (new_user_fields H E req) as (Hemail & _ & Hr);
      [rewrite He; reflexivity|].
    rewrite He in Hemail.
    split.
    { rewrite <- He. apply post_users_inserts; rewrite ?He; assumption. }
    split; [right; reflexivity|]. split.
    { apply Hget. cbn [users].
      apply find_app_first; [apply find_none_forall; exact Hf|].
      apply matches_email. exact Hemail. }
    apply (reflects_view (E, req)). exact Hr.
Qed.

Lemma upserted_user_is_retrievable_witness :
  exists r s' d,
    run (post_users sample_host later_env full_signup) one_user_db [] = (Ok r, s')
    /\ run (get_user sample_host "a@x.com") s' []
       = (Ok {| status := 200; body := JObj (user_view d) |}, s')
    /\ user_view d !! "name" = Some (VStr "Al")
    /\ user_view d !! "updatedAt" = Some (VDate 3000).
Proof.
  destruct (upserted_user_is_retrievable sample_host later_env full_signup "a@x.com"
              one_user_db [] [] eq_refl ltac:(discriminate) (ok_calls_nil 1)
              (ok_calls_nil 1))
    as (r & s' & d & Hpost & _ & Hget & Hname & _ & _ & _ & Hup).
  exists r, s', d. repeat split; assumption.
Defined.

(** X17. [POST /users] never removes a user and adds at most one: the
    number of stored users grows by one when it answers 201 and is unchanged
    with every other answer, whatever the input and the driver do. *)
Theorem post_users_count H E req s fs r s' :
  run (post_users H E req) s fs = (Ok r, s') ->
  length (users s')
  = (length (users s) + if bool_decide (status r = 201%Z) then 1 else 0)%nat.
Proof.
  destruct (post_users_outcome H E req s fs)
    as (r0 & s0 & Hrun & [(-> & _ & _ & ->)
                         | [(-> & _ & old & l1 & l2 & Hl & _ & _ & ->) | (Hst & ->)]]);
    rewrite Hrun; intros [= <- <-]; cbn [users].
  - rewrite length_app. reflexivity.
  - rewrite Hl, !length_app. simpl. lia.
  - rewrite bool_decide_eq_false_2; [lia|].
    intros Heq. rewrite Heq in Hst. simpl in Hst. intuition discriminate.
Qed.

Lemma post_users_count_witness :
  length (users (run (post_users sample_host sample_env bare_signup) one_user_db []).2)
  = 1%nat
  /\ length (users (run (post_users sample_host sample_env bare_signup) empty_db []).2)
     = 1%nat.
Proof.
  split.
  - apply (post_users_count sample_host sample_env bare_signup one_user_db []
             (upsert_reply false (VStr "a@x.com"))).
    vm_compute. reflexivity.
  - apply (post_users_count sample_host sample_env bare_signup empty_db []
             (upsert_reply true (VStr "a@x.com"))).
    vm_compute. reflexivity.
Defined.

(** X18. [POST /tasks] accepts a [userEmail] that is truthy but whose string
    is empty (an empty array is one), and stores the empty string as
    [author.email]. Where such a task is the one stored under an identifier,
    no [DELETE] and no [PATCH] of it ever answers 200 or changes the
    database, whatever email, body and clock they come with. *)
Theorem empty_creator_email_freezes_task H E E' req t id qe req' s fs :
  other_fields_ok H req t ->
  string_of H (body_field req "userEmail") = "" ->
  task_of H id s = Some (created H E req t) ->
  author_email (created H E req t) = VStr ""
  /\ (exists r, run (delete_task H id qe) s fs = (Ok r, s) /\ status r <> 200)
  /\ (exists r, run (patch_task H E' id qe req') s fs = (Ok r, s) /\ status r <> 200).
Proof.
  intros Hok Hempty Ht.
  assert (Ha : author_email (created H E req t) = VStr "")
    by (rewrite created_author, Hempty; reflexivity).
  split; [exact Ha|]. split.
  - destruct (delete_task_outcome H id qe s fs)
      as (r & s' & Hrun & [(_ & o & email & task & l1 & l2 & Ho & Hl & Hl1 & Hm & Hc
                            & Hne & Hau & _)
                          | (Hst & ->)]).
    + exfalso. unfold task_of in Ht. rewrite Ho, Hl in Ht.
      rewrite (find_app_first _ _ _ _ Hl1 Hm) in Ht. injection Ht as ->.
      rewrite Ha in Hau. congruence.
    + exists r. split; [exact Hrun|]. intros Heq. rewrite Heq in Hst.
      simpl in Hst. intuition discriminate.
  - destruct (patch_task_outcome H E' id qe req' s fs)
      as (r & s' & Hrun & [(_ & o & email & task & t' & l1 & l2 & Ho & Hl & Hl1 & Hm
                            & Hc & Hne & Hau & _) | (Hst & ->)]).
    + exfalso. unfold task_of in Ht. rewrite Ho, Hl in Ht.
      rewrite (find_app_first _ _ _ _ Hl1 Hm) in Ht. injection Ht as ->.
      rewrite Ha in Hau. congruence.
    + exists r. split; [exact Hrun|]. intros Heq. rewrite Heq in Hst.
      simpl in Hst. intuition discriminate.
Qed.

Lemma empty_creator_email_freezes_task_witness :
  run (post_tasks sample_host sample_env anonymous_post) empty_db []
  = (Ok {| status := 201;
           body := JObj (obj [("ok", VBool true); ("id", VOid 2%N)]) |}, anonymous_db)
  /\ exists r,
       run (delete_task sample_host "000000000000000000000002" (VArr [])) anonymous_db []
       = (Ok r, anonymous_db)
       /\ status r <> 200.
Proof.
  split; [vm_compute; reflexivity|].
  destruct (empty_creator_email_freezes_task sample_host sample_env sample_env
              anonymous_post 1735689600000 "000000000000000000000002" (VArr [])
              sample_patch anonymous_db [])
    as (_ & Hdel & _).
  - vm_compute. repeat split; reflexivity.
  - reflexivity.
  - vm_compute. reflexivity.
  - exact Hdel.
Defined.

(** ** Creating, then listing *)

Lemma created_listable H E req t : listable H (created H E req t).
Proof.
  unfold listable, field. destruct (created_fields H E req t) as (-> & _).
  split; reflexivity.
Qed.

Lemma created_selected H E req t :
  ToBoolean (body_field req "userEmail") = true ->
  selected H (body_field req "userEmail") VUndef (created H E req t) = true.
Proof.
  intros Hu. unfold selected. rewrite Hu. cbn [ToBoolean]. rewrite andb_true_r.
  unfold cond_holds. cbn [operator_doc]. unfold literal_holds.
  change (split_path "" "author.email") with ["author"; "email"].
  destruct (created_fields H E req t) as (_ & _ & _ & _ & _ & _ & Ha & _).
  rewrite Ha. cbn [reach assoc String.eqb Ascii.eqb Bool.eqb existsb leaf_match bson_eqb].
  rewrite String.eqb_refl. reflexivity.
Qed.

(** X19. A task that has been created is listed for its creator: with fewer
    than 100 tasks stored, all of them under an identifier, after an accepted
    [POST /tasks] the answer of [GET /tasks?email=] with the [userEmail] of
    the creation holds the view of the created document. *)
Theorem created_task_is_listed H E req t s fs fs' :
  other_fields_ok H req t ->
  budget_rejected H (body_field req "budget") = Ok false ->
  Forall (listable H) (tasks s) ->
  (length (tasks s) < 100)%nat ->
  ok_calls 1 fs -> ok_calls 1 fs' ->
  exists s' items,
    run (post_tasks H E req) s fs
    = (Ok {| status := 201;
             body := JObj (obj [("ok", VBool true); ("id", VOid (next_id E))]) |}, s')
    /\ run (list_tasks H (body_field req "userEmail") VUndef) s' fs'
       = (Ok {| status := 200; body := JArr items |}, s')
    /\ task_view H (created H E req t) ∈ items.
Proof.
  intros Hok Hb Hids Hlen Hfs Hfs'.
  assert (Hu : ToBoolean (body_field req "userEmail") = true) by apply Hok.
  assert (Hus : has_string H (body_field req "userEmail")) by apply Hok.
  eexists _, _. split; [apply post_tasks_accepts; eassumption|]. split.
  - apply list_tasks_listed; [|exact Hus | exact Hfs']. cbn [tasks].
    apply Forall_app. split; [exact Hids|]. constructor; [|constructor].
    apply created_listable.
  - cbn [tasks]. apply list_elem_of_fmap. exists (created H E req t).
    split; [reflexivity|]. rewrite take_ge.
    + rewrite merge_sort_Permutation. apply list_elem_of_In, filter_In.
      split; [apply in_app_iff; right; left; reflexivity|].
      apply created_selected. exact Hu.
    + rewrite merge_sort_Permutation.
      etransitivity; [apply filter_length_le|]. rewrite length_app. simpl. lia.
Qed.

Lemma created_task_is_listed_witness :
  exists s' items,
    run (post_tasks sample_host sample_env (sample_post (VStr "150.5"))) two_task_db []
    = (Ok {| status := 201;
             body := JObj (obj [("ok", VBool true); ("id", VOid 2%N)]) |}, s')
    /\ run (list_tasks sample_host (VStr "Owner@x.com") VUndef) s' []
       = (Ok {| status := 200; body := JArr items |}, s')
    /\ task_view sample_host
         (created sample_host sample_env (sample_post (VStr "150.5")) 1735689600000)
       ∈ items.
Proof.
  destruct (created_task_is_listed sample_host sample_env (sample_post (VStr "150.5"))
              1735689600000 two_task_db [] [])
    as (s' & items & Hpost & Hlist & Hin).
  - vm_compute. repeat split; reflexivity.
  - vm_compute. reflexivity.
  - repeat constructor.
  - vm_compute. lia.
  - apply ok_calls_nil.
  - apply ok_calls_nil.
  - exists s', items. repeat split; assumption.
Defined.

(** ** What every reachable database satisfies *)

Lemma post_users_keeps_tasks H E req s fs :
  tasks (run (post_users H E req) s fs).2 = tasks s.
Proof.
  destruct (post_users_outcome H E req s fs)
    as (r & s' & -> & [(_ & _ & _ & ->) | [(_ & _ & old & l1 & l2 & _ & _ & _ & ->)
                                          | (_ & ->)]]); reflexivity.
Qed.

Lemma served_tasks_shape H s s' :
  served H s s' ->
  tasks s' = tasks s
  \/ (exists E req t,
        other_fields_ok H req t
        /\ budget_rejected H (body_field req "budget") = Ok false
        /\ tasks s' = (tasks s ++ [created H E req t])%list)
  \/ (exists l1 task l2,
        tasks s = (l1 ++ task :: l2)%list /\ tasks s' = (l1 ++ l2)%list)
  \/ (exists E req t l1 task l2,
        patch_body_ok H req t
        /\ tasks s = (l1 ++ task :: l2)%list
        /\ tasks s' = (l1 ++ patched H E req t task :: l2)%list).
Proof.
  intros [E req s0 fs | rawEmail s0 fs | E req s0 fs | qe qc s0 fs | id s0 fs
         | id qe s0 fs | E id qe req s0 fs].
  - left. apply post_users_keeps_tasks.
  - left. destruct (get_user_outcome H rawEmail s0 fs) as (r & -> & _). reflexivity.
  - destruct (post_tasks_outcome H E req s0 fs)
      as (r & s1 & -> & [(t & Hok & Hb & _ & ->) | (_ & ->)]); [|left; reflexivity].
    right. left. exists E, req, t. split; [exact Hok|]. split; [exact Hb | reflexivity].
  - left. destruct (list_tasks_outcome H qe qc s0 fs) as (r & -> & _). reflexivity.
  - left. destruct (get_task_outcome H id s0 fs) as (r & -> & _). reflexivity.
  - destruct (delete_task_outcome H id qe s0 fs)
      as (r & s1 & -> & [(_ & o & email & task & l1 & l2 & _ & Hl & _ & _ & _ & _ & _ & ->)
                        | (_ & ->)]); [|left; reflexivity].
    right. right. left. exists l1, task, l2. split; [exact Hl | reflexivity].
  - destruct (patch_task_outcome H E id qe req s0 fs)
      as (r & s1 & -> & [(_ & o & email & task & t & l1 & l2
                          & _ & Hl & _ & _ & _ & _ & _ & Hb & ->)
                        | (_ & ->)]); [|left; reflexivity].
    right. right. right. exists E, req, t, l1, task, l2.
    split; [exact Hb|]. split; [exact Hl | reflexivity].
Qed.

Lemma served_users_shape H s s' :
  served H s s' ->
  users s' = users s
  \/ (exists E req,
        ToBoolean (body_field req "email") = true
        /\ List.find (matches H [("email", body_field req "email")]) (users s) = None
        /\ users s' = (users s ++ [new_user H E req])%list)
  \/ (exists E req l1 old l2,
        users s = (l1 ++ old :: l2)%list
        /\ users s' = (l1 ++ refreshed E req old :: l2)%list).
Proof.
  intros [E req s0 fs | rawEmail s0 fs | E req s0 fs | qe qc s0 fs | id s0 fs
         | id qe s0 fs | E id qe req s0 fs].
  - destruct (post_users_outcome H E req s0 fs)
      as (r & s1 & -> & [(_ & Hb & Hf & ->)
                        | [(_ & _ & old & l1 & l2 & Hl & _ & _ & ->) | (_ & ->)]]).
    + right. left. exists E, req. split; [exact Hb|]. split; [exact Hf | reflexivity].
    + right. right. exists E, req, l1, old, l2. split; [exact Hl | reflexivity].
    + left. reflexivity.
  - left. destruct (get_user_outcome H rawEmail s0 fs) as (r & -> & _). reflexivity.
  - left. destruct (post_tasks_outcome H E req s0 fs)
      as (r & s1 & -> & [(t & _ & _ & _ & ->) | (_ & ->)]); reflexivity.
  - left. destruct (list_tasks_outcome H qe qc s0 fs) as (r & -> & _). reflexivity.
  - left. destruct (get_task_outcome H id s0 fs) as (r & -> & _). reflexivity.
  - left. destruct (delete_task_outcome H id qe s0 fs)
      as (r & s1 & -> & [(_ & o & email & task & l1 & l2 & _ & _ & _ & _ & _ & _ & _ & ->)
                        | (_ & ->)]); reflexivity.
  - left. destruct (patch_task_outcome H E id qe req s0 fs)
      as (r & s1 & -> & [(_ & o & email & task & t & l1 & l2
                          & _ & _ & _ & _ & _ & _ & _ & _ & ->)
                        | (_ & ->)]); reflexivity.
Qed.

Lemma reachable_tasks H (P : doc -> Prop) :
  (forall E req t, other_fields_ok H req t ->
                   budget_rejected H (body_field req "budget") = Ok false ->
                   P (created H E req t)) ->
  (forall E req t d, patch_body_ok H req t -> P d -> P (patched H E req t d)) ->
  forall s, reachable H s -> Forall P (tasks s).
Proof.
  intros Hcreated Hpatched. unfold reachable.
  apply (rtc_ind_r (fun s => Forall P (tasks s))); [constructor|].
  intros s1 s2 _ Hstep IH.
  destruct (served_tasks_shape H s1 s2 Hstep)
    as [-> | [(E & req & t & Hok & Hb & ->)
             | [(l1 & task & l2 & Hl & ->)
               | (E & req & t & l1 & task & l2 & Hb & Hl & ->)]]].
  - exact IH.
  - apply Forall_app. split; [exact IH|]. constructor; [|constructor].
    apply Hcreated; assumption.
  - rewrite Hl in IH. apply Forall_app in IH as [IH1 IH2].
    apply Forall_cons in IH2 as [_ IH2]. apply Forall_app. split; assumption.
  - rewrite Hl in IH. apply Forall_app in IH as [IH1 IH2].
    apply Forall_cons in IH2 as [Htask IH2]. apply Forall_app. split; [exact IH1|].
    constructor; [|exact IH2]. apply Hpatched; assumption.
Qed.

Lemma lower_unit_twice (c : ascii) : lower_unit (lower_unit c) = lower_unit c.
Proof. destruct c as [[] [] [] [] [] [] [] []]; reflexivity. Qed.

Lemma toLowerCase_twice (s : string) : toLowerCase (toLowerCase s) = toLowerCase s.
Proof.
  induction s as [|c s IH]; [reflexivity|].
  cbn [toLowerCase]. rewrite lower_unit_twice, IH. reflexivity.
Qed.

Lemma created_well_formed H E req t :
  other_fields_ok H req t ->
  budget_rejected H (body_field req "budget") = Ok false ->
  task_well_formed (created H E req t).
Proof.
  intros ((_ & _ & Ht) & _ & (_ & _ & Hd) & _) Hb.
  destruct (created_fields H E req t)
    as (Hid & Htitle & _ & Hdesc & Hdl & Hbudget & _ & Hs & Hc & Hu).
  unfold task_well_formed.
  refine (conj _ (conj _ (conj _ (conj _ (conj _ (conj _ (conj _ (conj _ _)))))))).
  - eauto.
  - exact Hs.
  - eexists. split; [apply created_author | apply toLowerCase_twice].
  - eauto.
  - eauto.
  - eauto.
  - eexists. split; [exact Hbudget|]. apply (budget_rejected_false _ _ Hb).
  - eexists. split; [exact Htitle | apply ToBoolean_VStr; exact Ht].
  - eexists. split; [exact Hdesc | apply ToBoolean_VStr; exact Hd].
Qed.

Lemma patched_well_formed H E req t (d : doc) :
  patch_body_ok H req t -> task_well_formed d ->
  task_well_formed (patched H E req t d).
Proof.
  intros [Hv _] (Hid & Hs & Ha & Hc & _).
  apply validate_fields_none in Hv as ((_ & _ & Ht) & _ & (_ & _ & Hd) & _ & Hb).
  unfold task_well_formed.
  refine (conj _ (conj _ (conj _ (conj _ (conj _ (conj _ (conj _ (conj _ _)))))))).
  - rewrite patched_frame by (unfold patch_keys; notin_list). exact Hid.
  - rewrite patched_frame by (unfold patch_keys; notin_list). exact Hs.
  - rewrite patched_author. exact Ha.
  - rewrite patched_frame by (unfold patch_keys; notin_list). exact Hc.
  - eexists. apply patched_field. unfold patch_set. in_list.
  - eexists. apply patched_field. unfold patch_set. in_list.
  - eexists. split; [apply patched_field; unfold patch_set; in_list|].
    apply (budget_rejected_false _ _ Hb).
  - eexists. split; [apply patched_field; unfold patch_set; in_list|].
    apply ToBoolean_VStr. exact Ht.
  - eexists. split; [apply patched_field; unfold patch_set; in_list|].
    apply ToBoolean_VStr. exact Hd.
Qed.

Lemma reachable_tasks_well_formed H s :
  reachable H s -> Forall task_well_formed (tasks s).
Proof.
  apply reachable_tasks.
  - intros E req t. apply created_well_formed.
  - intros E req t d. apply patched_well_formed.
Qed.

Lemma reachable_once H s s' : reachable H s -> served H s s' -> reachable H s'.
Proof. intros Hs Hstep. unfold reachable in *. eapply rtc_r; eassumption. Qed.

(** X20. No handler changes the status of a task: in every database the
    backend can reach from empty collections, whatever requests were served
    and whatever failed, every stored task has the status ["open"]. *)
Theorem status_is_never_changed H s d :
  reachable H s -> d ∈ tasks s -> d !! "status" = Some (VStr "open").
Proof.
  intros Hs Hd.
  apply (proj1 (Forall_forall _ _) (reachable_tasks_well_formed H s Hs) d Hd).
Qed.

Lemma status_is_never_changed_witness :
  patched sample_host sample_env sample_patch 1735689600000
          (created sample_host sample_env (sample_post (VStr "150.5")) 1735689600000)
    !! "status"
  = Some (VStr "open").
Proof.
  apply (status_is_never_changed sample_host
           (run (patch_task sample_host sample_env "000000000000000000000002"
                            (VStr "owner@x.com") sample_patch)
                (run (post_tasks sample_host sample_env (sample_post (VStr "150.5")))
                     empty_db []).2 []).2).
  - eapply reachable_once; [eapply reachable_once; [apply rtc_refl|]|].
    + apply (served_post_tasks sample_host sample_env (sample_post (VStr "150.5"))
               empty_db []).
    + apply served_patch_task.
  - vm_compute. left.
Defined.

(** X21. Author emails are stored in lower case: in every reachable
    database every task has a string as [author.email], and lower-casing it
    changes nothing. So the comparison of [PATCH] and [DELETE], which
    lower-cases only the caller's side, compares like with like. *)
Theorem stored_author_emails_are_lower_case H s d :
  reachable H s -> d ∈ tasks s ->
  exists e, author_email d = VStr e /\ toLowerCase e = e.
Proof.
  intros Hs Hd.
  apply (proj1 (Forall_forall _ _) (reachable_tasks_well_formed H s Hs) d Hd).
Qed.

Lemma stored_author_emails_are_lower_case_witness :
  exists e,
    author_email (created sample_host sample_env (sample_post (VStr "150.5"))
                          1735689600000) = VStr e
    /\ toLowerCase e = e.
Proof.
  apply (stored_author_emails_are_lower_case sample_host
           (run (post_tasks sample_host sample_env (sample_post (VStr "150.5")))
                empty_db []).2).
  - eapply reachable_once; [apply rtc_refl|].
    apply (served_post_tasks sample_host sample_env (sample_post (VStr "150.5"))
             empty_db []).
  - vm_compute. left.
Defined.

(** X22. Stored tasks keep the shape validation gave them: in every
    reachable database every task has a number that is not NaN as budget,
    dates as deadline, [createdAt] and [updatedAt], non-empty strings as
    title and description, and an identifier. *)
Theorem stored_tasks_keep_their_shape H s d :
  reachable H s -> d ∈ tasks s ->
  (exists n, d !! "budget" = Some (VNum n) /\ isNaN n = false)
  /\ (exists t, d !! "deadline" = Some (VDate t))
  /\ (exists t, d !! "createdAt" = Some (VDate t))
  /\ (exists t, d !! "updatedAt" = Some (VDate t))
  /\ (exists x, d !! "title" = Some (VStr x) /\ x <> "")
  /\ (exists x, d !! "description" = Some (VStr x) /\ x <> "")
  /\ (exists o, d !! "_id" = Some (VOid o)).
Proof.
  intros Hs Hd.
  destruct (proj1 (Forall_forall _ _) (reachable_tasks_well_formed H s Hs) d Hd)
    as (Hid & _ & _ & Hc & Hu & Hdl & Hb & Ht & Hde).
  repeat split; assumption.
Qed.

Lemma stored_tasks_keep_their_shape_witness :
  exists n,
    created sample_host sample_env (sample_post (VStr "150.5")) 1735689600000
      !! "budget" = Some (VNum n)
    /\ isNaN n = false.
Proof.
  destruct (stored_tasks_keep_their_shape sample_host
              (run (post_tasks sample_host sample_env (sample_post (VStr "150.5")))
                   empty_db []).2
              (created sample_host sample_env (sample_post (VStr "150.5"))
                       1735689600000)) as [Hb _].
  - eapply reachable_once; [apply rtc_refl|].
    apply (served_post_tasks sample_host sample_env (sample_post (VStr "150.5"))
             empty_db []).
  - vm_compute. left.
  - exact Hb.
Defined.

Lemma well_formed_listable H (d : doc) : task_well_formed d -> listable H d.
Proof.
  intros ((o & Hid) & _). unfold listable, field. rewrite Hid. split; reflexivity.
Qed.

(** X23. On a reachable database [GET /tasks] fails only when the store
    does: if the lookup is not rejected the answer is 200, and the items come
    newest first by the time of their creation. The email parameter, as for
    every listing, is one of which the string can be taken. *)
Theorem listing_succeeds_on_reachable H qe qc s fs :
  reachable H s -> has_string H qe -> ok_calls 1 fs ->
  exists docs,
    run (list_tasks H qe qc) s fs
    = (Ok {| status := 200; body := JArr (map (task_view H) docs) |}, s)
    /\ forall i j x y, (i < j)%nat -> docs !! i = Some x -> docs !! j = Some y ->
         exists tx ty, x !! "createdAt" = Some (VDate tx)
                       /\ y !! "createdAt" = Some (VDate ty)
                       /\ ty <= tx.
Proof.
  intros Hs Hqe Hok.
  pose proof (reachable_tasks_well_formed H s Hs) as Hwf.
  set (docs := take 100 (merge_sort (desc_by "createdAt")
                           (List.filter (selected H qe qc) (tasks s)))).
  assert (Hsub : forall d, d ∈ docs -> task_well_formed d).
  { intros d Hd. apply (subseteq_take 100) in Hd.
    rewrite merge_sort_Permutation in Hd.
    apply list_elem_of_In, filter_In in Hd as [Hd _].
    apply (proj1 (Forall_forall _ _) Hwf). apply list_elem_of_In. exact Hd. }
  exists docs. split.
  - apply list_tasks_listed; [|exact Hqe | exact Hok].
    eapply Forall_impl; [exact Hwf|]. intros d. apply well_formed_listable.
  - intros i j x y Hij Hi Hj.
    destruct (Hsub x) as (_ & _ & _ & (tx & Hx) & _);
      [apply list_elem_of_lookup; eauto|].
    destruct (Hsub y) as (_ & _ & _ & (ty & Hy) & _);
      [apply list_elem_of_lookup; eauto|].
    exists tx, ty. split; [exact Hx|]. split; [exact Hy|].
    assert (Hsorted : StronglySorted (desc_by "createdAt") docs).
    { apply (StronglySorted_app_1_l _ _
               (drop 100 (merge_sort (desc_by "createdAt")
                            (List.filter (selected H qe qc) (tasks s))))).
      unfold docs. rewrite take_drop. apply StronglySorted_merge_sort; apply _. }
    pose proof (StronglySorted_lookup _ _ i j x y Hsorted Hij Hi Hj) as Hxy.
    unfold desc_by, key_le in Hxy. rewrite Hx, Hy in Hxy. simpl in Hxy. lia.
Qed.

Lemma listing_succeeds_on_reachable_witness :
  exists docs,
    run (list_tasks sample_host VUndef VUndef)
        (run (post_tasks sample_host sample_env (sample_post (VStr "150.5")))
             empty_db []).2 []
    = (Ok {| status := 200; body := JArr (map (task_view sample_host) docs) |},
       (run (post_tasks sample_host sample_env (sample_post (VStr "150.5")))
            empty_db []).2).
Proof.
  destruct (listing_succeeds_on_reachable sample_host VUndef VUndef
              (run (post_tasks sample_host sample_env (sample_post (VStr "150.5")))
                   empty_db []).2 [])
    as (docs & Hrun & _).
  - eapply reachable_once; [apply rtc_refl|].
    apply (served_post_tasks sample_host sample_env (sample_post (VStr "150.5"))
             empty_db []).
  - reflexivity.
  - apply ok_calls_nil.
  - exists docs. exact Hrun.
Defined.

(** ** Stored users *)

Lemma with_default_not_undefined (v : value) (s : string) :
  with_default v (VStr s) <> VUndef.
Proof. destruct v; discriminate. Qed.

Lemma upsert_fields_cases (P : string -> Prop) :
  P "name" -> P "photo" -> P "bio" -> P "authProvider" ->
  P "createdAt" -> P "updatedAt" -> forall k, k ∈ upsert_fields -> P k.
Proof.
  intros H1 H3 H4 H5 H6 H7 k Hk. unfold upsert_fields in Hk.
  repeat (apply elem_of_cons in Hk as [-> | Hk]; [assumption|]). inversion Hk.
Qed.

Lemma user_fields_cases (P : string -> Prop) :
  P "email" -> (forall k, k ∈ upsert_fields -> P k) -> forall k, k ∈ user_fields -> P k.
Proof.
  intros He Hrest k Hk. unfold user_fields in Hk.
  repeat (apply elem_of_cons in Hk as [-> | Hk];
          [first [exact He | apply Hrest; unfold upsert_fields; in_list]|]).
  inversion Hk.
Qed.

Lemma new_user_well_formed H E req : user_well_formed (new_user H E req).
Proof.
  destruct (new_user_written H E req) as (Hid & Hc & Hn & Hp & Hbio & Ha & Hu).
  unfold user_well_formed. refine (conj _ (conj _ (conj _ _))).
  - eauto.
  - eauto.
  - eauto.
  - apply upsert_fields_cases; eexists; (split; [eassumption|]);
      first [apply with_default_not_undefined | discriminate].
Qed.

Lemma refreshed_well_formed E req (old : doc) :
  user_well_formed old -> user_well_formed (refreshed E req old).
Proof.
  intros (Hid & Hc & _ & Hall).
  destruct (refreshed_reflects E req old) as (Hn & Hp & Hbio & Ha & Hu).
  unfold user_well_formed. refine (conj _ (conj _ (conj _ _))).
  - rewrite refreshed_keeps by notin_list. exact Hid.
  - rewrite refreshed_keeps by notin_list. exact Hc.
  - eauto.
  - apply upsert_fields_cases;
      try (eexists; (split; [eassumption|]);
           first [apply with_default_not_undefined | discriminate]).
    rewrite refreshed_keeps by notin_list. apply Hall. unfold upsert_fields. in_list.
Qed.

Lemma reachable_users_well_formed H s :
  reachable H s -> Forall user_well_formed (users s).
Proof.
  unfold reachable.
  apply (rtc_ind_r (fun s => Forall user_well_formed (users s))); [constructor|].
  intros s1 s2 _ Hstep IH.
  destruct (served_users_shape H s1 s2 Hstep)
    as [-> | [(E & req & Hb & _ & ->) | (E & req & l1 & old & l2 & Hl & ->)]].
  - exact IH.
  - apply Forall_app. split; [exact IH|]. constructor; [|constructor].
    apply new_user_well_formed.
  - rewrite Hl in IH. apply Forall_app in IH as [IH1 IH2].
    apply Forall_cons in IH2 as [Hold IH2]. apply Forall_app. split; [exact IH1|].
    constructor; [|exact IH2]. apply refreshed_well_formed. exact Hold.
Qed.

(** A user found under a string email has an email member. *)
Lemma found_user_has_email H (l : list doc) (e : string) (d : doc) :
  List.find (matches H [("email", VStr e)]) l = Some d ->
  d ∈ l /\ exists v, d !! "email" = Some v /\ v <> VUndef.
Proof.
  intros Hf. destruct (find_split _ _ _ Hf) as (l1 & l2 & -> & _ & Hm).
  split; [apply elem_of_app; right; left|].
  rewrite matches_email_field in Hm.
  destruct (d !! "email") as [v|]; [|discriminate].
  exists v. split; [reflexivity|]. intros ->. discriminate.
Qed.

Lemma complete_user_view (d : doc) :
  user_well_formed d -> (exists v, d !! "email" = Some v /\ v <> VUndef) ->
  forall k, (is_Some (user_view d !! k) <-> k ∈ user_fields)
            /\ (k ∈ user_fields -> user_view d !! k = d !! k).
Proof.
  intros (_ & _ & _ & Hall) Hemail k.
  assert (Hk : k ∈ user_fields -> exists v, d !! k = Some v /\ v <> VUndef).
  { revert k. apply user_fields_cases; [exact Hemail | exact Hall]. }
  rewrite user_view_lookup. case_bool_decide as Hin.
  - destruct (Hk Hin) as (v & Hv & Hdef). rewrite Hv.
    assert (Hp : present (Some v) = Some v)
      by (destruct v; first [reflexivity | congruence]).
    rewrite Hp. split; [split; [intros _; exact Hin | intros _; eauto] | reflexivity].
  - split; [split; [intros [v Hv]; discriminate | intros Hk'; contradiction]
           | intros Hk'; contradiction].
Qed.

(** X24. Every stored user carries what every upsert writes: in every
    reachable database each user document has [name], [photo], [bio],
    [authProvider], [createdAt] and [updatedAt], and [GET /users/:email]
    shows them as stored. A user that [GET /users/:email] finds also has an
    [email]: the body of every 200 has exactly the seven members [name],
    [email], [photo], [bio], [authProvider], [createdAt] and [updatedAt],
    with the values of a stored user. *)
Theorem stored_users_are_complete H s :
  reachable H s ->
  (forall d k, d ∈ users s -> k ∈ upsert_fields ->
               is_Some (d !! k) /\ user_view d !! k = d !! k)
  /\ (forall e fs r s',
        run (get_user H e) s fs = (Ok r, s') -> status r = 200 ->
        exists d,
          d ∈ users s
          /\ body r = JObj (user_view d)
          /\ forall k, (is_Some (user_view d !! k) <-> k ∈ user_fields)
                       /\ (k ∈ user_fields -> user_view d !! k = d !! k)).
Proof.
  intros Hs. pose proof (reachable_users_well_formed H s Hs) as Hwf.
  split.
  - intros d k Hd Hk.
    destruct (proj1 (Forall_forall _ _) Hwf d Hd) as (_ & _ & _ & Hall).
    destruct (Hall k Hk) as (v & Hv & Hdef).
    split; [rewrite Hv; eauto|].
    rewrite user_view_lookup, bool_decide_eq_true_2, Hv.
    + destruct v; first [reflexivity | congruence].
    + revert Hk. unfold upsert_fields, user_fields. rewrite !list_elem_of_In.
      simpl. tauto.
  - intros e fs r s'. rewrite get_user_run.
    assert (Hfound : forall x d,
              List.find (matches H [("email", VStr x)]) (users s) = Some d ->
              exists d0, d0 ∈ users s
                /\ JObj (user_view d) = JObj (user_view d0)
                /\ forall k, (is_Some (user_view d0 !! k) <-> k ∈ user_fields)
                             /\ (k ∈ user_fields -> user_view d0 !! k = d0 !! k)).
    { intros x d Hf. destruct (found_user_has_email H _ _ _ Hf) as [Hd Hemail].
      exists d. split; [exact Hd|]. split; [reflexivity|].
      apply complete_user_view; [|exact Hemail].
      apply (proj1 (Forall_forall _ _) Hwf d Hd). }
    destruct (ToBoolean (VStr e)); cbn [negb]; [|other_status].
    destruct (first_fault fs); [other_status|].
    destruct (List.find (matches H [("email", VStr e)]) (users s)) as [d|] eqn:Hf.
    { intros [= <- _] _. apply (Hfound e d Hf). }
    destruct (first_fault (tail fs)); [other_status|].
    destruct (List.find (matches H [("email", VStr (toLowerCase e))]) (users s))
      as [d|] eqn:Hf'; [|other_status].
    intros [= <- _] _. apply (Hfound _ d Hf').
Qed.

Lemma stored_users_are_complete_witness :
  is_Some (new_user sample_host sample_env operator_signup !! "bio")
  /\ new_user sample_host sample_env operator_signup !! "email" = None
  /\ exists d,
       d ∈ users (run (post_users sample_host sample_env bare_signup) empty_db []).2
       /\ forall k, is_Some (user_view d !! k) <-> k ∈ user_fields.
Proof.
  assert (Hr1 : reachable sample_host
                  (run (post_users sample_host sample_env operator_signup)
                       empty_db []).2).
  { eapply reachable_once; [apply rtc_refl|].
    apply (served_post_users sample_host sample_env operator_signup empty_db []). }
  assert (Hr2 : reachable sample_host
                  (run (post_users sample_host sample_env bare_signup) empty_db []).2).
  { eapply reachable_once; [apply rtc_refl|].
    apply (served_post_users sample_host sample_env bare_signup empty_db []). }
  split; [|split].
  - destruct (stored_users_are_complete sample_host _ Hr1) as [Hall _].
    apply (Hall (new_user sample_host sample_env operator_signup) "bio").
    + vm_compute. left.
    + unfold upsert_fields. in_list.
  - vm_compute. reflexivity.
  - destruct (stored_users_are_complete sample_host _ Hr2) as [_ Hget].
    destruct (Hget "a@x.com" []
                {| status := 200;
                   body := JObj (user_view (new_user sample_host sample_env
                                                     bare_signup)) |}
                (run (post_users sample_host sample_env bare_signup) empty_db []).2)
      as (d & Hd & _ & Hk).
    + vm_compute. reflexivity.
    + reflexivity.
    + exists d. split; [exact Hd|]. intros k. apply Hk.
Defined.

Lemma has_email_matches H (e : string) (d : doc) :
  has_email e d = true -> matches H [("email", VStr e)] d = true.
Proof.
  unfold has_email. destruct (d !! "email") as [[| | | |x| | | |]|] eqn:Hd;
    try discriminate.
  intros Heq. apply String.eqb_eq in Heq as ->. apply matches_email. exact Hd.
Qed.

Lemma filter_none {A} (p : A -> bool) (l : list A) :
  Forall (fun x => p x = false) l -> List.filter p l = [].
Proof.
  intros Hl. induction Hl as [|x l Hx _ IH]; [reflexivity|].
  simpl. rewrite Hx. exact IH.
Qed.

(** X25. An upsert keeps the emails apart: where at most one stored user
    carries a string as its email, this is still so after a [POST /users]
    whose email is compared as a literal (a string, a number, a boolean, an
    array, an object without operators), whatever the answer. An operator
    document is excluded: what an upsert copies from it is the store's
    affair. *)
Theorem one_user_per_email H E req s fs e :
  operator_doc (body_field req "email") = None ->
  at_most_one e s ->
  at_most_one e (run (post_users H E req) s fs).2.
Proof.
  intros Hlit. unfold at_most_one.
  destruct (post_users_outcome H E req s fs)
    as (r & s' & -> & [(_ & Hb & Hf & ->)
                      | [(_ & _ & old & l1 & l2 & Hl & _ & _ & ->) | (_ & ->)]]);
    cbn [snd users]; intros IH.
  - rewrite List.filter_app, length_app. cbn [List.filter].
    destruct (has_email e (new_user H E req)) eqn:Hnew; [|simpl; lia].
    rewrite filter_none; [simpl; lia|].
    unfold has_email in Hnew. rewrite (new_user_email H E req Hlit) in Hnew.
    destruct (body_field req "email") as [| | | |x| | | |]; try discriminate.
    apply String.eqb_eq in Hnew as ->.
    eapply Forall_impl; [apply (find_none_forall _ _ Hf)|].
    intros d Hd. cbv beta in Hd. destruct (has_email e d) eqn:Hde; [|reflexivity].
    rewrite (has_email_matches H _ _ Hde) in Hd. discriminate.
  - rewrite Hl in IH. rewrite List.filter_app, length_app in *. cbn [List.filter] in *.
    assert (Hsame : has_email e (refreshed E req old) = has_email e old).
    { unfold has_email. rewrite refreshed_keeps by notin_list. reflexivity. }
    rewrite Hsame. destruct (has_email e old); exact IH.
  - exact IH.
Qed.

Lemma one_user_per_email_witness :
  at_most_one "a@x.com"
    (run (post_users sample_host later_env full_signup)
         (run (post_users sample_host sample_env bare_signup) empty_db []).2 []).2.
Proof.
  apply (one_user_per_email sample_host later_env full_signup); [reflexivity|].
  apply (one_user_per_email sample_host sample_env bare_signup); [reflexivity|].
  unfold at_most_one. simpl. lia.
Defined.

(** ** A task without an identifier *)

Lemma mapM_normalize_throws H (docs : list doc) (d : doc) w :
  d ∈ docs -> is_nullish (field d "_id") = true ->
  exists e, mapM (normalize H) docs w = (Throw e, w).
Proof.
  intros Hd Hnull. induction docs as [|x docs IH]; [inversion Hd|].
  cbn [mapM]. unfold mbind, M_bind at 1.
  destruct (normalize_state H x w) as [[y|e] Hx]; rewrite Hx; [|eauto].
  apply elem_of_cons in Hd as [-> | Hd].
  - unfold normalize in Hx. rewrite Hnull in Hx. discriminate.
  - fold (mapM (normalize H) docs). unfold M_bind at 1.
    destruct (IH Hd) as [e ->]. eauto.
Qed.

(** X26. One document without an identifier among those [GET /tasks] would
    return makes the whole request fail: turning its missing [_id] into a
    string throws, and the answer is the generic 500 instead of the list. *)
Theorem listing_fails_on_missing_id H qe qc s fs d :
  ok_calls 1 fs ->
  d ∈ take 100 (merge_sort (desc_by "createdAt")
                  (List.filter (selected H qe qc) (tasks s))) ->
  is_nullish (field d "_id") = true ->
  run (list_tasks H qe qc) s fs = (Ok internal_error, s).
Proof.
  intros Hok Hd Hnull. rewrite list_tasks_run.
  destruct (has_string_or_throws H qe) as [Hs | [e He]];
    [|rewrite (list_query_throws H qe qc e He); reflexivity].
  destruct (list_query_ok H qe qc Hs) as (q & -> & Hq).
  rewrite (ok_calls_first _ _ Hok), (filter_ext _ _ Hq).
  destruct (mapM_normalize_throws H _ d {| store := s; faults := tail fs |} Hd Hnull)
    as [e ->].
  reflexivity.
Qed.

Lemma listing_fails_on_missing_id_witness :
  run (list_tasks sample_host VUndef VUndef) headless_db []
  = (Ok internal_error, headless_db).
Proof.
  apply (listing_fails_on_missing_id sample_host VUndef VUndef headless_db []
           headless_task).
  - apply ok_calls_nil.
  - vm_compute. right. left.
  - vm_compute. reflexivity.
Defined.
